(** * PlotClimbs: cached loading and interval expansion of climb records

    A shallow embedding of [src/main.py] (class [PlotClimbs]).

    - Timestamps in the tables are [datetime64[s]] values: integers counting
      seconds, with [None] standing for [NaT] / a null cell.  A calendar day
      is 86400 consecutive seconds.
    - Readings of the wall clock ([datetime.now()], [datetime.today()], the
      modification time of a file) and ages are integers counting
      microseconds, the resolution of [datetime].
    - A data frame is the list of its rows; a column is the list obtained by
      mapping a projection over the rows.  The [id] column may hold nulls;
      grades are proper values compared with [==].
    - The methods run in a state-and-exception monad over [state], which holds
      the object attribute [self.climbs], the two pickle files, the answer of
      the remote API, the wall clock and the trace of observable effects
      (log lines, file operations, the HTTP request).  An uncaught Python
      exception is the outcome [Raise]; the effects performed before it
      remain in the state.
    - The matplotlib calls of [_climbs_grades] appear as effects only (the
      figure is created, the area chart is drawn, the window is shown, the
      image file is written) and are taken to succeed; what is drawn is the
      table [df_dates_grades_int]. *)

From Stdlib Require Import String ZArith QArith List Bool Lia Permutation Sorted.
Import ListNotations.
Local Open Scope Z_scope.

(** ** Exceptions *)

Inductive exn : Type :=
| AttributeError
| ValueError
| FileNotFoundError
| RequestException
| TypeError.

Inductive outcome (A : Type) : Type :=
| Ok (a : A)
| Raise (e : exn).

Arguments Ok {A} a.
Arguments Raise {A} e.

(** ** Time *)

(** One step of [freq='D'], in seconds. *)
Definition DAY : Z := 86400.

(** One second, in microseconds. *)
Definition SECOND : Z := 1000000.

(** [timedelta(days=n)], in microseconds. *)
Definition timedelta (days : Z) : Z := days * DAY * SECOND.

(** The value a [datetime64[s]] column takes for a [datetime] of [t]
    microseconds: only a whole number of seconds can be stored. *)
Definition as_datetime64_s (t : Z) : option Z :=
  if t mod SECOND =? 0 then Some (t / SECOND) else None.

(** The calendar day (days since the epoch) a timestamp falls on. *)
Definition calendar_day (t : Z) : Z := t / DAY.

(** The time of day of a timestamp, in seconds since midnight. *)
Definition time_of_day (t : Z) : Z := t mod DAY.

(** ** Observable effects *)

Inductive log_msg : Type :=
| Starting
| LoadingPickle (f : string) (age : Z) (limit : option Z)
| LoadingPickleDone
| LoadingDataFromAPI
| SavingPickle
| SavingPickleTo (f : string)
| IndexCreated
| DataJoined
| ColumnAdded.

Inductive event : Type :=
| Log (m : log_msg)
| Exists (f : string)
| Stat (f : string)
| ReadPickle (f : string)
| ToPickle (f : string)
| HttpGet (url : string)
| Subplots
| PlotArea
| Show
| SaveFig (f : string).

Definition URL_CLIMBS : string := "https://api.toplogger.nu/v1/gyms/21/climbs/".

(** ** Generic pandas helpers *)

Definition notna {A : Type} (x : option A) : bool :=
  match x with Some _ => true | None => false end.

(** [Series.dropna()] *)
Fixpoint dropna {A : Type} (col : list (option A)) : list A :=
  match col with
  | [] => []
  | Some x :: r => x :: dropna r
  | None :: r => dropna r
  end.

(** [Series.count()]: the number of non-null cells. *)
Definition series_count {A : Type} (col : list (option A)) : Z :=
  Z.of_nat (length (dropna col)).

(** [Series.min()] and [Series.max()] of a timestamp column without nulls;
    [None] is the [NaT] pandas returns for an empty column. *)
Definition series_min (col : list Z) : option Z :=
  match col with
  | [] => None
  | x :: r => Some (fold_left Z.min r x)
  end.

Definition series_max (col : list Z) : option Z :=
  match col with
  | [] => None
  | x :: r => Some (fold_left Z.max r x)
  end.

(** [pd.date_range(start, stop, freq='D')] for two proper timestamps: the
    values [start], [start + 1 day], ... that do not exceed [stop]. *)
Definition date_range (start stop : Z) : list Z :=
  map (fun k => start + Z.of_nat k * DAY)
      (seq 0 (Z.to_nat ((stop - start) / DAY + 1))).

(** [col <= d] and [col >= d] on one cell of a timestamp column: a comparison
    with [NaT] is [False]. *)
Definition le_date (x : option Z) (d : Z) : bool :=
  match x with Some t => t <=? d | None => false end.

Definition ge_date (x : option Z) (d : Z) : bool :=
  match x with Some t => t >=? d | None => false end.

(** A pickle file: its content and its modification time. *)
Record file (T : Type) : Type := mkfile { content : T; st_mtime : Z }.

Arguments mkfile {T} content st_mtime.
Arguments content {T} f.
Arguments st_mtime {T} f.

(** Grade values are used through Python's [==] (column comparison,
    [unique]) and [<] ([sorted]) only. *)
Class GradeOps (Grade : Type) : Type := {
  Grade_eq_dec : forall x y : Grade, {x = y} + {x <> y};
  Grade_leb : Grade -> Grade -> bool
}.

Section PlotClimbs.

Variable Grade : Type.
Context {ops : GradeOps Grade}.

Definition grade_eqb (x y : Grade) : bool :=
  if Grade_eq_dec x y then true else false.

(** ** Data model *)

(** One row of the climbs table. *)
Record climb : Type := mkclimb {
  id : option Z;
  grade : Grade;
  date_live_start : option Z;
  date_live_end : option Z
}.

(** One row of the dates/grades table: columns [date], [grade], [count]. *)
Record cell : Type := mkcell {
  date : Z;
  cell_grade : Grade;
  count : Z
}.

(** The two cache files, typed by what they hold. *)
Inductive path : Type -> Type :=
| _DF_CLIMBS_PICKLE_PATH : path (list climb)
| _DF_DATES_GRADES_PICKLE_PATH : path (list cell).

Definition path_name {T : Type} (f : path T) : string :=
  match f with
  | _DF_CLIMBS_PICKLE_PATH => "df_climbs.pkl"
  | _DF_DATES_GRADES_PICKLE_PATH => "df_dates_grades.pkl"
  end.

(** The state the methods act on.  [clock] is the sequence of readings of the
    wall clock and [tick] the number of readings taken so far; [trace] lists
    the effects performed, the most recent first. *)
Record state : Type := mkstate {
  self_climbs : list climb;
  df_climbs_pkl : option (file (list climb));
  df_dates_grades_pkl : option (file (list cell));
  api_response : outcome (list climb);
  clock : nat -> Z;
  tick : nat;
  trace : list event
}.

Definition fs_get {T : Type} (f : path T) (s : state) : option (file T) :=
  match f in path T return option (file T) with
  | _DF_CLIMBS_PICKLE_PATH => df_climbs_pkl s
  | _DF_DATES_GRADES_PICKLE_PATH => df_dates_grades_pkl s
  end.

Definition fs_put {T : Type} (f : path T) : file T -> state -> state :=
  match f in path T return file T -> state -> state with
  | _DF_CLIMBS_PICKLE_PATH => fun x s =>
      mkstate (self_climbs s) (Some x) (df_dates_grades_pkl s)
              (api_response s) (clock s) (tick s) (trace s)
  | _DF_DATES_GRADES_PICKLE_PATH => fun x s =>
      mkstate (self_climbs s) (df_climbs_pkl s) (Some x)
              (api_response s) (clock s) (tick s) (trace s)
  end.

Definition set_self_climbs (df : list climb) (s : state) : state :=
  mkstate df (df_climbs_pkl s) (df_dates_grades_pkl s)
          (api_response s) (clock s) (tick s) (trace s).

Definition set_tick (n : nat) (s : state) : state :=
  mkstate (self_climbs s) (df_climbs_pkl s) (df_dates_grades_pkl s)
          (api_response s) (clock s) n (trace s).

Definition set_trace (t : list event) (s : state) : state :=
  mkstate (self_climbs s) (df_climbs_pkl s) (df_dates_grades_pkl s)
          (api_response s) (clock s) (tick s) t.

(** ** The monad *)

Definition M (A : Type) : Type := state -> outcome A * state.

Definition ret {A : Type} (a : A) : M A := fun s => (Ok a, s).

Definition raise {A : Type} (e : exn) : M A := fun s => (Raise e, s).

Definition bind {A B : Type} (m : M A) (k : A -> M B) : M B :=
  fun s =>
    match m s with
    | (Ok a, s') => k a s'
    | (Raise e, s') => (Raise e, s')
    end.

Notation "x <- m ;; k" := (bind m (fun x => k))
  (at level 61, m at next level, right associativity).
Notation "m ;;; k" := (bind m (fun _ => k))
  (at level 61, right associativity).

Definition gets {A : Type} (p : state -> A) : M A := fun s => (Ok (p s), s).

Definition modify (u : state -> state) : M unit := fun s => (Ok tt, u s).

Fixpoint mapM {A B : Type} (f : A -> M B) (l : list A) : M (list B) :=
  match l with
  | [] => ret []
  | x :: r => y <- f x ;; ys <- mapM f r ;; ret (y :: ys)
  end.

(** ** Primitive effects *)

Definition emit (e : event) : M unit :=
  modify (fun s => set_trace (e :: trace s) s).

(** [logging.info] *)
Definition logging_info (m : log_msg) : M unit := emit (Log m).

(** [datetime.now()] / [datetime.today()]: the next reading of the clock, in
    microseconds. *)
Definition datetime_now : M Z :=
  fun s => (Ok (clock s (tick s)), set_tick (S (tick s)) s).

(** [f.exists()] *)
Definition path_exists {T : Type} (f : path T) : M bool :=
  emit (Exists (path_name f)) ;;;
  gets (fun s => notna (fs_get f s)).

(** [f.stat().st_mtime] *)
Definition path_stat_mtime {T : Type} (f : path T) : M Z :=
  emit (Stat (path_name f)) ;;;
  x <- gets (fs_get f) ;;
  match x with
  | Some fl => ret (st_mtime fl)
  | None => raise FileNotFoundError
  end.

(** [pd.read_pickle(f)] *)
Definition read_pickle {T : Type} (f : path T) : M T :=
  emit (ReadPickle (path_name f)) ;;;
  x <- gets (fs_get f) ;;
  match x with
  | Some fl => ret (content fl)
  | None => raise FileNotFoundError
  end.

(** [df.to_pickle(str(f))]: the file is replaced and stamped with the time of
    the write. *)
Definition to_pickle {T : Type} (df : T) (f : path T) : M unit :=
  emit (ToPickle (path_name f)) ;;;
  t <- datetime_now ;;
  modify (fs_put f (mkfile df t)).

(** [requests.get(url).json()] *)
Definition requests_get_json (url : string) : M (list climb) :=
  emit (HttpGet url) ;;;
  r <- gets api_response ;;
  match r with
  | Ok records => ret records
  | Raise e => raise e
  end.

(** [pd.date_range(date_min, date_max, freq='D')] on the results of
    [min()]/[max()]: a [NaT] bound raises [ValueError]. *)
Definition pd_date_range (date_min date_max : option Z) : M (list Z) :=
  match date_min, date_max with
  | Some a, Some b => ret (date_range a b)
  | _, _ => raise ValueError
  end.

(** ** Pure pieces of the methods *)

(** [Series.unique()]: the distinct values in order of first appearance. *)
Fixpoint unique (l : list Grade) : list Grade :=
  match l with
  | [] => []
  | x :: r => x :: filter (fun y => negb (grade_eqb y x)) (unique r)
  end.

(** [sorted(...)] *)
Fixpoint insert_sorted (x : Grade) (l : list Grade) : list Grade :=
  match l with
  | [] => [x]
  | y :: r => if Grade_leb x y then x :: l else y :: insert_sorted x r
  end.

Definition sorted (l : list Grade) : list Grade :=
  fold_right insert_sorted [] l.

(** Lines 55-58 of [_routes_avail_per_day], with [self.climbs] passed in. *)
Definition routes_avail (climbs : list climb) (date_grade : Z * Grade) : Z :=
  let '(d, g) := date_grade in
  let df_tmp := filter (fun c => grade_eqb (grade c) g) climbs in
  let df_tmp := filter (fun c => le_date (date_live_start c) d) df_tmp in
  let df_tmp := filter (fun c => ge_date (date_live_end c) d) df_tmp in
  series_count (map id df_tmp).

(** Line 82, [df.loc[df.date_live_end.isna(), 'date_live_end'] = today],
    once the value [today] is accepted by the [datetime64[s]] column (see
    [fetch_climbs]). *)
Definition fill_live_end (today : Z) (df : list climb) : list climb :=
  map (fun c =>
         if notna (date_live_end c) then c
         else mkclimb (id c) (grade c) (date_live_start c) (Some today))
      df.

(** Line 83: [df.dropna(subset=['date_live_start'], inplace=True)] *)
Definition dropna_live_start (df : list climb) : list climb :=
  filter (fun c => notna (date_live_start c)) df.

(** Lines 82-83 together: the normalisation of the fetched records. *)
Definition normalize (today : Z) (records : list climb) : list climb :=
  dropna_live_start (fill_live_end today records).

(** ** The methods *)

Definition _routes_avail_per_day (date_grade : Z * Grade) : M Z :=
  climbs <- gets self_climbs ;;
  ret (routes_avail climbs date_grade).

Definition _load_pickle {T : Type} (f : path T) (age_max : option Z)
  : M (option T) :=
  ex <- path_exists f ;;
  if ex then
    now <- datetime_now ;;
    mtime <- path_stat_mtime f ;;
    let age := now - mtime in
    if match age_max with None => true | Some a => age <? a end then
      logging_info (LoadingPickle (path_name f) age age_max) ;;;
      df <- read_pickle f ;;
      logging_info LoadingPickleDone ;;;
      ret (Some df)
    else ret None
  else ret None.

Definition _save_df_to_pickle {T : Type} (df : T) (f : path T) : M unit :=
  logging_info (SavingPickleTo (path_name f)) ;;;
  to_pickle df f.

(** Lines 77-85 of [_load_climbs]: fetching and normalising the records.  A
    response with no records makes a frame without columns, on which
    [df.date_live_start] raises [AttributeError].  Line 82 assigns
    [datetime.today()] into the column that line 81 cast to [datetime64[s]]:
    the assignment raises [TypeError] unless the reading is a whole number
    of seconds. *)
Definition fetch_climbs : M (list climb) :=
  logging_info LoadingDataFromAPI ;;;
  records <- requests_get_json URL_CLIMBS ;;
  match records with
  | [] => raise AttributeError
  | _ :: _ =>
      today <- datetime_now ;;
      match as_datetime64_s today with
      | None => raise TypeError
      | Some t =>
          let df := normalize t records in
          logging_info SavingPickle ;;;
          ret df
      end
  end.

Definition _load_climbs : M (list climb) :=
  r <- _load_pickle _DF_CLIMBS_PICKLE_PATH (Some (timedelta 10)) ;;
  match r with
  | Some df_pickle => ret df_pickle
  | None =>
      df <- fetch_climbs ;;
      _save_df_to_pickle df _DF_CLIMBS_PICKLE_PATH ;;;
      ret df
  end.

(** Lines 93-105 of [_load_dates_grades]: the interval expander. *)
Definition expand : M (list cell) :=
  starts <- gets (fun s => dropna (map date_live_start (self_climbs s))) ;;
  let date_min := series_min starts in
  let date_max := series_max starts in
  df_dates <- pd_date_range date_min date_max ;;
  grades <- gets (fun s => sorted (unique (map grade (self_climbs s)))) ;;
  let df := list_prod df_dates grades in
  logging_info IndexCreated ;;;
  result <- mapM _routes_avail_per_day df ;;
  logging_info DataJoined ;;;
  let df := map (fun rc => mkcell (fst (fst rc)) (snd (fst rc)) (snd rc))
                (combine df result) in
  logging_info ColumnAdded ;;;
  ret df.

Definition _load_dates_grades : M (list cell) :=
  r <- _load_pickle _DF_DATES_GRADES_PICKLE_PATH (Some (timedelta 10)) ;;
  match r with
  | Some df_pickle => ret df_pickle
  | None =>
      df <- expand ;;
      _save_df_to_pickle df _DF_DATES_GRADES_PICKLE_PATH ;;;
      ret df
  end.

(** [__init__] *)
Definition __init__ : M unit :=
  logging_info Starting ;;;
  climbs <- _load_climbs ;;
  modify (set_self_climbs climbs).

(** [_get_fig_ax]: [plt.subplots()]. *)
Definition _get_fig_ax : M unit := emit Subplots.

(** [_customise]: the axis settings; line 67 reads [datetime.today()] for the
    right end of the x axis. *)
Definition _customise : M unit :=
  today <- datetime_now ;;
  ret tt.

(** [_climbs_grades].  Lines 35-45 (the conversion of the grades, the
    grouping, the pivot, the area plot, the title and the legend) are one
    effect, taken to succeed; [df_dates_grades_int] below is the table they
    compute.  The method returns [None], and the model returns the table it
    loaded on line 34. *)
Definition _climbs_grades : M (list cell) :=
  _get_fig_ax ;;;
  df_dates_grades <- _load_dates_grades ;;
  emit PlotArea ;;;
  _customise ;;;
  emit Show ;;;
  emit (SaveFig "test.png") ;;;
  ret df_dates_grades.

Definition main : M (list cell) := _climbs_grades.

(** [PlotClimbs().main()] *)
Definition run : M (list cell) := __init__ ;;; main.

End PlotClimbs.

Arguments grade_eqb {Grade ops} x y.
Arguments mkclimb {Grade} id grade date_live_start date_live_end.
Arguments id {Grade} c.
Arguments grade {Grade} c.
Arguments date_live_start {Grade} c.
Arguments date_live_end {Grade} c.
Arguments mkcell {Grade} date cell_grade count.
Arguments date {Grade} c.
Arguments cell_grade {Grade} c.
Arguments count {Grade} c.
Arguments _DF_CLIMBS_PICKLE_PATH {Grade}.
Arguments _DF_DATES_GRADES_PICKLE_PATH {Grade}.
Arguments path_name {Grade T} f.
Arguments mkstate {Grade}.
Arguments self_climbs {Grade} s.
Arguments df_climbs_pkl {Grade} s.
Arguments df_dates_grades_pkl {Grade} s.
Arguments api_response {Grade} s.
Arguments clock {Grade} s.
Arguments tick {Grade} s.
Arguments trace {Grade} s.
Arguments fs_get {Grade T} f s.
Arguments fs_put {Grade T} f.
Arguments set_self_climbs {Grade} df s.
Arguments set_tick {Grade} n s.
Arguments set_trace {Grade} t s.
Arguments ret {Grade A} a.
Arguments raise {Grade A} e.
Arguments bind {Grade A B} m k.
Arguments gets {Grade A} p.
Arguments modify {Grade} u.
Arguments mapM {Grade A B} f l.
Arguments emit {Grade} e.
Arguments logging_info {Grade} m.
Arguments datetime_now {Grade}.
Arguments path_exists {Grade T} f.
Arguments path_stat_mtime {Grade T} f.
Arguments read_pickle {Grade T} f.
Arguments to_pickle {Grade T} df f.
Arguments requests_get_json {Grade} url.
Arguments pd_date_range {Grade} date_min date_max.
Arguments unique {Grade ops} l.
Arguments insert_sorted {Grade ops} x l.
Arguments sorted {Grade ops} l.
Arguments routes_avail {Grade ops} climbs date_grade.
Arguments fill_live_end {Grade} today df.
Arguments dropna_live_start {Grade} df.
Arguments normalize {Grade} today records.
Arguments _routes_avail_per_day {Grade ops} date_grade.
Arguments _load_pickle {Grade T} f age_max.
Arguments _save_df_to_pickle {Grade T} df f.
Arguments fetch_climbs {Grade}.
Arguments _load_climbs {Grade}.
Arguments expand {Grade ops}.
Arguments _load_dates_grades {Grade ops}.
Arguments __init__ {Grade}.
Arguments _get_fig_ax {Grade}.
Arguments _customise {Grade}.
Arguments _climbs_grades {Grade ops}.
Arguments main {Grade ops}.
Arguments run {Grade ops}.

Notation "x <- m ;; k" := (bind m (fun x => k))
  (at level 61, m at next level, right associativity).
Notation "m ;;; k" := (bind m (fun _ => k))
  (at level 61, right associativity).

(** Numeric grades. *)
#[export] Instance Z_GradeOps : GradeOps Z := {|
  Grade_eq_dec := Z.eq_dec;
  Grade_leb := Z.leb
|}.

(** ** Notions used in the statements *)

(** The non-null [date_live_start] values (lines 93-94). *)
Definition live_starts {Grade : Type} (climbs : list (climb Grade)) : list Z :=
  dropna (map date_live_start climbs).

(** The date axis [df_dates] of lines 93-96; empty when [pd.date_range]
    raises. *)
Definition date_axis {Grade : Type} (climbs : list (climb Grade)) : list Z :=
  match series_min (live_starts climbs), series_max (live_starts climbs) with
  | Some a, Some b => date_range a b
  | _, _ => []
  end.

(** The grade axis [grades] of line 98. *)
Definition grade_axis {Grade : Type} {ops : GradeOps Grade}
  (climbs : list (climb Grade)) : list Grade :=
  sorted (unique (map grade climbs)).

(** The table of lines 100-104: one row per pair of the cross merge, with the
    count the row-wise [apply] computes. *)
Definition expand_rows {Grade : Type} {ops : GradeOps Grade}
  (climbs : list (climb Grade)) : list (cell Grade) :=
  map (fun dg => mkcell (fst dg) (snd dg) (routes_avail climbs dg))
      (list_prod (date_axis climbs) (grade_axis climbs)).

(** [d] lies in the interval of [c], both ends included. *)
Definition live_on {Grade : Type} (c : climb Grade) (d : Z) : Prop :=
  exists a b,
    date_live_start c = Some a /\ date_live_end c = Some b /\ a <= d <= b.

Definition live_onb {Grade : Type} (c : climb Grade) (d : Z) : bool :=
  le_date (date_live_start c) d && ge_date (date_live_end c) d.

(** The rows matching a cell: same grade, interval containing the date. *)
Definition matches {Grade : Type} {ops : GradeOps Grade}
  (d : Z) (g : Grade) (c : climb Grade) : bool :=
  grade_eqb (grade c) g && live_onb c d.

Definition matching_rows {Grade : Type} {ops : GradeOps Grade}
  (climbs : list (climb Grade)) (d : Z) (g : Grade) : list (climb Grade) :=
  filter (matches d g) climbs.

(** The distinct grade values of a table. *)
Definition distinct_grades {Grade : Type} {ops : GradeOps Grade}
  (climbs : list (climb Grade)) : list Grade :=
  nodup Grade_eq_dec (map grade climbs).

Definition has_live_start {Grade : Type} (climbs : list (climb Grade)) : Prop :=
  exists c, In c climbs /\ date_live_start c <> None.

(** The invariant of the climbs table: no null in either date column. *)
Definition normalized {Grade : Type} (climbs : list (climb Grade)) : Prop :=
  Forall (fun c => date_live_start c <> None /\ date_live_end c <> None) climbs.

(** Number of calendar days from the day of [a] to the day of [b], both
    included. *)
Definition calendar_days (a b : Z) : Z := calendar_day b - calendar_day a + 1.

(** *** The cache *)

(** Line 118: [age_max is None or age < age_max]. *)
Definition fresh (age_max : option Z) (age : Z) : bool :=
  match age_max with None => true | Some a => age <? a end.

(** The entry [_load_pickle] returns in state [s], if any. *)
Definition cache_hit {Grade T : Type} (f : path Grade T) (age_max : option Z)
  (s : state Grade) : option T :=
  match fs_get f s with
  | Some fl =>
      if fresh age_max (clock s (tick s) - st_mtime fl)
      then Some (content fl) else None
  | None => None
  end.

(** The effects of [_load_pickle], the most recent first. *)
Definition load_pickle_events {Grade T : Type} (f : path Grade T)
  (age_max : option Z) (s : state Grade) : list event :=
  match fs_get f s with
  | Some fl =>
      let age := clock s (tick s) - st_mtime fl in
      if fresh age_max age then
        [Log LoadingPickleDone; ReadPickle (path_name f);
         Log (LoadingPickle (path_name f) age age_max);
         Stat (path_name f); Exists (path_name f)]
      else [Stat (path_name f); Exists (path_name f)]
  | None => [Exists (path_name f)]
  end.

(** The state [_load_pickle] leaves behind: the clock is read only when the
    file exists. *)
Definition after_load_pickle {Grade T : Type} (f : path Grade T)
  (age_max : option Z) (s : state Grade) : state Grade :=
  set_trace (load_pickle_events f age_max s ++ trace s)
            (match fs_get f s with
             | Some _ => set_tick (S (tick s)) s
             | None => s
             end).

(** The state [_save_df_to_pickle df f] leaves behind. *)
Definition after_save {Grade T : Type} (f : path Grade T) (df : T)
  (s : state Grade) : state Grade :=
  fs_put f (mkfile df (clock s (tick s)))
    (set_tick (S (tick s))
       (set_trace (ToPickle (path_name f)
                   :: Log (SavingPickleTo (path_name f)) :: trace s) s)).

(** The shape shared by [_load_climbs] and [_load_dates_grades]: the cache
    loader [load(cache_key, max_age, fetch_fn)]. *)
Definition load {Grade T : Type} (f : path Grade T) (age_max : option Z)
  (fetch_fn : M Grade T) : M Grade T :=
  r <- _load_pickle f age_max ;;
  match r with
  | Some df_pickle => ret df_pickle
  | None =>
      df <- fetch_fn ;;
      _save_df_to_pickle df f ;;;
      ret df
  end.

(** The state [expand] leaves behind when it returns. *)
Definition after_expand {Grade : Type} (s : state Grade) : state Grade :=
  set_trace (Log ColumnAdded :: Log DataJoined :: Log IndexCreated :: trace s) s.

(** The state [fetch_climbs] leaves behind: after the request, after the
    normalisation when the response has records, and after the failed
    assignment of line 82. *)
Definition after_request {Grade : Type} (s : state Grade) : state Grade :=
  set_trace (HttpGet URL_CLIMBS :: Log LoadingDataFromAPI :: trace s) s.

Definition after_type_error {Grade : Type} (s : state Grade) : state Grade :=
  set_trace (HttpGet URL_CLIMBS :: Log LoadingDataFromAPI :: trace s)
            (set_tick (S (tick s)) s).

(** The reading of the clock that line 82 takes when [_load_climbs] is called
    in state [s] and misses the cache: the first reading when there is no
    raw cache file, the second one when there is an expired file. *)
Definition fetch_reading {Grade : Type} (s : state Grade) : Z :=
  clock s (match df_climbs_pkl s with
           | Some _ => S (tick s)
           | None => tick s
           end).

(** The state the plotting part of [_climbs_grades] (lines 35-50) leaves
    behind. *)
Definition after_plot {Grade : Type} (s : state Grade) : state Grade :=
  set_trace (SaveFig "test.png" :: Show :: PlotArea :: trace s)
            (set_tick (S (tick s)) s).

Definition after_fetch {Grade : Type} (s : state Grade) : state Grade :=
  set_trace (Log SavingPickle :: HttpGet URL_CLIMBS
             :: Log LoadingDataFromAPI :: trace s)
            (set_tick (S (tick s)) s).

(** The effects of one call of [_load_climbs] in state [s], the most recent
    first. *)
Definition load_climbs_events {Grade : Type} (s : state Grade) : list event :=
  match cache_hit _DF_CLIMBS_PICKLE_PATH (Some (timedelta 10)) s with
  | Some _ => []
  | None =>
      match api_response s, as_datetime64_s (fetch_reading s) with
      | Ok (_ :: _), Some _ =>
          [ToPickle "df_climbs.pkl"; Log (SavingPickleTo "df_climbs.pkl");
           Log SavingPickle; HttpGet URL_CLIMBS; Log LoadingDataFromAPI]
      | _, _ => [HttpGet URL_CLIMBS; Log LoadingDataFromAPI]
      end
  end
  ++ load_pickle_events _DF_CLIMBS_PICKLE_PATH (Some (timedelta 10)) s.

(** The effects of one call of [_load_dates_grades] in state [s], the most
    recent first. *)
Definition load_dates_grades_events {Grade : Type} (s : state Grade)
  : list event :=
  match cache_hit _DF_DATES_GRADES_PICKLE_PATH (Some (timedelta 10)) s with
  | Some _ => []
  | None =>
      match series_min (live_starts (self_climbs s)) with
      | Some _ =>
          [ToPickle "df_dates_grades.pkl";
           Log (SavingPickleTo "df_dates_grades.pkl");
           Log ColumnAdded; Log DataJoined; Log IndexCreated]
      | None => []
      end
  end
  ++ load_pickle_events _DF_DATES_GRADES_PICKLE_PATH (Some (timedelta 10)) s.

(** *** Counting effects *)

Definition is_read (name : string) (e : event) : bool :=
  match e with ReadPickle n => String.eqb n name | _ => false end.

Definition is_write (name : string) (e : event) : bool :=
  match e with ToPickle n => String.eqb n name | _ => false end.

Definition is_any_read (e : event) : bool :=
  match e with ReadPickle _ => true | _ => false end.

(** Any file written: a pickle or the chart image. *)
Definition is_any_write (e : event) : bool :=
  match e with ToPickle _ | SaveFig _ => true | _ => false end.


Definition is_http_get (e : event) : bool :=
  match e with HttpGet _ => true | _ => false end.

(** The expander logs 'index created' once each time it runs. *)
Definition is_expand (e : event) : bool :=
  match e with Log IndexCreated => true | _ => false end.

Definition occurrences (p : event -> bool) (t : list event) : nat :=
  length (filter p t).

(** The events performed between state [s] and a later state [s']. *)
Definition new_events {Grade : Type} (s s' : state Grade) : list event :=
  firstn (length (trace s') - length (trace s)) (trace s').

(** Events that touch the raw cache or the remote API, and events that touch
    the derived cache. *)
Definition on_raw (e : event) : bool :=
  match e with
  | Exists n | Stat n | ReadPickle n | ToPickle n =>
      String.eqb n "df_climbs.pkl"
  | HttpGet _ => true
  | Log _ | Subplots | PlotArea | Show | SaveFig _ => false
  end.

Definition on_derived (e : event) : bool :=
  match e with
  | Exists n | Stat n | ReadPickle n | ToPickle n =>
      String.eqb n "df_dates_grades.pkl"
  | HttpGet _ => false
  | Log _ | Subplots | PlotArea | Show | SaveFig _ => false
  end.

(** ** Example inputs *)

(** A state with the given climbs table, no cache file, an API that fails,
    and a clock that reads 0, 1, 2, ... microseconds. *)
Definition offline_state (climbs : list (climb Z)) : state Z :=
  mkstate climbs None None (Raise RequestException)
          (fun n => Z.of_nat n) 0%nat [].

(** Three climbs over three days; the second one lives for a single
    instant, 1970-01-02 00:00. *)
Definition example_climbs : list (climb Z) :=
  [mkclimb (Some 1) 5 (Some 0) (Some 172800);
   mkclimb (Some 2) 6 (Some 86400) (Some 86400);
   mkclimb (Some 3) 5 (Some 172800) (Some 259200)].

Definition example_state : state Z := offline_state example_climbs.

(** One climb without an identifier, live for a single instant. *)
Definition null_id_climbs : list (climb Z) :=
  [mkclimb None 5 (Some 0) (Some 0)].

Definition null_id_state : state Z := offline_state null_id_climbs.

(** Two climbs: the first goes live on 1970-01-01 at 23:00, the second on
    1970-01-02 at 01:00. *)
Definition late_start_climbs : list (climb Z) :=
  [mkclimb (Some 1) 5 (Some 82800) (Some 172800);
   mkclimb (Some 2) 5 (Some 90000) (Some 172800)].

Definition late_start_state : state Z := offline_state late_start_climbs.

(** The records of a response: one still live, one without a start. *)
Definition example_records : list (climb Z) :=
  [mkclimb (Some 1) 5 (Some 0) None;
   mkclimb (Some 2) 6 None (Some 86400);
   mkclimb (Some 3) 6 (Some 86400) (Some 172800)].

(** A clock whose readings all fall on a whole second: 1000000 s,
    1000001 s, ... after the epoch, in microseconds. *)
Definition whole_second_clock (n : nat) : Z :=
  1000000000000 + 1000000 * Z.of_nat n.

(** A clock as [datetime.today()] reads it: 1000000.123456 s, then one
    second later at each reading. *)
Definition real_clock (n : nat) : Z :=
  1000000123456 + 1000000 * Z.of_nat n.

(** First run: no cache file, the API answers, every clock reading falls on
    a whole second. *)
Definition first_run_state : state Z :=
  mkstate [] None None (Ok example_records) whole_second_clock 0%nat [].

(** First run with a real clock. *)
Definition real_clock_state : state Z :=
  mkstate [] None None (Ok example_records) real_clock 0%nat [].

(** A derived cache written one hour ago, no raw cache. *)
Definition derived_only_state : state Z :=
  mkstate [] None (Some (mkfile [mkcell 0 5 1] 996400000000))
          (Ok example_records) whole_second_clock 0%nat [].

(** Both caches written one hour ago. *)
Definition cached_state : state Z :=
  mkstate [] (Some (mkfile example_climbs 996400000000))
          (Some (mkfile [mkcell 0 5 1] 996400000000)) (Ok example_records)
          whole_second_clock 0%nat [].

(** ** The table behind the chart (lines 34-38 of [_climbs_grades]) *)

(** Grade values as numbers: [Grade_to_int] is
    [.astype(float).astype(int)] on one cell of the grade column, and
    [Grade_sum] the [sum()] of a group of grade cells. *)
Class GradeNum (Grade : Type) : Type := {
  Grade_to_int : Grade -> Z;
  Grade_sum : list Grade -> Grade
}.

(** One row of [df_dates_grades_int]: the two key columns brought back by
    [reset_index()], then the summed [grade] and [count] columns. *)
Record group_row (Grade : Type) : Type := mkgroup_row {
  g_date : Z;
  grade_int : Z;
  g_grade : Grade;
  g_count : Z
}.

Arguments mkgroup_row {Grade} g_date grade_int g_grade g_count.
Arguments g_date {Grade} g.
Arguments grade_int {Grade} g.
Arguments g_grade {Grade} g.
Arguments g_count {Grade} g.

(** Lines 35-36: the column [grade_int] added to the table. *)
Definition add_grade_int {Grade : Type} {num : GradeNum Grade}
  (df : list (cell Grade)) : list (cell Grade * Z) :=
  map (fun r => (r, Grade_to_int (cell_grade r))) df.

(** The group key of a row: the columns [date] and [grade_int]. *)
Definition group_key {Grade : Type} (x : cell Grade * Z) : Z * Z :=
  (date (fst x), snd x).

Definition key_eqb (k1 k2 : Z * Z) : bool :=
  (fst k1 =? fst k2) && (snd k1 =? snd k2).

(** The order of group keys: by date, then by grade_int. *)
Definition key_leb (k1 k2 : Z * Z) : bool :=
  (fst k1 <? fst k2) || ((fst k1 =? fst k2) && (snd k1 <=? snd k2)).

Fixpoint unique_keys (l : list (Z * Z)) : list (Z * Z) :=
  match l with
  | [] => []
  | k :: r => k :: filter (fun k' => negb (key_eqb k' k)) (unique_keys r)
  end.

Fixpoint insert_key (k : Z * Z) (l : list (Z * Z)) : list (Z * Z) :=
  match l with
  | [] => [k]
  | k' :: r => if key_leb k k' then k :: l else k' :: insert_key k r
  end.

Definition sort_keys (l : list (Z * Z)) : list (Z * Z) :=
  fold_right insert_key [] l.

(** [Series.sum()] of an integer column. *)
Definition series_sum (col : list Z) : Z := fold_right Z.add 0 col.

(** The rows of one group. *)
Definition group_rows {Grade : Type} (df : list (cell Grade * Z))
  (k : Z * Z) : list (cell Grade * Z) :=
  filter (fun x => key_eqb (group_key x) k) df.

(** Line 38: [df.groupby(['date', 'grade_int']).sum().reset_index()]: one row
    per key that occurs, keys in ascending order, the other columns summed
    over the rows of the group. *)
Definition groupby_sum {Grade : Type} {num : GradeNum Grade}
  (df : list (cell Grade * Z)) : list (group_row Grade) :=
  map (fun k =>
         mkgroup_row (fst k) (snd k)
           (Grade_sum (map (fun x => cell_grade (fst x)) (group_rows df k)))
           (series_sum (map (fun x => count (fst x)) (group_rows df k))))
      (sort_keys (unique_keys (map group_key df))).

(** Lines 34-38 of [_climbs_grades]: the table [df_dates_grades_int] that is
    pivoted and plotted. *)
Definition df_dates_grades_int {Grade : Type} {ops : GradeOps Grade}
  {num : GradeNum Grade} : M Grade (list (group_row Grade)) :=
  df_dates_grades <- _load_dates_grades ;;
  ret (groupby_sum (add_grade_int df_dates_grades)).

(** Integer grades. *)
#[export] Instance Z_GradeNum : GradeNum Z := {|
  Grade_to_int := fun g => g;
  Grade_sum := series_sum
|}.

(** Fractional grades: a rational stands for the float64 cell of that
    value.  [NaN] and the infinities, on which [.astype(int)] raises, have no
    counterpart. *)
Definition Q_eq_dec (x y : Q) : {x = y} + {x <> y}.
Proof. decide equality; [apply Pos.eq_dec | apply Z.eq_dec]. Defined.

(** The bounds of [int64]. *)
Definition INT64_MIN : Z := -9223372036854775808.

Definition INT64_MAX : Z := 9223372036854775807.

(** [.astype(int)] on a float64 cell whose value truncates to [z]: the
    result is [z] when it fits [int64], and [INT64_MIN] when it does not. *)
Definition float_to_int64 (z : Z) : Z :=
  if (INT64_MIN <=? z) && (z <=? INT64_MAX) then z else INT64_MIN.

#[export] Instance Q_GradeOps : GradeOps Q := {|
  Grade_eq_dec := Q_eq_dec;
  Grade_leb := Qle_bool
|}.

(** The conversion truncates toward zero, within [int64]. *)
#[export] Instance Q_GradeNum : GradeNum Q := {|
  Grade_to_int := fun q => float_to_int64 (Z.quot (Qnum q) (Zpos (Qden q)));
  Grade_sum := fold_right Qplus (0 # 1)
|}.

(** Three climbs graded 5, 5.5 and 6, all live on 1970-01-01 and
    1970-01-02. *)
Definition fractional_climbs : list (climb Q) :=
  [mkclimb (Some 1) (5 # 1) (Some 0) (Some 172800);
   mkclimb (Some 2) (11 # 2) (Some 0) (Some 172800);
   mkclimb (Some 3) (6 # 1) (Some 86400) (Some 172800)].

Definition fractional_state : state Q :=
  mkstate fractional_climbs None None (Raise RequestException)
          (fun n => Z.of_nat n) 0%nat [].

(** A response whose only record has no live_start, on a first run. *)
Definition startless_records : list (climb Z) :=
  [mkclimb (Some 1) 5 None None].

Definition startless_state : state Z :=
  mkstate [] None None (Ok startless_records) whole_second_clock 0%nat [].

(** A raw cache holding the empty table, written one hour ago, and no
    derived cache. *)
Definition empty_cache_state : state Z :=
  mkstate [] (Some (mkfile [] 996400000000)) None (Ok example_records)
          real_clock 0%nat [].

(** * Properties *)

(** [find_event] shows that an event occurs in an explicit list;
    [all_events] checks a property on each event of an explicit list. *)
Ltac find_event :=
  simpl; repeat (first [left; reflexivity | right]).

Ltac all_events :=
  let e := fresh "e" in
  let H := fresh "H" in
  intros e H; simpl in H;
  repeat (destruct H as [<-|H]; [reflexivity|]); contradiction.

(** ** Columns, minima and the date range *)

Lemma dropna_In {A : Type} (col : list (option A)) (x : A) :
  In x (dropna col) <-> In (Some x) col.
Proof.
  induction col as [|[y|] r IH]; simpl.
  - tauto.
  - rewrite IH. split; intros [H|H]; auto; left; congruence.
  - rewrite IH. split; [auto|intros [H|H]; [discriminate|auto]].
Qed.

Lemma fold_min_spec (r : list Z) (x : Z) :
  let m := fold_left Z.min r x in
  (m = x \/ In m r) /\ m <= x /\ forall y, In y r -> m <= y.
Proof.
  revert x. induction r as [|z r IH]; intros x; simpl.
  - split; [auto|split; [lia|tauto]].
  - destruct (IH (Z.min x z)) as [Hin [Hle Hall]].
    split; [|split].
    + destruct Hin as [E|Hin]; [|auto].
      rewrite E. destruct (Z.min_spec x z) as [[_ ->]|[_ ->]]; auto.
    + lia.
    + intros y [<-|Hy]; [lia|auto].
Qed.

Lemma fold_max_spec (r : list Z) (x : Z) :
  let m := fold_left Z.max r x in
  (m = x \/ In m r) /\ x <= m /\ forall y, In y r -> y <= m.
Proof.
  revert x. induction r as [|z r IH]; intros x; simpl.
  - split; [auto|split; [lia|tauto]].
  - destruct (IH (Z.max x z)) as [Hin [Hle Hall]].
    split; [|split].
    + destruct Hin as [E|Hin]; [|auto].
      rewrite E. destruct (Z.max_spec x z) as [[_ ->]|[_ ->]]; auto.
    + lia.
    + intros y [<-|Hy]; [lia|auto].
Qed.

(** [series_min] returns the least element of a non-empty column. *)
Lemma series_min_spec (col : list Z) (m : Z) :
  series_min col = Some m -> In m col /\ forall y, In y col -> m <= y.
Proof.
  destruct col as [|x r]; simpl; [discriminate|].
  intros E. injection E as <-.
  destruct (fold_min_spec r x) as [Hin [Hle Hall]].
  split; [destruct Hin as [E|Hin]; [left; symmetry; exact E|right; exact Hin]|].
  intros y [<-|Hy]; auto.
Qed.

Lemma series_max_spec (col : list Z) (m : Z) :
  series_max col = Some m -> In m col /\ forall y, In y col -> y <= m.
Proof.
  destruct col as [|x r]; simpl; [discriminate|].
  intros E. injection E as <-.
  destruct (fold_max_spec r x) as [Hin [Hle Hall]].
  split; [destruct Hin as [E|Hin]; [left; symmetry; exact E|right; exact Hin]|].
  intros y [<-|Hy]; auto.
Qed.

Lemma series_min_max_some (col : list Z) :
  col <> [] -> exists a b, series_min col = Some a /\ series_max col = Some b.
Proof.
  destruct col as [|x r]; [congruence|]. intros _. simpl. eauto.
Qed.

Lemma series_min_le_max (col : list Z) (a b : Z) :
  series_min col = Some a -> series_max col = Some b -> a <= b.
Proof.
  intros Ha Hb.
  destruct (series_min_spec _ _ Ha) as [Hin _].
  destruct (series_max_spec _ _ Hb) as [_ Hall]. auto.
Qed.

Lemma DAY_pos : 0 < DAY.
Proof. reflexivity. Qed.

Lemma date_range_In (a b d : Z) :
  In d (date_range a b) <-> exists k, 0 <= k /\ d = a + k * DAY /\ d <= b.
Proof.
  unfold date_range. rewrite in_map_iff. pose proof DAY_pos as HD.
  split.
  - intros [n [<- Hn]]. apply in_seq in Hn. exists (Z.of_nat n).
    split; [lia|split; [reflexivity|]].
    assert (Hk : Z.of_nat n <= (b - a) / DAY) by lia.
    assert (DAY * ((b - a) / DAY) <= b - a)
      by (apply Z.mul_div_le; exact HD).
    nia.
  - intros [k [Hk [-> Hle]]]. exists (Z.to_nat k).
    split; [rewrite Z2Nat.id by lia; reflexivity|].
    apply in_seq. split; [lia|]. simpl.
    assert (k <= (b - a) / DAY) by (apply Z.div_le_lower_bound; lia).
    lia.
Qed.

Lemma date_range_length (a b : Z) :
  length (date_range a b) = Z.to_nat ((b - a) / DAY + 1).
Proof.
  unfold date_range. rewrite length_map, length_seq. reflexivity.
Qed.

Lemma date_range_NoDup (a b : Z) : NoDup (date_range a b).
Proof.
  unfold date_range. apply Finite.Injective_map_NoDup.
  - intros x y E. pose proof DAY_pos. nia.
  - apply seq_NoDup.
Qed.

Lemma calendar_day_shift (a k : Z) :
  calendar_day (a + k * DAY) = calendar_day a + k.
Proof.
  unfold calendar_day. apply Z.div_add. discriminate.
Qed.

Section Theory.

Variable Grade : Type.
Context {ops : GradeOps Grade}.

Implicit Types (c : climb Grade) (climbs : list (climb Grade))
  (s : state Grade) (d : Z) (g : Grade).

(** ** Grades *)

Lemma grade_eqb_eq (x y : Grade) : grade_eqb x y = true <-> x = y.
Proof.
  unfold grade_eqb. destruct (Grade_eq_dec x y); split; congruence.
Qed.

Lemma grade_eqb_refl (x : Grade) : grade_eqb x x = true.
Proof. apply grade_eqb_eq. reflexivity. Qed.

Lemma unique_In (l : list Grade) (x : Grade) : In x (unique l) <-> In x l.
Proof.
  induction l as [|y r IH]; simpl; [tauto|].
  rewrite filter_In, IH, negb_true_iff.
  split.
  - intros [H|[H _]]; auto.
  - intros [H|H]; [auto|].
    destruct (Grade_eq_dec y x) as [E|N]; [auto|right].
    split; [exact H|].
    destruct (grade_eqb x y) eqn:E; [|reflexivity].
    apply grade_eqb_eq in E. congruence.
Qed.

Lemma unique_NoDup (l : list Grade) : NoDup (unique l).
Proof.
  induction l as [|y r IH]; simpl; constructor.
  - rewrite filter_In, negb_true_iff. intros [_ H].
    rewrite grade_eqb_refl in H. discriminate.
  - apply NoDup_filter. exact IH.
Qed.

Lemma insert_sorted_perm (x : Grade) (l : list Grade) :
  Permutation (insert_sorted x l) (x :: l).
Proof.
  induction l as [|y r IH]; simpl; [reflexivity|].
  destruct (Grade_leb x y); [reflexivity|].
  rewrite IH. apply perm_swap.
Qed.

Lemma sorted_perm (l : list Grade) : Permutation (sorted l) l.
Proof.
  induction l as [|y r IH]; simpl; [reflexivity|].
  rewrite insert_sorted_perm. constructor. exact IH.
Qed.

Lemma grade_axis_In climbs g :
  In g (grade_axis climbs) <-> exists c, In c climbs /\ grade c = g.
Proof.
  unfold grade_axis.
  split.
  - intros H. apply (Permutation_in _ (sorted_perm _)) in H.
    apply unique_In, in_map_iff in H. destruct H as [c [E H]]. eauto.
  - intros [c [H E]].
    apply (Permutation_in _ (Permutation_sym (sorted_perm _))).
    apply unique_In, in_map_iff. eauto.
Qed.

Lemma grade_axis_NoDup climbs : NoDup (grade_axis climbs).
Proof.
  unfold grade_axis.
  apply (Permutation_NoDup (Permutation_sym (sorted_perm _))).
  apply unique_NoDup.
Qed.

(** The grade axis has one entry per distinct grade value. *)
Lemma grade_axis_length climbs :
  length (grade_axis climbs) = length (distinct_grades climbs).
Proof.
  apply Permutation_length, NoDup_Permutation.
  - apply grade_axis_NoDup.
  - apply NoDup_nodup.
  - intros g. unfold distinct_grades. rewrite nodup_In, grade_axis_In, in_map_iff.
    split; intros [c [H1 H2]]; eauto.
Qed.

(** ** The per-cell count *)

Lemma le_date_true (x : option Z) d :
  le_date x d = true <-> exists t, x = Some t /\ t <= d.
Proof.
  destruct x as [t|]; simpl.
  - rewrite Z.leb_le. split; [eauto|]. intros [t' [E H]]. congruence.
  - split; [discriminate|]. intros [t [E _]]. discriminate.
Qed.

Lemma ge_date_true (x : option Z) d :
  ge_date x d = true <-> exists t, x = Some t /\ d <= t.
Proof.
  destruct x as [t|]; simpl.
  - rewrite Z.geb_le. split; [eauto|]. intros [t' [E H]]. congruence.
  - split; [discriminate|]. intros [t [E _]]. discriminate.
Qed.

Lemma live_onb_spec c d : live_onb c d = true <-> live_on c d.
Proof.
  unfold live_onb, live_on. rewrite andb_true_iff, le_date_true, ge_date_true.
  split.
  - intros [[a [Ea Ha]] [b [Eb Hb]]]. exists a, b. auto.
  - intros [a [b [Ea [Eb [Ha Hb]]]]]. split; [exists a|exists b]; auto.
Qed.

(** [matches] selects the rows with the cell's grade whose interval
    contains the cell's date. *)
Lemma matches_spec d g c :
  matches d g c = true <-> grade c = g /\ live_on c d.
Proof.
  unfold matches. rewrite andb_true_iff, grade_eqb_eq, live_onb_spec. tauto.
Qed.

Lemma filter_filter {A : Type} (p q : A -> bool) (l : list A) :
  filter q (filter p l) = filter (fun x => p x && q x) l.
Proof.
  induction l as [|x r IH]; simpl; [reflexivity|].
  destruct (p x); simpl; [destruct (q x)|]; rewrite IH; reflexivity.
Qed.

(** The three successive selections of lines 55-57 keep the matching rows. *)
Lemma routes_avail_matching climbs d g :
  routes_avail climbs (d, g) = series_count (map id (matching_rows climbs d g)).
Proof.
  unfold routes_avail, matching_rows. rewrite !filter_filter.
  erewrite filter_ext; [reflexivity|].
  intros c. unfold matches, live_onb. rewrite andb_assoc. reflexivity.
Qed.

Lemma series_count_map_id (l : list (climb Grade)) :
  series_count (map id l)
  = Z.of_nat (length (filter (fun c => notna (id c)) l)).
Proof.
  unfold series_count. f_equal.
  induction l as [|c r IH]; simpl; [reflexivity|].
  destruct (id c); simpl; rewrite IH; reflexivity.
Qed.

Lemma routes_avail_app climbs1 climbs2 d g :
  routes_avail (climbs1 ++ climbs2) (d, g)
  = routes_avail climbs1 (d, g) + routes_avail climbs2 (d, g).
Proof.
  rewrite !routes_avail_matching, !series_count_map_id.
  unfold matching_rows. rewrite !filter_app, length_app. lia.
Qed.

Lemma routes_avail_single c d g :
  routes_avail [c] (d, g) = if matches d g c && notna (id c) then 1 else 0.
Proof.
  rewrite routes_avail_matching, series_count_map_id. unfold matching_rows.
  simpl. destruct (matches d g c); simpl; [|reflexivity].
  destruct (id c); reflexivity.
Qed.

Lemma routes_avail_insert climbs1 c climbs2 d g :
  routes_avail (climbs1 ++ c :: climbs2) (d, g)
  = routes_avail (climbs1 ++ climbs2) (d, g)
    + (if matches d g c && notna (id c) then 1 else 0).
Proof.
  change (c :: climbs2) with ([c] ++ climbs2).
  rewrite !routes_avail_app, routes_avail_single. lia.
Qed.

(** ** The expander *)

Lemma apply_routes_avail (rows : list (Z * Grade)) s :
  mapM _routes_avail_per_day rows s
  = (Ok (map (routes_avail (self_climbs s)) rows), s).
Proof.
  induction rows as [|dg r IH]; simpl; [reflexivity|].
  unfold bind at 1. unfold _routes_avail_per_day at 1. unfold bind at 1.
  simpl. unfold bind at 1. rewrite IH. reflexivity.
Qed.

Lemma map_combine_map {A B C : Type} (f : A * B -> C) (h : A -> B)
  (l : list A) :
  map f (combine l (map h l)) = map (fun x => f (x, h x)) l.
Proof.
  induction l as [|x r IH]; simpl; [reflexivity|]. rewrite IH. reflexivity.
Qed.

(** What [expand] computes, in every state. *)
Lemma expand_eq s :
  expand s =
  match series_min (live_starts (self_climbs s)) with
  | Some _ => (Ok (expand_rows (self_climbs s)), after_expand s)
  | None => (Raise ValueError, s)
  end.
Proof.
  unfold expand, expand_rows, date_axis, grade_axis, live_starts.
  unfold bind at 1. simpl.
  destruct (dropna (map date_live_start (self_climbs s))) as [|x r] eqn:E;
    simpl; [reflexivity|].
  unfold bind at 1. simpl. unfold bind at 1. simpl.
  unfold bind at 1. simpl. unfold bind at 1.
  rewrite apply_routes_avail. simpl.
  rewrite map_combine_map. destruct s; reflexivity.
Qed.

(** ** The cache loaders *)

Lemma _load_pickle_eq {T : Type} (f : path Grade T) (age_max : option Z) s :
  _load_pickle f age_max s
  = (Ok (cache_hit f age_max s), after_load_pickle f age_max s).
Proof.
  unfold _load_pickle, cache_hit, after_load_pickle, load_pickle_events.
  destruct f; destruct s as [cl [fc|] [fd|] api ck tk tr]; simpl;
    try reflexivity; unfold bind; simpl;
    match goal with |- context [fresh ?a ?x] =>
      change (match a with None => true | Some a0 => x <? a0 end)
        with (fresh a x) in *;
      destruct (fresh a x)
    end; reflexivity.
Qed.

Lemma _save_df_to_pickle_eq {T : Type} (df : T) (f : path Grade T) s :
  _save_df_to_pickle df f s = (Ok tt, after_save f df s).
Proof.
  destruct f; destruct s; reflexivity.
Qed.

Lemma load_eq {T : Type} (f : path Grade T) (age_max : option Z)
  (fetch_fn : M Grade T) s :
  load f age_max fetch_fn s =
  match cache_hit f age_max s with
  | Some df => (Ok df, after_load_pickle f age_max s)
  | None =>
      match fetch_fn (after_load_pickle f age_max s) with
      | (Ok df, s1) => (Ok df, after_save f df s1)
      | (Raise e, s1) => (Raise e, s1)
      end
  end.
Proof.
  unfold load. unfold bind at 1. rewrite _load_pickle_eq.
  destruct (cache_hit f age_max s) as [df|]; [reflexivity|].
  unfold bind at 1.
  destruct (fetch_fn (after_load_pickle f age_max s)) as [[df|e] s1];
    [|reflexivity].
  unfold bind at 1. rewrite _save_df_to_pickle_eq. reflexivity.
Qed.

Lemma _load_climbs_is_load :
  @_load_climbs Grade = load _DF_CLIMBS_PICKLE_PATH (Some (timedelta 10)) fetch_climbs.
Proof. reflexivity. Qed.

Lemma _load_dates_grades_is_load :
  @_load_dates_grades Grade ops
  = load _DF_DATES_GRADES_PICKLE_PATH (Some (timedelta 10)) expand.
Proof. reflexivity. Qed.

Lemma fetch_climbs_eq s :
  fetch_climbs s =
  match api_response s with
  | Ok [] => (Raise AttributeError, after_request s)
  | Ok (r :: rs) =>
      match as_datetime64_s (clock s (tick s)) with
      | Some t => (Ok (normalize t (r :: rs)), after_fetch s)
      | None => (Raise TypeError, after_type_error s)
      end
  | Raise e => (Raise e, after_request s)
  end.
Proof.
  destruct s as [cl fc fd [[|r rs]|e] ck tk tr]; try reflexivity.
  unfold fetch_climbs, bind. simpl.
  destruct (as_datetime64_s (ck tk)); reflexivity.
Qed.

(** ** Shape of the expanded table *)

Lemma has_live_start_starts climbs :
  has_live_start climbs <-> live_starts climbs <> [].
Proof.
  unfold has_live_start, live_starts. split.
  - intros [c [Hin Hs]] E.
    destruct (date_live_start c) as [t|] eqn:Et; [|congruence].
    assert (H : In t (dropna (map date_live_start climbs))).
    { apply dropna_In, in_map_iff. exists c. auto. }
    rewrite E in H. exact H.
  - intros H.
    destruct (dropna (map date_live_start climbs)) as [|t r] eqn:E;
      [congruence|].
    assert (Ht : In t (dropna (map date_live_start climbs)))
      by (rewrite E; left; reflexivity).
    apply dropna_In, in_map_iff in Ht. destruct Ht as [c [Ec Hin]].
    exists c. split; [exact Hin|congruence].
Qed.

(** A non-empty table that satisfies the invariant has a [date_live_start]. *)
Lemma normalized_has_live_start climbs :
  climbs <> [] -> normalized climbs -> has_live_start climbs.
Proof.
  destruct climbs as [|c r]; [congruence|]. intros _ H.
  inversion H as [|? ? [Hs _] _]; subst. exists c. split; [left; reflexivity|exact Hs].
Qed.

Lemma live_start_extremes climbs :
  has_live_start climbs ->
  exists a b,
    series_min (live_starts climbs) = Some a
    /\ series_max (live_starts climbs) = Some b
    /\ a <= b
    /\ date_axis climbs = date_range a b.
Proof.
  intros H. apply has_live_start_starts in H.
  destruct (series_min_max_some _ H) as [a [b [Ha Hb]]].
  exists a, b. unfold date_axis. rewrite Ha, Hb.
  repeat split; auto. eapply series_min_le_max; eauto.
Qed.

Lemma expand_ok s :
  has_live_start (self_climbs s) ->
  expand s = (Ok (expand_rows (self_climbs s)), after_expand s).
Proof.
  intros H. rewrite expand_eq. apply has_live_start_starts in H.
  destruct (live_starts (self_climbs s)); [congruence|reflexivity].
Qed.

Lemma expand_ok_inv s df s' :
  expand s = (Ok df, s') ->
  df = expand_rows (self_climbs s) /\ s' = after_expand s
  /\ has_live_start (self_climbs s).
Proof.
  rewrite expand_eq. intros H.
  destruct (series_min (live_starts (self_climbs s))) eqn:E; [|discriminate].
  injection H as <- <-. repeat split.
  apply has_live_start_starts. intros E'. rewrite E' in E. discriminate.
Qed.

Lemma expand_rows_In climbs (r : cell Grade) :
  In r (expand_rows climbs) <->
  In (date r) (date_axis climbs) /\ In (cell_grade r) (grade_axis climbs)
  /\ count r = routes_avail climbs (date r, cell_grade r).
Proof.
  unfold expand_rows. rewrite in_map_iff. split.
  - intros [[d g] [<- H]]. apply in_prod_iff in H. simpl. tauto.
  - intros [Hd [Hg Hc]]. exists (date r, cell_grade r). split.
    + destruct r; simpl in *. congruence.
    + apply in_prod_iff. auto.
Qed.

Lemma expand_rows_pairs climbs :
  map (fun r => (date r, cell_grade r)) (expand_rows climbs)
  = list_prod (date_axis climbs) (grade_axis climbs).
Proof.
  unfold expand_rows. rewrite map_map. simpl.
  erewrite map_ext; [apply map_id|]. intros [d g]. reflexivity.
Qed.

Lemma expand_rows_length climbs :
  length (expand_rows climbs)
  = (length (date_axis climbs) * length (distinct_grades climbs))%nat.
Proof.
  unfold expand_rows. rewrite length_map, length_prod, grade_axis_length.
  reflexivity.
Qed.

Lemma NoDup_list_prod {A B : Type} (l : list A) (l' : list B) :
  NoDup l -> NoDup l' -> NoDup (list_prod l l').
Proof.
  intros Hl Hl'. induction Hl as [|x r Hx Hr IH]; simpl; [constructor|].
  apply NoDup_app.
  - apply Finite.Injective_map_NoDup; [|exact Hl'].
    intros y z E. congruence.
  - exact IH.
  - intros [u v] H1 H2. apply in_map_iff in H1. destruct H1 as [y [E _]].
    apply in_prod_iff in H2. destruct H2 as [H2 _]. congruence.
Qed.

Lemma date_axis_NoDup climbs : NoDup (date_axis climbs).
Proof.
  unfold date_axis.
  destruct (series_min (live_starts climbs)); [|constructor].
  destruct (series_max (live_starts climbs)); [|constructor].
  apply date_range_NoDup.
Qed.

(** The dates that occur in the expanded table are those of the date axis. *)
Lemma expand_rows_dates climbs d :
  climbs <> [] ->
  In d (map date (expand_rows climbs)) <-> In d (date_axis climbs).
Proof.
  intros Hne. rewrite in_map_iff. split.
  - intros [r [<- H]]. apply expand_rows_In in H. tauto.
  - intros H. destruct climbs as [|c rest]; [congruence|].
    exists (mkcell d (grade c) (routes_avail (c :: rest) (d, grade c))).
    split; [reflexivity|]. apply expand_rows_In. simpl.
    repeat split; auto. apply grade_axis_In. exists c. simpl. auto.
Qed.

(** ** Calendar days and daily steps *)

Lemma euclid_DAY (t : Z) :
  t = DAY * calendar_day t + time_of_day t /\ 0 <= time_of_day t < DAY.
Proof.
  unfold calendar_day, time_of_day. split.
  - apply Z.div_mod. discriminate.
  - apply Z.mod_pos_bound. reflexivity.
Qed.

(** The number of daily steps from [a] that do not pass [b], against the
    number of calendar days from [a] to [b]. *)
Lemma steps_calendar_days (a b : Z) :
  (b - a) / DAY + 1
  = calendar_days a b - (if time_of_day b <? time_of_day a then 1 else 0).
Proof.
  unfold calendar_days.
  destruct (euclid_DAY a) as [Ea Ra]. destruct (euclid_DAY b) as [Eb Rb].
  destruct (time_of_day b <? time_of_day a) eqn:C.
  - apply Z.ltb_lt in C.
    assert (E : calendar_day b - calendar_day a - 1 = (b - a) / DAY).
    { apply Z.div_unique with (r := DAY + time_of_day b - time_of_day a); lia. }
    lia.
  - apply Z.ltb_ge in C.
    assert (E : calendar_day b - calendar_day a = (b - a) / DAY).
    { apply Z.div_unique with (r := time_of_day b - time_of_day a); lia. }
    lia.
Qed.

(** ** Claims on the interval expander *)

(** C1 (amended).  Count correctness: for every climbs table and every
    (date, grade) row of the table the expander returns, the [count] of the
    row is the number of rows of the climbs table with a non-null [id] whose
    grade equals the row's grade and whose interval satisfies
    live_start <= date <= live_end, both ends included. *)
Theorem count_correctness s df s' (r : cell Grade) :
  expand s = (Ok df, s') ->
  In r df ->
  count r
  = Z.of_nat (length (filter (fun c => notna (id c))
                        (matching_rows (self_climbs s) (date r) (cell_grade r))))
  /\ forall c,
       In c (matching_rows (self_climbs s) (date r) (cell_grade r)) <->
       In c (self_climbs s) /\ grade c = cell_grade r /\ live_on c (date r).
Proof.
  intros He Hr. apply expand_ok_inv in He. destruct He as [-> [_ _]].
  apply expand_rows_In in Hr. destruct Hr as [_ [_ ->]].
  split.
  - rewrite routes_avail_matching. apply series_count_map_id.
  - intros c. unfold matching_rows. rewrite filter_In, matches_spec. tauto.
Qed.

(** C3 (amended).  Boundary inclusivity: a climb record with a non-null [id]
    contributes exactly 1 to the cell of its grade at its [live_start] and at
    its [live_end] (in particular when both are the same date): the count
    [_routes_avail_per_day] returns is one more than the count over the table
    without that record, and the expander's row for a date of the axis
    carries that count. *)
Theorem boundary_inclusive s climbs1 c climbs2 (i a b : Z) d :
  self_climbs s = climbs1 ++ c :: climbs2 ->
  id c = Some i ->
  date_live_start c = Some a ->
  date_live_end c = Some b ->
  a <= b ->
  d = a \/ d = b ->
  _routes_avail_per_day (d, grade c) s
  = (Ok (routes_avail (climbs1 ++ climbs2) (d, grade c) + 1), s)
  /\ forall df s',
       expand s = (Ok df, s') ->
       In d (map date df) ->
       In (mkcell d (grade c)
             (routes_avail (climbs1 ++ climbs2) (d, grade c) + 1)) df.
Proof.
  intros Hs Hi Ha Hb Hab Hd.
  assert (Hm : matches d (grade c) c && notna (id c) = true).
  { rewrite Hi. simpl. rewrite andb_true_r. apply matches_spec.
    split; [reflexivity|]. exists a, b. repeat split; auto; lia. }
  assert (Hc : routes_avail (self_climbs s) (d, grade c)
               = routes_avail (climbs1 ++ climbs2) (d, grade c) + 1).
  { rewrite Hs, routes_avail_insert, Hm. reflexivity. }
  split.
  - unfold _routes_avail_per_day, bind, gets, ret. rewrite Hc. reflexivity.
  - intros df s' He Hin. apply expand_ok_inv in He. destruct He as [-> [_ _]].
    apply expand_rows_In. simpl. split; [|split].
    + apply expand_rows_dates in Hin; [exact Hin|].
      rewrite Hs. destruct climbs1; discriminate.
    + apply grade_axis_In. exists c. split; [|reflexivity].
      rewrite Hs. apply in_elt.
    + symmetry. exact Hc.
Qed.

Lemma series_count_lt (l : list (climb Grade)) c :
  In c l -> id c = None -> series_count (map id l) < Z.of_nat (length l).
Proof.
  intros Hin Hc. apply in_split in Hin. destruct Hin as [l1 [l2 ->]].
  rewrite series_count_map_id, filter_app, !length_app. simpl. rewrite Hc.
  simpl.
  pose proof (filter_length_le (fun c => notna (id c)) l1).
  pose proof (filter_length_le (fun c => notna (id c)) l2).
  lia.
Qed.

(** C8.  Null-identifier exclusion: the count of a cell is the number of
    non-null [id] values among the rows matching the cell, so a record with a
    null [id] adds nothing to it, and a matching record with a null [id]
    makes the count smaller than the number of matching rows. *)
Theorem null_id_excluded s d g :
  _routes_avail_per_day (d, g) s
  = (Ok (series_count (map id (matching_rows (self_climbs s) d g))), s)
  /\ (forall df s' (r : cell Grade),
        expand s = (Ok df, s') -> In r df ->
        count r
        = series_count
            (map id (matching_rows (self_climbs s) (date r) (cell_grade r))))
  /\ (forall climbs1 c climbs2,
        self_climbs s = climbs1 ++ c :: climbs2 ->
        id c = None ->
        routes_avail (self_climbs s) (d, g)
        = routes_avail (climbs1 ++ climbs2) (d, g))
  /\ (forall c,
        In c (matching_rows (self_climbs s) d g) ->
        id c = None ->
        routes_avail (self_climbs s) (d, g)
        < Z.of_nat (length (matching_rows (self_climbs s) d g))).
Proof.
  split; [|split; [|split]].
  - unfold _routes_avail_per_day, bind, gets, ret.
    rewrite routes_avail_matching. reflexivity.
  - intros df s' r He Hr. apply expand_ok_inv in He. destruct He as [-> [_ _]].
    apply expand_rows_In in Hr. destruct Hr as [_ [_ ->]].
    apply routes_avail_matching.
  - intros climbs1 c climbs2 Hs Hc.
    rewrite Hs, routes_avail_insert, Hc. simpl. rewrite andb_false_r. lia.
  - intros c Hin Hc. rewrite routes_avail_matching.
    eapply series_count_lt; eauto.
Qed.

(** C2 (amended).  Expansion completeness: for every climbs table with a
    non-null live_start (every non-empty table that satisfies the invariant),
    the expander returns exactly one row per (date, grade) pair of the cross
    product, so its row count is the number of daily steps from the minimum
    live_start that do not pass the maximum live_start, multiplied by the
    number of distinct grades.  That number of steps is the number of calendar
    days from min to max live_start inclusive when the time of day of the
    maximum is not earlier than that of the minimum, and one less otherwise. *)
Theorem expansion_completeness s :
  has_live_start (self_climbs s) ->
  exists a b,
    series_min (live_starts (self_climbs s)) = Some a
    /\ series_max (live_starts (self_climbs s)) = Some b
    /\ expand s = (Ok (expand_rows (self_climbs s)), after_expand s)
    /\ NoDup (map (fun r => (date r, cell_grade r))
                 (expand_rows (self_climbs s)))
    /\ (forall d g,
          In (d, g) (map (fun r => (date r, cell_grade r))
                         (expand_rows (self_climbs s))) <->
          In d (date_range a b)
          /\ exists c, In c (self_climbs s) /\ grade c = g)
    /\ Z.of_nat (length (expand_rows (self_climbs s)))
       = ((b - a) / DAY + 1)
         * Z.of_nat (length (distinct_grades (self_climbs s)))
    /\ (b - a) / DAY + 1
       = calendar_days a b
         - (if time_of_day b <? time_of_day a then 1 else 0).
Proof.
  intros H. destruct (live_start_extremes _ H) as [a [b [Ha [Hb [Hab Hax]]]]].
  exists a, b. split; [exact Ha|]. split; [exact Hb|].
  split; [apply expand_ok; exact H|].
  rewrite expand_rows_pairs. split; [|split; [|split]].
  - apply NoDup_list_prod; [apply date_axis_NoDup|apply grade_axis_NoDup].
  - intros d g. rewrite in_prod_iff, Hax, grade_axis_In. tauto.
  - rewrite expand_rows_length, Hax, date_range_length, Nat2Z.inj_mul.
    rewrite Z2Nat.id; [reflexivity|].
    assert (0 <= (b - a) / DAY) by (apply Z.div_pos; [lia|reflexivity]).
    lia.
  - apply steps_calendar_days.
Qed.

(** C7 (amended).  Date-axis construction: for every climbs table with a
    non-null live_start, the dates of the expanded table are exactly the
    timestamps min live_start + k days (k = 0, 1, ...) that do not exceed the
    maximum live_start: daily steps without gaps, starting at the minimum.
    The axis depends on the two live_start extremes only and holds no date
    beyond the maximum live_start, whatever the live_end values are.  It
    meets every calendar day from the day of the minimum up to, but not
    always including, the day of the maximum: that last day is met exactly
    when the time of day of the maximum is not earlier than that of the
    minimum. *)
Theorem date_axis_construction s :
  has_live_start (self_climbs s) ->
  exists a b,
    series_min (live_starts (self_climbs s)) = Some a
    /\ series_max (live_starts (self_climbs s)) = Some b
    /\ (forall c t,
          In c (self_climbs s) -> date_live_start c = Some t -> a <= t <= b)
    /\ expand s = (Ok (expand_rows (self_climbs s)), after_expand s)
    /\ (forall d,
          In d (map date (expand_rows (self_climbs s))) <->
          exists k, 0 <= k /\ d = a + k * DAY /\ d <= b)
    /\ (forall climbs',
          series_min (live_starts climbs') = Some a ->
          series_max (live_starts climbs') = Some b ->
          date_axis climbs' = date_axis (self_climbs s))
    /\ (forall cd,
          calendar_day a <= cd <= calendar_day b ->
          cd < calendar_day b \/ time_of_day a <= time_of_day b ->
          exists d,
            In d (map date (expand_rows (self_climbs s)))
            /\ calendar_day d = cd)
    /\ (time_of_day b < time_of_day a ->
        forall d,
          In d (map date (expand_rows (self_climbs s))) ->
          calendar_day d < calendar_day b).
Proof.
  intros H. destruct (live_start_extremes _ H) as [a [b [Ha [Hb [Hab Hax]]]]].
  assert (Hne : self_climbs s <> []).
  { destruct H as [c [Hin _]]. intros E. rewrite E in Hin. exact Hin. }
  assert (Hdates : forall d,
             In d (map date (expand_rows (self_climbs s))) <->
             exists k, 0 <= k /\ d = a + k * DAY /\ d <= b).
  { intros d. rewrite (expand_rows_dates _ d Hne), Hax. apply date_range_In. }
  destruct (euclid_DAY a) as [Ea Ra]. destruct (euclid_DAY b) as [Eb Rb].
  exists a, b. split; [exact Ha|]. split; [exact Hb|].
  split; [|split; [apply expand_ok; exact H|split; [exact Hdates|split; [|split]]]].
  - intros c t Hin Ht.
    assert (Hs : In t (live_starts (self_climbs s))).
    { apply dropna_In, in_map_iff. exists c. auto. }
    split.
    + apply (proj2 (series_min_spec _ _ Ha)). exact Hs.
    + apply (proj2 (series_max_spec _ _ Hb)). exact Hs.
  - intros climbs' Ha' Hb'. unfold date_axis. rewrite Ha', Hb', Ha, Hb.
    reflexivity.
  - intros cd Hcd Hlast. exists (a + (cd - calendar_day a) * DAY).
    split; [|rewrite calendar_day_shift; lia].
    apply Hdates. exists (cd - calendar_day a).
    split; [lia|]. split; [reflexivity|].
    unfold DAY in *. lia.
  - intros Hlt d Hd. apply Hdates in Hd. destruct Hd as [k [Hk [-> Hle]]].
    rewrite calendar_day_shift. unfold DAY in *. lia.
Qed.

(** ** What the cache operations change *)

Lemma fresh_true (age_max : option Z) (age : Z) :
  fresh age_max age = true <->
  age_max = None \/ exists a, age_max = Some a /\ age < a.
Proof.
  destruct age_max as [a|]; simpl.
  - rewrite Z.ltb_lt. split.
    + intros H. right. exists a. auto.
    + intros [H|[a' [E H]]]; [discriminate|]. injection E as ->. exact H.
  - split; auto.
Qed.

Lemma fresh_false (age_max : option Z) (age : Z) :
  fresh age_max age = false <-> exists a, age_max = Some a /\ a <= age.
Proof.
  destruct age_max as [a|]; simpl.
  - rewrite Z.ltb_ge. split.
    + intros H. exists a. auto.
    + intros [a' [E H]]. injection E as ->. exact H.
  - split; [discriminate|]. intros [a [E _]]. discriminate.
Qed.

Lemma cache_hit_some {T : Type} (f : path Grade T) (age_max : option Z) s
  (fl : file T) :
  fs_get f s = Some fl ->
  age_max = None
  \/ (exists a, age_max = Some a /\ clock s (tick s) - st_mtime fl < a) ->
  cache_hit f age_max s = Some (content fl)
  /\ load_pickle_events f age_max s
     = [Log LoadingPickleDone; ReadPickle (path_name f);
        Log (LoadingPickle (path_name f)
               (clock s (tick s) - st_mtime fl) age_max);
        Stat (path_name f); Exists (path_name f)].
Proof.
  intros Hf Hfresh. apply fresh_true in Hfresh.
  unfold cache_hit, load_pickle_events. rewrite Hf. simpl. rewrite Hfresh.
  auto.
Qed.

Lemma cache_hit_none {T : Type} (f : path Grade T) (age_max : option Z) s :
  fs_get f s = None
  \/ (exists fl a, fs_get f s = Some fl /\ age_max = Some a
                   /\ a <= clock s (tick s) - st_mtime fl) ->
  cache_hit f age_max s = None
  /\ (load_pickle_events f age_max s = [Exists (path_name f)]
      \/ load_pickle_events f age_max s
         = [Stat (path_name f); Exists (path_name f)]).
Proof.
  unfold cache_hit, load_pickle_events.
  intros [Hf|[fl [a [Hf [Ha Hage]]]]]; rewrite Hf; simpl; [auto|].
  assert (E : fresh age_max (clock s (tick s) - st_mtime fl) = false)
    by (apply fresh_false; eauto).
  rewrite E. auto.
Qed.

Lemma cache_hit_cases {T : Type} (f : path Grade T) (age_max : option Z) s :
  (exists fl,
      fs_get f s = Some fl
      /\ (age_max = None
          \/ exists a, age_max = Some a /\ clock s (tick s) - st_mtime fl < a))
  \/ (fs_get f s = None
      \/ exists fl a, fs_get f s = Some fl /\ age_max = Some a
                      /\ a <= clock s (tick s) - st_mtime fl).
Proof.
  destruct (fs_get f s) as [fl|] eqn:Hf; [|auto].
  destruct (fresh age_max (clock s (tick s) - st_mtime fl)) eqn:E.
  - left. exists fl. split; [reflexivity|]. apply fresh_true. exact E.
  - right. right. apply fresh_false in E. destruct E as [a [Ha Hle]].
    exists fl, a. auto.
Qed.

Lemma after_load_pickle_frame {T : Type} (f : path Grade T)
  (age_max : option Z) s :
  self_climbs (after_load_pickle f age_max s) = self_climbs s
  /\ df_climbs_pkl (after_load_pickle f age_max s) = df_climbs_pkl s
  /\ df_dates_grades_pkl (after_load_pickle f age_max s)
     = df_dates_grades_pkl s
  /\ api_response (after_load_pickle f age_max s) = api_response s
  /\ clock (after_load_pickle f age_max s) = clock s
  /\ trace (after_load_pickle f age_max s)
     = load_pickle_events f age_max s ++ trace s.
Proof.
  unfold after_load_pickle. destruct (fs_get f s); simpl; repeat split.
Qed.

Lemma after_load_pickle_fs {T U : Type} (f : path Grade T) (f' : path Grade U)
  (age_max : option Z) s :
  fs_get f' (after_load_pickle f age_max s) = fs_get f' s.
Proof.
  destruct (after_load_pickle_frame f age_max s) as [_ [H1 [H2 _]]].
  destruct f'; simpl; assumption.
Qed.

Lemma after_save_frame {T : Type} (f : path Grade T) (df : T) s :
  self_climbs (after_save f df s) = self_climbs s
  /\ api_response (after_save f df s) = api_response s
  /\ clock (after_save f df s) = clock s
  /\ trace (after_save f df s)
     = ToPickle (path_name f) :: Log (SavingPickleTo (path_name f)) :: trace s
  /\ fs_get f (after_save f df s) = Some (mkfile df (clock s (tick s))).
Proof.
  destruct f; simpl; repeat split.
Qed.

Lemma new_events_app s s' (t : list event) :
  trace s' = t ++ trace s -> new_events s s' = t.
Proof.
  intros H. unfold new_events. rewrite H, length_app.
  replace (length t + length (trace s) - length (trace s))%nat
    with (length t + 0)%nat by lia.
  rewrite firstn_app_2. simpl. apply app_nil_r.
Qed.

(** [_load_climbs] in every state. *)
Lemma _load_climbs_eq s :
  _load_climbs s =
  let f := _DF_CLIMBS_PICKLE_PATH in
  let s1 := after_load_pickle f (Some (timedelta 10)) s in
  match cache_hit f (Some (timedelta 10)) s with
  | Some df => (Ok df, s1)
  | None =>
      match api_response s with
      | Ok [] => (Raise AttributeError, after_request s1)
      | Ok (r :: rs) =>
          match as_datetime64_s (fetch_reading s) with
          | Some t =>
              (Ok (normalize t (r :: rs)),
               after_save f (normalize t (r :: rs)) (after_fetch s1))
          | None => (Raise TypeError, after_type_error s1)
          end
      | Raise e => (Raise e, after_request s1)
      end
  end.
Proof.
  rewrite _load_climbs_is_load, load_eq, fetch_climbs_eq. cbv zeta.
  assert (Hread : clock (after_load_pickle _DF_CLIMBS_PICKLE_PATH
                           (Some (timedelta 10)) s)
                    (tick (after_load_pickle _DF_CLIMBS_PICKLE_PATH
                             (Some (timedelta 10)) s))
                  = fetch_reading s).
  { unfold after_load_pickle, fetch_reading.
    change (fs_get _DF_CLIMBS_PICKLE_PATH s) with (df_climbs_pkl s).
    destruct (df_climbs_pkl s); reflexivity. }
  rewrite Hread.
  destruct (after_load_pickle_frame _DF_CLIMBS_PICKLE_PATH
              (Some (timedelta 10)) s) as [_ [_ [_ [-> _]]]].
  destruct (cache_hit _DF_CLIMBS_PICKLE_PATH (Some (timedelta 10)) s);
    [reflexivity|].
  destruct (api_response s) as [[|r rs]|e]; try reflexivity.
  destruct (as_datetime64_s (fetch_reading s)); reflexivity.
Qed.

(** [_load_dates_grades] in every state. *)
Lemma _load_dates_grades_eq s :
  _load_dates_grades s =
  let f := _DF_DATES_GRADES_PICKLE_PATH in
  let s1 := after_load_pickle f (Some (timedelta 10)) s in
  match cache_hit f (Some (timedelta 10)) s with
  | Some df => (Ok df, s1)
  | None =>
      match series_min (live_starts (self_climbs s)) with
      | Some _ =>
          (Ok (expand_rows (self_climbs s)),
           after_save f (expand_rows (self_climbs s)) (after_expand s1))
      | None => (Raise ValueError, s1)
      end
  end.
Proof.
  rewrite _load_dates_grades_is_load, load_eq, expand_eq. cbv zeta.
  destruct (after_load_pickle_frame _DF_DATES_GRADES_PICKLE_PATH
              (Some (timedelta 10)) s) as [-> _].
  destruct (cache_hit _DF_DATES_GRADES_PICKLE_PATH (Some (timedelta 10)) s);
    [reflexivity|].
  destruct (series_min (live_starts (self_climbs s))); reflexivity.
Qed.

Lemma load_pickle_events_hit {T : Type} (f : path Grade T)
  (age_max : option Z) s (df : T) :
  cache_hit f age_max s = Some df ->
  exists age,
    load_pickle_events f age_max s
    = [Log LoadingPickleDone; ReadPickle (path_name f);
       Log (LoadingPickle (path_name f) age age_max);
       Stat (path_name f); Exists (path_name f)].
Proof.
  unfold cache_hit, load_pickle_events.
  destruct (fs_get f s) as [fl|]; [|discriminate]. simpl.
  destruct (fresh age_max (clock s (tick s) - st_mtime fl)); [|discriminate].
  eauto.
Qed.

Lemma load_pickle_events_miss {T : Type} (f : path Grade T)
  (age_max : option Z) s :
  cache_hit f age_max s = None ->
  load_pickle_events f age_max s = [Exists (path_name f)]
  \/ load_pickle_events f age_max s
     = [Stat (path_name f); Exists (path_name f)].
Proof.
  unfold cache_hit, load_pickle_events.
  destruct (fs_get f s) as [fl|]; [|auto]. simpl.
  destruct (fresh age_max (clock s (tick s) - st_mtime fl)); [discriminate|].
  auto.
Qed.

Lemma trace_after_load_pickle {T : Type} (f : path Grade T)
  (age_max : option Z) s :
  trace (after_load_pickle f age_max s)
  = load_pickle_events f age_max s ++ trace s.
Proof. apply after_load_pickle_frame. Qed.

Lemma trace_after_save {T : Type} (f : path Grade T) (df : T) s :
  trace (after_save f df s)
  = ToPickle (path_name f) :: Log (SavingPickleTo (path_name f)) :: trace s.
Proof. apply after_save_frame. Qed.

(** The effects of [_load_climbs]. *)
Lemma _load_climbs_trace s :
  trace (snd (_load_climbs s)) = load_climbs_events s ++ trace s.
Proof.
  rewrite _load_climbs_eq. unfold load_climbs_events. cbv zeta.
  destruct (cache_hit _DF_CLIMBS_PICKLE_PATH (Some (timedelta 10)) s).
  - simpl snd. apply trace_after_load_pickle.
  - destruct (api_response s) as [[|r rs]|e];
      try destruct (as_datetime64_s (fetch_reading s));
      simpl snd; try rewrite trace_after_save; simpl trace;
      try rewrite trace_after_load_pickle; reflexivity.
Qed.

(** The effects of [_load_dates_grades]. *)
Lemma _load_dates_grades_trace s :
  trace (snd (_load_dates_grades s)) = load_dates_grades_events s ++ trace s.
Proof.
  rewrite _load_dates_grades_eq. unfold load_dates_grades_events. cbv zeta.
  destruct (cache_hit _DF_DATES_GRADES_PICKLE_PATH (Some (timedelta 10)) s).
  - simpl snd. apply trace_after_load_pickle.
  - destruct (series_min (live_starts (self_climbs s))); simpl snd;
      try rewrite trace_after_save; simpl trace;
      try rewrite trace_after_load_pickle; reflexivity.
Qed.

Lemma load_climbs_events_raw s :
  In (Exists "df_climbs.pkl") (load_climbs_events s)
  /\ (forall e, In e (load_climbs_events s) -> on_derived e = false)
  /\ (cache_hit _DF_CLIMBS_PICKLE_PATH (Some (timedelta 10)) s = None ->
      In (HttpGet URL_CLIMBS) (load_climbs_events s)).
Proof.
  unfold load_climbs_events, cache_hit, load_pickle_events.
  destruct (fs_get _DF_CLIMBS_PICKLE_PATH s) as [fl|]; cbv beta iota zeta;
    [destruct (fresh (Some (timedelta 10)) (clock s (tick s) - st_mtime fl))|];
    try (destruct (api_response s) as [[|r rs]|e]);
    try (destruct (as_datetime64_s (fetch_reading s)));
    (split; [find_event|split; [all_events|]]);
    try discriminate; intros _; find_event.
Qed.

Lemma load_dates_grades_events_derived s :
  In (Exists "df_dates_grades.pkl") (load_dates_grades_events s)
  /\ (forall e, In e (load_dates_grades_events s) -> on_raw e = false).
Proof.
  unfold load_dates_grades_events, cache_hit, load_pickle_events.
  destruct (fs_get _DF_DATES_GRADES_PICKLE_PATH s) as [fl|];
    cbv beta iota zeta;
    [destruct (fresh (Some (timedelta 10)) (clock s (tick s) - st_mtime fl))|];
    try (destruct (series_min (live_starts (self_climbs s))));
    (split; [find_event|all_events]).
Qed.

Lemma __init___eq s :
  __init__ s =
  match _load_climbs (set_trace (Log Starting :: trace s) s) with
  | (Ok df, s1) => (Ok tt, set_self_climbs df s1)
  | (Raise e, s1) => (Raise e, s1)
  end.
Proof. reflexivity. Qed.

(** [_climbs_grades] in every state: the figure is created, the table is
    loaded, and the chart is drawn, shown and saved when the load returns. *)
Lemma _climbs_grades_eq s :
  _climbs_grades s =
  match _load_dates_grades (set_trace (Subplots :: trace s) s) with
  | (Ok df, s1) => (Ok df, after_plot s1)
  | (Raise e, s1) => (Raise e, s1)
  end.
Proof.
  unfold _climbs_grades. unfold bind at 1. cbn [_get_fig_ax emit modify].
  unfold bind at 1.
  destruct (_load_dates_grades (set_trace (Subplots :: trace s) s))
    as [[df|e] s1]; reflexivity.
Qed.

Lemma run_eq s :
  run s =
  match __init__ s with
  | (Ok _, s1) => _climbs_grades s1
  | (Raise e, s1) => (Raise e, s1)
  end.
Proof. reflexivity. Qed.

Lemma cache_hit_set_trace {T : Type} (f : path Grade T) (age_max : option Z)
  (t : list event) s :
  cache_hit f age_max (set_trace t s) = cache_hit f age_max s.
Proof. destruct f; reflexivity. Qed.

(** ** Claims on the normalizer and the cache *)

(** The table lines 82-83 make of the records, for the value [today] stored
    in the null live_end cells: the records with a non-null live_start, in
    order, each with a null live_end replaced by [today]. *)
Lemma normalize_eq (today : Z) (records : list (climb Grade)) :
  normalize today records
  = map (fun c =>
           mkclimb (id c) (grade c) (date_live_start c)
             (match date_live_end c with
              | Some e => Some e
              | None => Some today
              end))
        (filter (fun c => notna (date_live_start c)) records).
Proof.
  unfold normalize, dropna_live_start, fill_live_end.
  induction records as [|[i g [a|] [e|]] r IH]; simpl;
    try rewrite IH; reflexivity.
Qed.

(** Line 82 on a response with records: the reading of the clock is stored
    when it is a whole number of seconds, and raises [TypeError] otherwise. *)
Lemma fetch_climbs_whole_second s r rs t :
  api_response s = Ok (r :: rs) ->
  as_datetime64_s (clock s (tick s)) = Some t ->
  fetch_climbs s = (Ok (normalize t (r :: rs)), after_fetch s).
Proof. intros Hr Ht. rewrite fetch_climbs_eq, Hr, Ht. reflexivity. Qed.

Lemma fetch_climbs_type_error s r rs :
  api_response s = Ok (r :: rs) ->
  as_datetime64_s (clock s (tick s)) = None ->
  fetch_climbs s = (Raise TypeError, after_type_error s).
Proof. intros Hr Ht. rewrite fetch_climbs_eq, Hr, Ht. reflexivity. Qed.

(** C5.  Cache loader contract, for every cache file, [age_max] and fetch
    function.  If the file exists and its age (the clock reading minus the
    modification time) is strictly below [age_max], or [age_max] is [None],
    the loader returns the content of the file and the state it leaves does
    not depend on the fetch function.  Otherwise the fetch function runs
    once, in a state with the files untouched; its result is written to the
    file, replacing any previous content, and returned; an exception of the
    fetch function propagates.  [_load_climbs] and [_load_dates_grades] are
    the two instances, both with a limit of ten days. *)
Theorem cache_loader_contract :
  (forall (T : Type) (f : path Grade T) (age_max : option Z)
          (fetch_fn : M Grade T) s (fl : file T),
      fs_get f s = Some fl ->
      age_max = None
      \/ (exists a, age_max = Some a /\ clock s (tick s) - st_mtime fl < a) ->
      load f age_max fetch_fn s
      = (Ok (content fl), after_load_pickle f age_max s)
      /\ fs_get f (after_load_pickle f age_max s) = Some fl
      /\ trace (after_load_pickle f age_max s)
         = [Log LoadingPickleDone; ReadPickle (path_name f);
            Log (LoadingPickle (path_name f)
                   (clock s (tick s) - st_mtime fl) age_max);
            Stat (path_name f); Exists (path_name f)] ++ trace s)
  /\ (forall (T : Type) (f : path Grade T) (age_max : option Z)
             (fetch_fn : M Grade T) s,
        fs_get f s = None
        \/ (exists fl a, fs_get f s = Some fl /\ age_max = Some a
                         /\ a <= clock s (tick s) - st_mtime fl) ->
        fs_get f (after_load_pickle f age_max s) = fs_get f s
        /\ (forall df s1,
              fetch_fn (after_load_pickle f age_max s) = (Ok df, s1) ->
              load f age_max fetch_fn s = (Ok df, after_save f df s1)
              /\ fs_get f (after_save f df s1)
                 = Some (mkfile df (clock s1 (tick s1))))
        /\ (forall e s1,
              fetch_fn (after_load_pickle f age_max s) = (Raise e, s1) ->
              load f age_max fetch_fn s = (Raise e, s1)))
  /\ (forall (T : Type) (f : path Grade T) (age_max : option Z) s,
        (exists fl,
            fs_get f s = Some fl
            /\ (age_max = None
                \/ exists a, age_max = Some a
                             /\ clock s (tick s) - st_mtime fl < a))
        \/ (fs_get f s = None
            \/ exists fl a, fs_get f s = Some fl /\ age_max = Some a
                            /\ a <= clock s (tick s) - st_mtime fl))
  /\ @_load_climbs Grade
     = load _DF_CLIMBS_PICKLE_PATH (Some (timedelta 10)) fetch_climbs
  /\ @_load_dates_grades Grade ops
     = load _DF_DATES_GRADES_PICKLE_PATH (Some (timedelta 10)) expand.
Proof.
  split; [|split; [|split; [|split; reflexivity]]];
    [| |intros T f age_max s; apply cache_hit_cases].
  - intros T f age_max fetch_fn s fl Hf Hfresh.
    destruct (cache_hit_some f age_max s fl Hf Hfresh) as [Hhit Hev].
    rewrite load_eq, Hhit. split; [reflexivity|]. split.
    + rewrite after_load_pickle_fs. exact Hf.
    + rewrite trace_after_load_pickle, Hev. reflexivity.
  - intros T f age_max fetch_fn s Hmiss.
    destruct (cache_hit_none f age_max s Hmiss) as [Hhit _].
    split; [apply after_load_pickle_fs|]. split.
    + intros df s1 Hfetch. rewrite load_eq, Hhit, Hfetch.
      split; [reflexivity|apply after_save_frame].
    + intros e s1 Hfetch. rewrite load_eq, Hhit, Hfetch. reflexivity.
Qed.

Lemma new_events_load_climbs s :
  new_events s (snd (_load_climbs s)) = load_climbs_events s.
Proof. apply new_events_app, _load_climbs_trace. Qed.

Lemma new_events_load_dates_grades s :
  new_events s (snd (_load_dates_grades s)) = load_dates_grades_events s.
Proof. apply new_events_app, _load_dates_grades_trace. Qed.

(** C6.  Side-effect counts of one load, for each of the two caches.  On a
    cache hit the load returns the entry after exactly one read of the cache
    file, with no request to the API, no run of the expander and no write.
    On a cache miss nothing is read and the fetch function is applied exactly
    once, to the state the cache check leaves: the raw loader sends exactly
    one request, the derived loader none.  A miss whose fetch function
    returns writes exactly one file, the cache file, which then holds the
    table returned; a miss whose fetch function raises writes nothing and
    leaves the cache file as it was.  The raw fetch returns the normalised
    records when the response has records and line 82 stores the reading of
    the clock; the expander returns its table, after one run, when some
    climb has a live_start. *)
Theorem side_effect_counts s :
  (forall df,
      cache_hit _DF_CLIMBS_PICKLE_PATH (Some (timedelta 10)) s = Some df ->
      let ev := new_events s (snd (_load_climbs s)) in
      fst (_load_climbs s) = Ok df
      /\ occurrences is_any_read ev = 1%nat
      /\ occurrences (is_read "df_climbs.pkl") ev = 1%nat
      /\ occurrences is_http_get ev = 0%nat
      /\ occurrences is_any_write ev = 0%nat)
  /\ (cache_hit _DF_CLIMBS_PICKLE_PATH (Some (timedelta 10)) s = None ->
      let ev := new_events s (snd (_load_climbs s)) in
      _load_climbs s
      = match fetch_climbs (after_load_pickle _DF_CLIMBS_PICKLE_PATH
                              (Some (timedelta 10)) s) with
        | (Ok df, s1) => (Ok df, after_save _DF_CLIMBS_PICKLE_PATH df s1)
        | (Raise e, s1) => (Raise e, s1)
        end
      /\ occurrences is_http_get ev = 1%nat
      /\ occurrences is_any_read ev = 0%nat
      /\ match fst (_load_climbs s) with
         | Ok df =>
             occurrences is_any_write ev = 1%nat
             /\ occurrences (is_write "df_climbs.pkl") ev = 1%nat
             /\ option_map content (df_climbs_pkl (snd (_load_climbs s)))
                = Some df
         | Raise _ =>
             occurrences is_any_write ev = 0%nat
             /\ df_climbs_pkl (snd (_load_climbs s)) = df_climbs_pkl s
         end
      /\ (forall r rs t,
            api_response s = Ok (r :: rs) ->
            as_datetime64_s (fetch_reading s) = Some t ->
            fst (_load_climbs s) = Ok (normalize t (r :: rs))))
  /\ (forall df,
        cache_hit _DF_DATES_GRADES_PICKLE_PATH (Some (timedelta 10)) s
        = Some df ->
        let ev := new_events s (snd (_load_dates_grades s)) in
        fst (_load_dates_grades s) = Ok df
        /\ occurrences is_any_read ev = 1%nat
        /\ occurrences (is_read "df_dates_grades.pkl") ev = 1%nat
        /\ occurrences is_expand ev = 0%nat
        /\ occurrences is_http_get ev = 0%nat
        /\ occurrences is_any_write ev = 0%nat)
  /\ (cache_hit _DF_DATES_GRADES_PICKLE_PATH (Some (timedelta 10)) s = None ->
      let ev := new_events s (snd (_load_dates_grades s)) in
      _load_dates_grades s
      = match expand (after_load_pickle _DF_DATES_GRADES_PICKLE_PATH
                        (Some (timedelta 10)) s) with
        | (Ok df, s1) => (Ok df, after_save _DF_DATES_GRADES_PICKLE_PATH df s1)
        | (Raise e, s1) => (Raise e, s1)
        end
      /\ occurrences is_any_read ev = 0%nat
      /\ occurrences is_http_get ev = 0%nat
      /\ match fst (_load_dates_grades s) with
         | Ok df =>
             occurrences is_expand ev = 1%nat
             /\ occurrences is_any_write ev = 1%nat
             /\ occurrences (is_write "df_dates_grades.pkl") ev = 1%nat
             /\ option_map content
                  (df_dates_grades_pkl (snd (_load_dates_grades s)))
                = Some df
         | Raise _ =>
             occurrences is_expand ev = 0%nat
             /\ occurrences is_any_write ev = 0%nat
             /\ df_dates_grades_pkl (snd (_load_dates_grades s))
                = df_dates_grades_pkl s
         end
      /\ (has_live_start (self_climbs s) ->
          fst (_load_dates_grades s) = Ok (expand_rows (self_climbs s)))).
Proof.
  split; [|split; [|split]]; cbv zeta.
  - intros df Hhit. rewrite new_events_load_climbs, _load_climbs_eq.
    unfold load_climbs_events. cbv zeta. rewrite Hhit.
    destruct (load_pickle_events_hit _ _ _ _ Hhit) as [age ->].
    repeat split.
  - intros Hmiss. split.
    { rewrite _load_climbs_is_load, load_eq, Hmiss. reflexivity. }
    rewrite new_events_load_climbs, _load_climbs_eq.
    unfold load_climbs_events. cbv zeta. rewrite Hmiss.
    destruct (after_load_pickle_frame _DF_CLIMBS_PICKLE_PATH
                (Some (timedelta 10)) s) as [_ [Hfile _]].
    destruct (load_pickle_events_miss _ _ _ Hmiss) as [-> | ->];
      destruct (api_response s) as [[|r rs]|e];
      try destruct (as_datetime64_s (fetch_reading s)) as [t|];
      (split; [reflexivity|]); (split; [reflexivity|]);
      (split;
       [cbn [fst snd]; repeat split; try exact Hfile
       |intros r' rs' t' Hr Ht; try discriminate;
        injection Hr as <- <-; injection Ht as <-; reflexivity]).
  - intros df Hhit.
    rewrite new_events_load_dates_grades, _load_dates_grades_eq.
    unfold load_dates_grades_events. cbv zeta. rewrite Hhit.
    destruct (load_pickle_events_hit _ _ _ _ Hhit) as [age ->].
    repeat split.
  - intros Hmiss. split.
    { rewrite _load_dates_grades_is_load, load_eq, Hmiss. reflexivity. }
    rewrite new_events_load_dates_grades, _load_dates_grades_eq.
    unfold load_dates_grades_events. cbv zeta. rewrite Hmiss.
    destruct (after_load_pickle_frame _DF_DATES_GRADES_PICKLE_PATH
                (Some (timedelta 10)) s) as [_ [_ [Hfile _]]].
    destruct (load_pickle_events_miss _ _ _ Hmiss) as [-> | ->];
      destruct (series_min (live_starts (self_climbs s))) as [a|] eqn:Emin;
      (split; [reflexivity|]); (split; [reflexivity|]);
      (split;
       [cbn [fst snd]; repeat split; try exact Hfile
       |intros Hstart;
        first [reflexivity
              |exfalso; apply has_live_start_starts in Hstart; apply Hstart;
               destruct (live_starts (self_climbs s));
               [reflexivity|discriminate Emin]]]).
Qed.

(** C9.  Eager raw load: in every run the effects split into those of the
    raw load, performed first, and those of the derived load, performed
    after it.  The raw load always consults the raw cache file and never
    touches the derived cache file; the derived load never touches the raw
    cache file or the API.  Whenever the raw cache is absent or stale the
    request to the API is sent, whatever the state of the derived cache, and
    the derived cache file is consulted only once the raw load has
    returned. *)
Theorem raw_load_precedes_derived_cache s :
  exists t_raw t_derived,
    trace (snd (run s)) = t_derived ++ t_raw ++ Log Starting :: trace s
    /\ In (Exists "df_climbs.pkl") t_raw
    /\ (forall e, In e t_raw -> on_derived e = false)
    /\ (forall e, In e t_derived -> on_raw e = false)
    /\ (cache_hit _DF_CLIMBS_PICKLE_PATH (Some (timedelta 10)) s = None ->
        In (HttpGet URL_CLIMBS) t_raw)
    /\ ((exists s1, __init__ s = (Ok tt, s1)) <->
        In (Exists "df_dates_grades.pkl") t_derived).
Proof.
  pose (s0 := set_trace (Log Starting :: trace s) s).
  pose proof (_load_climbs_trace s0) as Ht.
  destruct (load_climbs_events_raw s0) as [Hex [Hraw Hget]].
  unfold s0 in Hget. rewrite cache_hit_set_trace in Hget. fold s0 in Hget.
  rewrite run_eq, __init___eq. fold s0.
  destruct (_load_climbs s0) as [[df|e] s1]; simpl snd in Ht.
  - pose (s2 := set_trace (Subplots :: trace (set_self_climbs df s1))
                  (set_self_climbs df s1)).
    pose proof (_load_dates_grades_trace s2) as Hd.
    destruct (load_dates_grades_events_derived s2) as [Hex2 Hder].
    assert (Hs2 : trace s2 = Subplots :: load_climbs_events s0
                               ++ Log Starting :: trace s)
      by (unfold s2; simpl trace; rewrite Ht; reflexivity).
    rewrite _climbs_grades_eq. fold s2.
    destruct (_load_dates_grades s2) as [[df2|e2] s3]; simpl snd in Hd |- *.
    + exists (load_climbs_events s0),
             ([SaveFig "test.png"; Show; PlotArea]
              ++ load_dates_grades_events s2 ++ [Subplots]).
      split.
      { simpl trace. rewrite Hd, Hs2, <- !app_assoc. reflexivity. }
      split; [exact Hex|]. split; [exact Hraw|]. split; [|split].
      * intros e0 He0. apply in_app_or in He0.
        destruct He0 as [He0|He0]; [revert e0 He0; all_events|].
        apply in_app_or in He0.
        destruct He0 as [He0|He0]; [auto|revert e0 He0; all_events].
      * exact Hget.
      * split; [|eauto].
        intros _. apply in_or_app. right. apply in_or_app. left. exact Hex2.
    + exists (load_climbs_events s0),
             (load_dates_grades_events s2 ++ [Subplots]).
      split.
      { rewrite Hd, Hs2, <- !app_assoc. reflexivity. }
      split; [exact Hex|]. split; [exact Hraw|]. split; [|split].
      * intros e0 He0. apply in_app_or in He0.
        destruct He0 as [He0|He0]; [auto|revert e0 He0; all_events].
      * exact Hget.
      * split; [|eauto].
        intros _. apply in_or_app. left. exact Hex2.
  - exists (load_climbs_events s0), [].
    simpl snd. rewrite Ht.
    repeat split; auto.
    + intros e0 [].
    + intros [s2 H]. discriminate.
    + intros [].
Qed.

(** C10.  Frame property of the expander: a per-cell count returns the state
    it was given, and so does the row-wise apply; the expander, and
    [_load_dates_grades] on every path, leave the climbs table [self.climbs]
    and the raw cache file as they found them. *)
Theorem expander_leaves_climbs_unchanged s :
  (forall dg, snd (_routes_avail_per_day dg s) = s)
  /\ (forall rows, snd (mapM _routes_avail_per_day rows s) = s)
  /\ self_climbs (snd (expand s)) = self_climbs s
  /\ self_climbs (snd (_load_dates_grades s)) = self_climbs s
  /\ df_climbs_pkl (snd (_load_dates_grades s)) = df_climbs_pkl s.
Proof.
  split; [|split; [|split; [|split]]].
  - intros dg. reflexivity.
  - intros rows. rewrite apply_routes_avail. reflexivity.
  - rewrite expand_eq.
    destruct (series_min (live_starts (self_climbs s))); reflexivity.
  - rewrite _load_dates_grades_eq. cbv zeta.
    destruct (after_load_pickle_frame _DF_DATES_GRADES_PICKLE_PATH
                (Some (timedelta 10)) s) as [H _].
    destruct (cache_hit _DF_DATES_GRADES_PICKLE_PATH (Some (timedelta 10)) s);
      [exact H|].
    destruct (series_min (live_starts (self_climbs s))); [|exact H].
    simpl. exact H.
  - rewrite _load_dates_grades_eq. cbv zeta.
    destruct (after_load_pickle_frame _DF_DATES_GRADES_PICKLE_PATH
                (Some (timedelta 10)) s) as [_ [H _]].
    destruct (cache_hit _DF_DATES_GRADES_PICKLE_PATH (Some (timedelta 10)) s);
      [exact H|].
    destruct (series_min (live_starts (self_climbs s))); [|exact H].
    simpl. exact H.
Qed.

End Theory.

(** * The claims on concrete tables *)

(** ** Witnesses *)

Lemma count_correctness_witness :
  expand example_state
  = (Ok (expand_rows example_climbs), after_expand example_state)
  /\ In (mkcell 172800 5 2) (expand_rows example_climbs)
  /\ count (mkcell 172800 5 2)
     = Z.of_nat (length (filter (fun c => notna (id c))
                           (matching_rows example_climbs 172800 5))).
Proof.
  assert (He : expand example_state
               = (Ok (expand_rows example_climbs), after_expand example_state))
    by reflexivity.
  assert (Hin : In (mkcell 172800 5 2) (expand_rows example_climbs))
    by (vm_compute; auto 10).
  split; [exact He|]. split; [exact Hin|].
  exact (proj1 (count_correctness Z example_state _ _ _ He Hin)).
Defined.

Lemma boundary_inclusive_witness :
  _routes_avail_per_day (86400, 6) example_state = (Ok 1, example_state)
  /\ In (mkcell 86400 6 1) (expand_rows example_climbs).
Proof.
  destruct (boundary_inclusive Z example_state
              [mkclimb (Some 1) 5 (Some 0) (Some 172800)]
              (mkclimb (Some 2) 6 (Some 86400) (Some 86400))
              [mkclimb (Some 3) 5 (Some 172800) (Some 259200)]
              2 86400 86400 86400)
    as [Hcount Hrow];
    [reflexivity | reflexivity | reflexivity | reflexivity | lia
    | left; reflexivity |].
  split; [exact Hcount|].
  apply (Hrow (expand_rows example_climbs) (after_expand example_state));
    [reflexivity | vm_compute; auto 10].
Defined.

Lemma null_id_excluded_witness :
  routes_avail null_id_climbs (0, 5) = routes_avail [] (0, 5)
  /\ routes_avail null_id_climbs (0, 5)
     < Z.of_nat (length (matching_rows null_id_climbs 0 5)).
Proof.
  destruct (null_id_excluded Z null_id_state 0 5) as [_ [_ [Hdrop Hless]]].
  split.
  - apply (Hdrop [] (mkclimb None 5 (Some 0) (Some 0)) []); reflexivity.
  - apply (Hless (mkclimb None 5 (Some 0) (Some 0)));
      [vm_compute; auto | reflexivity].
Defined.

Lemma expansion_completeness_witness :
  has_live_start example_climbs
  /\ Z.of_nat (length (expand_rows example_climbs)) = 3 * 2.
Proof.
  assert (H : has_live_start (self_climbs example_state)).
  { apply normalized_has_live_start; [discriminate|].
    repeat constructor; discriminate. }
  split; [exact H|].
  destruct (expansion_completeness Z example_state H)
    as [a [b [Ha [Hb [_ [_ [_ [Hlen _]]]]]]]].
  injection Ha as <-. injection Hb as <-. exact Hlen.
Defined.

Lemma date_axis_construction_witness :
  has_live_start late_start_climbs
  /\ (forall d,
        In d (map date (expand_rows late_start_climbs)) ->
        calendar_day d < calendar_day 90000).
Proof.
  assert (H : has_live_start (self_climbs late_start_state)).
  { exists (mkclimb (Some 1) 5 (Some 82800) (Some 172800)).
    split; [left; reflexivity|discriminate]. }
  split; [exact H|].
  destruct (date_axis_construction Z late_start_state H)
    as [a [b [Ha [Hb [_ [_ [_ [_ [_ Hlast]]]]]]]]].
  injection Ha as <-. injection Hb as <-.
  apply Hlast. reflexivity.
Defined.

Lemma cache_loader_contract_witness :
  fst (_load_climbs cached_state) = Ok example_climbs
  /\ fst (_load_climbs first_run_state)
     = Ok [mkclimb (Some 1) 5 (Some 0) (Some 1000000);
           mkclimb (Some 3) 6 (Some 86400) (Some 172800)].
Proof.
  destruct (cache_loader_contract Z) as [Hhit [Hmiss [_ [Eraw _]]]].
  rewrite Eraw. split.
  - destruct (Hhit _ _DF_CLIMBS_PICKLE_PATH (Some (timedelta 10)) fetch_climbs
                cached_state (mkfile example_climbs 996400000000))
      as [E _];
      [reflexivity | right; exists (timedelta 10); split; [reflexivity|] |].
    + vm_compute. reflexivity.
    + rewrite E. reflexivity.
  - destruct (Hmiss _ _DF_CLIMBS_PICKLE_PATH (Some (timedelta 10)) fetch_climbs
                first_run_state) as [_ [Hok _]]; [left; reflexivity|].
    destruct (Hok (normalize 1000000 example_records)
                (after_fetch
                   (after_load_pickle _DF_CLIMBS_PICKLE_PATH
                      (Some (timedelta 10)) first_run_state)))
      as [E _]; [reflexivity|].
    rewrite E. reflexivity.
Defined.

Lemma side_effect_counts_witness :
  (fst (_load_climbs cached_state) = Ok example_climbs
   /\ occurrences is_any_read
        (new_events cached_state (snd (_load_climbs cached_state))) = 1%nat
   /\ occurrences is_http_get
        (new_events cached_state (snd (_load_climbs cached_state))) = 0%nat
   /\ occurrences is_any_write
        (new_events cached_state (snd (_load_climbs cached_state))) = 0%nat)
  /\ (fst (_load_climbs first_run_state)
      = Ok (normalize 1000000 example_records)
      /\ occurrences is_http_get
           (new_events first_run_state (snd (_load_climbs first_run_state)))
         = 1%nat
      /\ occurrences is_any_write
           (new_events first_run_state (snd (_load_climbs first_run_state)))
         = 1%nat)
  /\ (fst (_load_dates_grades cached_state) = Ok [mkcell 0 5 1]
      /\ occurrences is_any_read
           (new_events cached_state (snd (_load_dates_grades cached_state)))
         = 1%nat
      /\ occurrences is_expand
           (new_events cached_state (snd (_load_dates_grades cached_state)))
         = 0%nat
      /\ occurrences is_any_write
           (new_events cached_state (snd (_load_dates_grades cached_state)))
         = 0%nat)
  /\ (fst (_load_dates_grades example_state)
      = Ok (expand_rows example_climbs)
      /\ occurrences is_expand
           (new_events example_state (snd (_load_dates_grades example_state)))
         = 1%nat
      /\ occurrences is_any_write
           (new_events example_state (snd (_load_dates_grades example_state)))
         = 1%nat).
Proof.
  split; [|split; [|split]].
  - destruct (side_effect_counts Z cached_state) as [Hhit _].
    destruct (Hhit example_climbs) as [Hr [Hn [_ [Hg Hw]]]]; [reflexivity|].
    auto.
  - destruct (side_effect_counts Z first_run_state) as [_ [Hmiss _]].
    destruct Hmiss as [_ [Hg [_ [Hw Hret]]]]; [reflexivity|].
    pose proof (Hret _ _ 1000000 eq_refl eq_refl) as Hok.
    rewrite Hok in Hw.
    split; [exact Hok|]. split; [exact Hg|]. exact (proj1 Hw).
  - destruct (side_effect_counts Z cached_state) as [_ [_ [Hhit _]]].
    destruct (Hhit [mkcell 0 5 1]) as [Hr [Hn [_ [He [_ Hw]]]]];
      [reflexivity|].
    auto.
  - destruct (side_effect_counts Z example_state) as [_ [_ [_ Hmiss]]].
    destruct Hmiss as [_ [_ [_ [Hw Hret]]]]; [reflexivity|].
    assert (Hstart : has_live_start (self_climbs example_state)).
    { exists (mkclimb (Some 1) 5 (Some 0) (Some 172800)).
      split; [left; reflexivity|discriminate]. }
    pose proof (Hret Hstart) as Hok.
    rewrite Hok in Hw. destruct Hw as [He [Hw _]].
    split; [exact Hok|]. split; [exact He|exact Hw].
Defined.

Lemma raw_load_precedes_derived_cache_witness :
  cache_hit _DF_DATES_GRADES_PICKLE_PATH (Some (timedelta 10))
    derived_only_state = Some [mkcell 0 5 1]
  /\ In (HttpGet URL_CLIMBS) (trace (snd (run derived_only_state))).
Proof.
  split; [reflexivity|].
  destruct (raw_load_precedes_derived_cache Z derived_only_state)
    as [t_raw [t_derived [Htr [_ [_ [_ [Hget _]]]]]]].
  rewrite Htr. apply in_or_app. right. apply in_or_app. left.
  apply Hget. reflexivity.
Defined.

(** ** Counterexamples *)

(** C1 as stated fails: the single climb of [null_id_climbs] matches the cell
    (0, 5), and the count of that cell is 0. *)
Lemma count_correctness_counterexample :
  ~ (forall (s : state Z) df s' (r : cell Z),
        expand s = (Ok df, s') ->
        In r df ->
        count r
        = Z.of_nat (length (matching_rows (self_climbs s)
                              (date r) (cell_grade r)))).
Proof.
  intros H.
  specialize (H null_id_state [mkcell 0 5 0] (after_expand null_id_state)
                (mkcell 0 5 0) eq_refl (or_introl eq_refl)).
  vm_compute in H. discriminate H.
Qed.

(** C2 as stated fails: the live_start values of [late_start_climbs] fall on
    two calendar days and there is one grade, but the table has one row. *)
Lemma expansion_completeness_counterexample :
  ~ (forall (s : state Z) a b df s',
        self_climbs s <> [] ->
        series_min (live_starts (self_climbs s)) = Some a ->
        series_max (live_starts (self_climbs s)) = Some b ->
        expand s = (Ok df, s') ->
        Z.of_nat (length df)
        = calendar_days a b
          * Z.of_nat (length (distinct_grades (self_climbs s)))).
Proof.
  intros H.
  assert (Hne : self_climbs late_start_state <> []) by discriminate.
  specialize (H late_start_state 82800 90000 [mkcell 82800 5 1]
                (after_expand late_start_state) Hne eq_refl eq_refl eq_refl).
  vm_compute in H. discriminate H.
Qed.

(** C3 as stated fails: the climb of [null_id_climbs] starts and ends on the
    date 0 of the axis, and the cell (0, 5) counts 0, as without it. *)
Lemma boundary_inclusive_counterexample :
  ~ (forall (s : state Z) climbs1 c climbs2 d df s',
        self_climbs s = climbs1 ++ c :: climbs2 ->
        date_live_start c = Some d ->
        date_live_end c = Some d ->
        expand s = (Ok df, s') ->
        In d (map date df) ->
        In (mkcell d (grade c)
              (routes_avail (climbs1 ++ climbs2) (d, grade c) + 1)) df).
Proof.
  intros H.
  specialize (H null_id_state [] (mkclimb None 5 (Some 0) (Some 0)) [] 0
                [mkcell 0 5 0] (after_expand null_id_state)
                eq_refl eq_refl eq_refl eq_refl (or_introl eq_refl)).
  destruct H as [H|[]]. discriminate H.
Qed.

(** C7 as stated fails: with [late_start_climbs] the axis holds the single
    date 1970-01-01 23:00, so the calendar day of the maximum live_start,
    1970-01-02, is not on it. *)
Lemma date_axis_construction_counterexample :
  ~ (forall (s : state Z) a b df s',
        self_climbs s <> [] ->
        series_min (live_starts (self_climbs s)) = Some a ->
        series_max (live_starts (self_climbs s)) = Some b ->
        expand s = (Ok df, s') ->
        forall cd,
          calendar_day a <= cd <= calendar_day b ->
          exists d, In d (map date df) /\ calendar_day d = cd).
Proof.
  intros H.
  assert (Hne : self_climbs late_start_state <> []) by discriminate.
  assert (Hcd : calendar_day 82800 <= 1 <= calendar_day 90000)
    by (vm_compute; split; discriminate).
  destruct (H late_start_state 82800 90000 [mkcell 82800 5 1]
              (after_expand late_start_state) Hne eq_refl eq_refl eq_refl
              1 Hcd) as [d [[<-|[]] Hd]].
  vm_compute in Hd. discriminate Hd.
Qed.

(** C6 as stated fails on the miss path, for both caches.  In
    [example_state] there is no raw cache file and the request fails: the
    load sends its request and writes no file.  In [offline_state []] there
    is no derived cache file and no climb has a live_start: the expander
    raises before it logs anything and the load writes no file. *)
Lemma side_effect_counts_counterexample :
  ~ (forall s : state Z,
       (cache_hit _DF_CLIMBS_PICKLE_PATH (Some (timedelta 10)) s = None ->
        let ev := new_events s (snd (_load_climbs s)) in
        occurrences is_http_get ev = 1%nat
        /\ occurrences (is_write "df_climbs.pkl") ev = 1%nat)
       /\ (cache_hit _DF_DATES_GRADES_PICKLE_PATH (Some (timedelta 10)) s
           = None ->
           let ev := new_events s (snd (_load_dates_grades s)) in
           occurrences is_expand ev = 1%nat
           /\ occurrences (is_write "df_dates_grades.pkl") ev = 1%nat)
       /\ (forall df,
             cache_hit _DF_CLIMBS_PICKLE_PATH (Some (timedelta 10)) s
             = Some df ->
             let ev := new_events s (snd (_load_climbs s)) in
             occurrences is_any_read ev = 1%nat
             /\ occurrences is_http_get ev = 0%nat
             /\ occurrences is_any_write ev = 0%nat)
       /\ (forall df,
             cache_hit _DF_DATES_GRADES_PICKLE_PATH (Some (timedelta 10)) s
             = Some df ->
             let ev := new_events s (snd (_load_dates_grades s)) in
             occurrences is_any_read ev = 1%nat
             /\ occurrences is_expand ev = 0%nat
             /\ occurrences is_any_write ev = 0%nat))
  /\ fst (_load_climbs example_state) = Raise RequestException
  /\ occurrences is_any_write
       (new_events example_state (snd (_load_climbs example_state))) = 0%nat
  /\ fst (_load_dates_grades (offline_state [])) = Raise ValueError
  /\ occurrences is_any_write
       (new_events (offline_state [])
          (snd (_load_dates_grades (offline_state [])))) = 0%nat.
Proof.
  split; [|repeat split].
  intros H. destruct (H example_state) as [Hraw _].
  destruct (Hraw eq_refl) as [_ Hw]. vm_compute in Hw. discriminate Hw.
Qed.

(** ** The normalizer on a reading of the clock *)

(** C4.  A first run whose clock reads 1000000.123456 s: the response holds
    a record with a null live_end, line 82 raises [TypeError] after the
    request, no table is returned, no cache file is written and the run
    ends with that exception, where the claim has the null live_end
    replaced by the reading. *)
Theorem normalizer_raises_on_clock_reading :
  api_response real_clock_state = Ok example_records
  /\ In (mkclimb (Some 1) 5 (Some 0) None) example_records
  /\ clock real_clock_state (tick real_clock_state) = 1000000123456
  /\ as_datetime64_s 1000000123456 = None
  /\ fetch_climbs real_clock_state
     = (Raise TypeError, after_type_error real_clock_state)
  /\ fst (_load_climbs real_clock_state) = Raise TypeError
  /\ df_climbs_pkl (snd (_load_climbs real_clock_state)) = None
  /\ occurrences is_any_write
       (new_events real_clock_state (snd (_load_climbs real_clock_state)))
     = 0%nat
  /\ fst (run real_clock_state) = Raise TypeError.
Proof.
  repeat split. left. reflexivity.
Qed.

(** * Further properties of the code *)

Section CacheProperties.

Variable Grade : Type.
Context {ops : GradeOps Grade}.

Implicit Types (c : climb Grade) (climbs : list (climb Grade))
  (s : state Grade) (d : Z) (g : Grade).

(** ** Helper facts *)

Lemma cache_hit_inv {T : Type} (f : path Grade T) (age_max : option Z) s
  (df : T) :
  cache_hit f age_max s = Some df ->
  exists fl,
    fs_get f s = Some fl /\ content fl = df
    /\ fresh age_max (clock s (tick s) - st_mtime fl) = true.
Proof.
  unfold cache_hit. destruct (fs_get f s) as [fl|]; [|discriminate].
  destruct (fresh age_max (clock s (tick s) - st_mtime fl)) eqn:E;
    [|discriminate].
  intros H. injection H as <-. eauto.
Qed.

Lemma cache_hit_missing {T : Type} (f : path Grade T) (age_max : option Z) s :
  fs_get f s = None -> cache_hit f age_max s = None.
Proof. unfold cache_hit. intros ->. reflexivity. Qed.

Lemma tick_after_load_pickle {T : Type} (f : path Grade T)
  (age_max : option Z) s :
  tick (after_load_pickle f age_max s)
  = match fs_get f s with Some _ => S (tick s) | None => tick s end.
Proof.
  unfold after_load_pickle. destruct (fs_get f s); reflexivity.
Qed.

Lemma normalize_has_live_start (today : Z) (records : list (climb Grade)) :
  has_live_start (normalize today records) <-> has_live_start records.
Proof.
  unfold has_live_start, normalize, dropna_live_start, fill_live_end.
  split.
  - intros [c [Hin Hs]]. apply filter_In in Hin. destruct Hin as [Hin _].
    apply in_map_iff in Hin. destruct Hin as [c0 [E Hin0]].
    exists c0. split; [exact Hin0|].
    destruct (notna (date_live_end c0)); subst c; exact Hs.
  - intros [c [Hin Hs]].
    exists (if notna (date_live_end c) then c
            else mkclimb (id c) (grade c) (date_live_start c) (Some today)).
    split.
    + apply filter_In. split.
      * apply in_map_iff. exists c. auto.
      * destruct (notna (date_live_end c)); simpl;
          (destruct (date_live_start c); [reflexivity|congruence]).
    + destruct (notna (date_live_end c)); exact Hs.
Qed.

Lemma no_live_start_min climbs :
  ~ has_live_start climbs -> series_min (live_starts climbs) = None.
Proof.
  intros H. destruct (live_starts climbs) eqn:E; [reflexivity|].
  exfalso. apply H, has_live_start_starts. rewrite E. discriminate.
Qed.

Lemma has_live_start_min climbs :
  has_live_start climbs ->
  exists a, series_min (live_starts climbs) = Some a.
Proof.
  intros H. destruct (live_start_extremes _ _ H) as [a [_ [Ha _]]]. eauto.
Qed.

(** ** The pickle files *)

(** X1.  Writing a table with [_save_df_to_pickle] and loading the file back
    with [_load_pickle] returns that table when the clock reading taken by
    the load is less than [age_max] after the one that stamped the file (or
    [age_max] is [None]), and returns [None] when it is [age_max] or more
    after it. *)
Theorem pickle_round_trip {T : Type} (f : path Grade T) (df : T)
  (age_max : option Z) s :
  let elapsed := clock s (S (tick s)) - clock s (tick s) in
  (age_max = None \/ (exists a, age_max = Some a /\ elapsed < a) ->
   fst (bind (_save_df_to_pickle df f) (fun _ => _load_pickle f age_max) s)
   = Ok (Some df))
  /\ ((exists a, age_max = Some a /\ a <= elapsed) ->
      fst (bind (_save_df_to_pickle df f) (fun _ => _load_pickle f age_max) s)
      = Ok None).
Proof.
  cbv zeta. unfold bind. rewrite _save_df_to_pickle_eq, _load_pickle_eq.
  simpl fst. unfold cache_hit.
  destruct (after_save_frame _ f df s) as [_ [_ [Hck [_ Hf]]]].
  rewrite Hf, Hck. simpl st_mtime. simpl content.
  assert (Ht : tick (after_save f df s) = S (tick s))
    by (destruct f; reflexivity).
  rewrite Ht. split.
  - intros H. apply fresh_true in H. rewrite H. reflexivity.
  - intros H. apply fresh_false in H. rewrite H. reflexivity.
Qed.

(** X2.  [_load_pickle] only reads.  The file is inspected and read only
    after [exists()] answered true, so a missing file is never an error: in
    every state the call returns, and it returns [None] exactly when the file
    is missing or its age is [age_max] or more.  It leaves both files and
    [self.climbs] as they are and adds no write and no request to the trace;
    for a missing file the clock is not even read. *)
Theorem load_pickle_is_read_only {T : Type} (f : path Grade T)
  (age_max : option Z) s :
  (exists r, fst (_load_pickle f age_max s) = Ok r)
  /\ (fst (_load_pickle f age_max s) = Ok None <->
      fs_get f s = None
      \/ exists fl a, fs_get f s = Some fl /\ age_max = Some a
                      /\ a <= clock s (tick s) - st_mtime fl)
  /\ df_climbs_pkl (snd (_load_pickle f age_max s)) = df_climbs_pkl s
  /\ df_dates_grades_pkl (snd (_load_pickle f age_max s))
     = df_dates_grades_pkl s
  /\ self_climbs (snd (_load_pickle f age_max s)) = self_climbs s
  /\ occurrences is_any_write (new_events s (snd (_load_pickle f age_max s)))
     = 0%nat
  /\ occurrences is_http_get (new_events s (snd (_load_pickle f age_max s)))
     = 0%nat
  /\ (fs_get f s = None -> tick (snd (_load_pickle f age_max s)) = tick s).
Proof.
  rewrite _load_pickle_eq. simpl fst. simpl snd.
  destruct (after_load_pickle_frame _ f age_max s)
    as [Hc [Hr [Hd [_ [_ Htr]]]]].
  split; [eauto|]. split; [|split; [exact Hr|split; [exact Hd|split; [exact Hc|]]]].
  - split.
    + intros H. injection H as H.
      destruct (cache_hit_cases _ f age_max s) as [[fl [Hf Hfresh]]|Hmiss];
        [|exact Hmiss].
      destruct (cache_hit_some _ f age_max s fl Hf Hfresh) as [E _].
      congruence.
    + intros H. destruct (cache_hit_none _ f age_max s H) as [-> _].
      reflexivity.
  - rewrite (new_events_app _ s _ _ Htr).
    split; [|split].
    + unfold load_pickle_events. destruct (fs_get f s) as [fl|];
        [cbv zeta; destruct (fresh age_max (clock s (tick s) - st_mtime fl))|];
        reflexivity.
    + unfold load_pickle_events. destruct (fs_get f s) as [fl|];
        [cbv zeta; destruct (fresh age_max (clock s (tick s) - st_mtime fl))|];
        reflexivity.
    + intros Hf. rewrite tick_after_load_pickle, Hf. reflexivity.
Qed.

(** ** Whole runs *)

#[local] Arguments after_load_pickle : simpl never.

Lemma alp_self_climbs {T : Type} (f : path Grade T) (a : option Z) s :
  self_climbs (after_load_pickle f a s) = self_climbs s.
Proof. apply after_load_pickle_frame. Qed.

Lemma alp_climbs_pkl {T : Type} (f : path Grade T) (a : option Z) s :
  df_climbs_pkl (after_load_pickle f a s) = df_climbs_pkl s.
Proof. apply after_load_pickle_frame. Qed.

Lemma alp_dates_grades_pkl {T : Type} (f : path Grade T) (a : option Z) s :
  df_dates_grades_pkl (after_load_pickle f a s) = df_dates_grades_pkl s.
Proof. apply after_load_pickle_frame. Qed.

Lemma alp_api_response {T : Type} (f : path Grade T) (a : option Z) s :
  api_response (after_load_pickle f a s) = api_response s.
Proof. apply after_load_pickle_frame. Qed.

Lemma alp_clock {T : Type} (f : path Grade T) (a : option Z) s :
  clock (after_load_pickle f a s) = clock s.
Proof. apply after_load_pickle_frame. Qed.

Create Rewrite HintDb frames.

#[local] Hint Rewrite @alp_self_climbs @alp_climbs_pkl @alp_dates_grades_pkl
  @alp_api_response @alp_clock @trace_after_load_pickle
  @tick_after_load_pickle @cache_hit_set_trace : frames.

Ltac frames := repeat (progress (autorewrite with frames; cbn)).

(** Splits [(Ok x, st) = (Ok y, st')] without reducing the states. *)
Ltac ok_pair H :=
  let H1 := fresh "H" in
  let H2 := fresh "H" in
  apply pair_equal_spec in H; destruct H as [H1 H2];
  injection H1 as <-; rewrite <- H2; clear H2.

Lemma run_cases s :
  run s =
  match _load_climbs (set_trace (Log Starting :: trace s) s) with
  | (Ok df, s1) => _climbs_grades (set_self_climbs df s1)
  | (Raise e, s1) => (Raise e, s1)
  end.
Proof.
  rewrite run_eq, __init___eq.
  destruct (_load_climbs (set_trace (Log Starting :: trace s) s)) as [[df|e] s1];
    reflexivity.
Qed.

Lemma cache_hit_fresh {T : Type} (f : path Grade T) (a : Z) s (fl : file T) :
  fs_get f s = Some fl ->
  clock s (tick s) - st_mtime fl < a ->
  cache_hit f (Some a) s = Some (content fl)
  /\ load_pickle_events f (Some a) s
     = [Log LoadingPickleDone; ReadPickle (path_name f);
        Log (LoadingPickle (path_name f)
               (clock s (tick s) - st_mtime fl) (Some a));
        Stat (path_name f); Exists (path_name f)].
Proof.
  intros Hf Hage. apply cache_hit_some; [exact Hf|].
  right. exists a. auto.
Qed.

Lemma _load_climbs_ok_file s df s1 :
  _load_climbs s = (Ok df, s1) ->
  (exists fl, df_climbs_pkl s1 = Some fl /\ content fl = df)
  /\ df_dates_grades_pkl s1 = df_dates_grades_pkl s.
Proof.
  rewrite _load_climbs_eq. cbv zeta.
  destruct (cache_hit _DF_CLIMBS_PICKLE_PATH (Some (timedelta 10)) s)
    as [df0|] eqn:Hhit.
  - intros H. ok_pair H.
    destruct (cache_hit_inv _ _ _ _ Hhit) as [fl [Hf [Hc _]]].
    frames. split; [exists fl; auto|reflexivity].
  - destruct (api_response s) as [[|r rs]|e]; try discriminate.
    destruct (as_datetime64_s (fetch_reading s)); try discriminate.
    intros H. ok_pair H.
    split; [eexists; split; reflexivity|frames; reflexivity].
Qed.

Lemma _load_dates_grades_ok_file s df s1 :
  _load_dates_grades s = (Ok df, s1) ->
  (exists fl, df_dates_grades_pkl s1 = Some fl /\ content fl = df)
  /\ df_climbs_pkl s1 = df_climbs_pkl s.
Proof.
  rewrite _load_dates_grades_eq. cbv zeta.
  destruct (cache_hit _DF_DATES_GRADES_PICKLE_PATH (Some (timedelta 10)) s)
    as [df0|] eqn:Hhit.
  - intros H. ok_pair H.
    destruct (cache_hit_inv _ _ _ _ Hhit) as [fl [Hf [Hc _]]].
    frames. split; [exists fl; auto|reflexivity].
  - destruct (series_min (live_starts (self_climbs s))); try discriminate.
    intros H. ok_pair H.
    split; [eexists; split; reflexivity|frames; reflexivity].
Qed.

Lemma _load_dates_grades_self_climbs s :
  self_climbs (snd (_load_dates_grades s)) = self_climbs s.
Proof.
  rewrite _load_dates_grades_eq. cbv zeta.
  destruct (cache_hit _DF_DATES_GRADES_PICKLE_PATH (Some (timedelta 10)) s);
    [apply alp_self_climbs|].
  destruct (series_min (live_starts (self_climbs s)));
    [|apply alp_self_climbs].
  cbn [snd]. rewrite (proj1 (after_save_frame _ _ _ _)).
  unfold after_expand. cbn [self_climbs set_trace]. apply alp_self_climbs.
Qed.

(** The files and the climbs table after a run that returns. *)
Lemma run_ok_files s (df : list (cell Grade)) s1 :
  run s = (Ok df, s1) ->
  exists fl1 fl2,
    df_climbs_pkl s1 = Some fl1 /\ content fl1 = self_climbs s1
    /\ df_dates_grades_pkl s1 = Some fl2 /\ content fl2 = df.
Proof.
  intros Hrun. rewrite run_cases in Hrun.
  destruct (_load_climbs (set_trace (Log Starting :: trace s) s))
    as [[cl|e] s'] eqn:E1; [|discriminate].
  apply _load_climbs_ok_file in E1. destruct E1 as [[fl1 [Hf1 Hc1]] _].
  rewrite _climbs_grades_eq in Hrun.
  destruct (_load_dates_grades
              (set_trace (Subplots :: trace (set_self_climbs cl s'))
                 (set_self_climbs cl s'))) as [[df2|e2] s3] eqn:E2;
    [|discriminate].
  pose proof (_load_dates_grades_self_climbs
                (set_trace (Subplots :: trace (set_self_climbs cl s'))
                   (set_self_climbs cl s'))) as Hcl.
  rewrite E2 in Hcl.
  apply _load_dates_grades_ok_file in E2.
  destruct E2 as [[fl2 [Hf2 Hc2]] Hr]. cbn in Hr, Hcl.
  ok_pair Hrun. cbn.
  exists fl1, fl2. rewrite Hr, Hcl. auto.
Qed.

(** X3.  A run that returns leaves both cache files in place, the raw one
    holding the table kept in [self.climbs] and the derived one the table
    returned.  A second run started while both files are younger than ten
    days returns the same table without a request to the API and without
    writing a cache file: the one file it writes is the chart image
    [test.png]. *)
Theorem second_run_served_from_cache s (df : list (cell Grade)) s1 :
  run s = (Ok df, s1) ->
  (forall fl, df_climbs_pkl s1 = Some fl ->
              clock s1 (tick s1) - st_mtime fl < timedelta 10) ->
  (forall fl, df_dates_grades_pkl s1 = Some fl ->
              clock s1 (S (tick s1)) - st_mtime fl < timedelta 10) ->
  (exists fl1 fl2,
      df_climbs_pkl s1 = Some fl1 /\ content fl1 = self_climbs s1
      /\ df_dates_grades_pkl s1 = Some fl2 /\ content fl2 = df)
  /\ fst (run s1) = Ok df
  /\ occurrences is_http_get (new_events s1 (snd (run s1))) = 0%nat
  /\ filter is_any_write (new_events s1 (snd (run s1)))
     = [SaveFig "test.png"]
  /\ df_climbs_pkl (snd (run s1)) = df_climbs_pkl s1
  /\ df_dates_grades_pkl (snd (run s1)) = df_dates_grades_pkl s1.
Proof.
  intros Hrun Hraw Hder.
  pose proof (run_ok_files _ _ _ Hrun) as Hfiles.
  split; [exact Hfiles|].
  destruct Hfiles as [fl1 [fl2 [Hf1 [_ [Hf2 Hc]]]]].
  specialize (Hraw fl1 Hf1). specialize (Hder fl2 Hf2).
  set (s0 := set_trace (Log Starting :: trace s1) s1).
  destruct (cache_hit_fresh _DF_CLIMBS_PICKLE_PATH (timedelta 10) s0 fl1 Hf1 Hraw)
    as [Hhit1 Hev1].
  set (st0 := set_self_climbs (content fl1)
                (after_load_pickle _DF_CLIMBS_PICKLE_PATH
                   (Some (timedelta 10)) s0)).
  set (st := set_trace (Subplots :: trace st0) st0).
  assert (Hf2' : fs_get _DF_DATES_GRADES_PICKLE_PATH st = Some fl2).
  { unfold st, st0, s0. frames. exact Hf2. }
  assert (Hder' : clock st (tick st) - st_mtime fl2 < timedelta 10).
  { unfold st, st0, s0. frames. rewrite Hf1. exact Hder. }
  destruct (cache_hit_fresh _DF_DATES_GRADES_PICKLE_PATH (timedelta 10) st fl2
              Hf2' Hder') as [Hhit2 Hev2].
  assert (E : run s1
              = (Ok df,
                 after_plot (after_load_pickle _DF_DATES_GRADES_PICKLE_PATH
                               (Some (timedelta 10)) st))).
  { rewrite run_cases. fold s0. rewrite _load_climbs_eq. cbv zeta.
    rewrite Hhit1. fold st0. rewrite _climbs_grades_eq. fold st.
    rewrite _load_dates_grades_eq. cbv zeta.
    rewrite Hhit2, Hc. reflexivity. }
  rewrite E. cbn [fst snd].
  assert (Htr : trace (after_plot
                         (after_load_pickle _DF_DATES_GRADES_PICKLE_PATH
                            (Some (timedelta 10)) st))
                = ([SaveFig "test.png"; Show; PlotArea]
                   ++ load_pickle_events _DF_DATES_GRADES_PICKLE_PATH
                        (Some (timedelta 10)) st
                   ++ [Subplots]
                   ++ load_pickle_events _DF_CLIMBS_PICKLE_PATH
                        (Some (timedelta 10)) s0
                   ++ [Log Starting]) ++ trace s1).
  { unfold after_plot. cbn [trace set_trace].
    rewrite trace_after_load_pickle.
    replace (trace st)
      with (Subplots
            :: load_pickle_events _DF_CLIMBS_PICKLE_PATH
                 (Some (timedelta 10)) s0
            ++ Log Starting :: trace s1).
    - cbn [app]. rewrite <- !app_assoc. cbn [app]. rewrite <- ?app_assoc.
      reflexivity.
    - unfold st, st0, set_self_climbs. cbn [trace set_trace].
      rewrite trace_after_load_pickle. reflexivity. }
  rewrite (new_events_app _ s1 _ _ Htr), Hev1, Hev2.
  split; [reflexivity|]. split; [reflexivity|]. split; [reflexivity|].
  unfold after_plot, st, st0, s0. cbn. frames. auto.
Qed.

Lemma load_pickle_events_set_trace {T : Type} (f : path Grade T)
  (a : option Z) (t : list event) s :
  load_pickle_events f a (set_trace t s) = load_pickle_events f a s.
Proof. destruct f; reflexivity. Qed.

#[local] Hint Rewrite @load_pickle_events_set_trace : frames.

(** X4.  When the raw cache is absent or expired and the request fails, or
    the response holds no record, the run raises the exception of the
    request, respectively [AttributeError]: exactly one request has been
    sent, the derived cache has not been looked at, and both cache files and
    [self.climbs] are as before the run. *)
Theorem failed_fetch_leaves_caches s (e : exn) :
  cache_hit _DF_CLIMBS_PICKLE_PATH (Some (timedelta 10)) s = None ->
  api_response s = Raise e
  \/ (api_response s = Ok [] /\ e = AttributeError) ->
  fst (run s) = Raise e
  /\ df_climbs_pkl (snd (run s)) = df_climbs_pkl s
  /\ df_dates_grades_pkl (snd (run s)) = df_dates_grades_pkl s
  /\ self_climbs (snd (run s)) = self_climbs s
  /\ occurrences is_http_get (new_events s (snd (run s))) = 1%nat
  /\ occurrences is_any_write (new_events s (snd (run s))) = 0%nat
  /\ occurrences on_derived (new_events s (snd (run s))) = 0%nat.
Proof.
  intros Hmiss Hapi.
  set (s0 := set_trace (Log Starting :: trace s) s).
  assert (E : run s
              = (Raise e,
                 after_request
                   (after_load_pickle _DF_CLIMBS_PICKLE_PATH
                      (Some (timedelta 10)) s0))).
  { rewrite run_cases. fold s0. rewrite _load_climbs_eq. cbv zeta.
    unfold s0 at 1. rewrite cache_hit_set_trace, Hmiss.
    change (api_response s0) with (api_response s).
    destruct Hapi as [-> | [-> ->]]; reflexivity. }
  rewrite E. cbn [fst snd].
  assert (Htr : trace (after_request
                         (after_load_pickle _DF_CLIMBS_PICKLE_PATH
                            (Some (timedelta 10)) s0))
                = (HttpGet URL_CLIMBS :: Log LoadingDataFromAPI
                   :: load_pickle_events _DF_CLIMBS_PICKLE_PATH
                        (Some (timedelta 10)) s ++ [Log Starting])
                  ++ trace s).
  { unfold after_request, set_trace. cbn [trace].
    rewrite trace_after_load_pickle. unfold s0.
    rewrite load_pickle_events_set_trace. cbn [trace set_trace app].
    rewrite <- app_assoc. reflexivity. }
  rewrite (new_events_app _ s _ _ Htr).
  split; [reflexivity|].
  unfold after_request, set_trace. cbn [df_climbs_pkl df_dates_grades_pkl self_climbs].
  rewrite alp_climbs_pkl, alp_dates_grades_pkl, alp_self_climbs.
  split; [reflexivity|]. split; [reflexivity|]. split; [reflexivity|].
  destruct (load_pickle_events_miss _ _ _ _ Hmiss) as [-> | ->];
    repeat split.
Qed.

(** The state in which the derived cache is loaded, after a raw load served
    from the file. *)
Lemma run_raw_hit s (fl : file (list (climb Grade))) :
  df_climbs_pkl s = Some fl ->
  clock s (tick s) - st_mtime fl < timedelta 10 ->
  run s =
  _climbs_grades
    (mkstate (content fl) (Some fl) (df_dates_grades_pkl s) (api_response s)
       (clock s) (S (tick s))
       ([Log LoadingPickleDone; ReadPickle "df_climbs.pkl";
         Log (LoadingPickle "df_climbs.pkl"
                (clock s (tick s) - st_mtime fl) (Some (timedelta 10)));
         Stat "df_climbs.pkl"; Exists "df_climbs.pkl"; Log Starting]
        ++ trace s)).
Proof.
  intros Hf Hage. rewrite run_cases, _load_climbs_eq. cbv zeta.
  set (s0 := set_trace (Log Starting :: trace s) s).
  destruct (cache_hit_fresh _DF_CLIMBS_PICKLE_PATH (timedelta 10) s0 fl Hf Hage)
    as [-> Hev].
  f_equal. unfold after_load_pickle. rewrite Hev.
  change (fs_get _DF_CLIMBS_PICKLE_PATH s0) with (df_climbs_pkl s).
  rewrite Hf. destruct s; cbn in *. subst. reflexivity.
Qed.

(** The state in which the derived cache is loaded, after a raw load that
    fetched the records because there was no raw cache file. *)
Lemma run_raw_fetch s (r : climb Grade) (rs : list (climb Grade)) (t : Z) :
  df_climbs_pkl s = None ->
  api_response s = Ok (r :: rs) ->
  as_datetime64_s (clock s (tick s)) = Some t ->
  run s =
  _climbs_grades
    (mkstate (normalize t (r :: rs))
       (Some (mkfile (normalize t (r :: rs)) (clock s (S (tick s)))))
       (df_dates_grades_pkl s) (api_response s) (clock s) (S (S (tick s)))
       ([ToPickle "df_climbs.pkl"; Log (SavingPickleTo "df_climbs.pkl");
         Log SavingPickle; HttpGet URL_CLIMBS; Log LoadingDataFromAPI;
         Exists "df_climbs.pkl"; Log Starting]
        ++ trace s)).
Proof.
  intros Hf Hapi Ht. rewrite run_cases, _load_climbs_eq. cbv zeta.
  destruct s as [cl fc fd api ck tk tr]; cbn in Hf, Hapi, Ht. subst fc api.
  cbn. rewrite Ht. reflexivity.
Qed.

(** The run when line 82 raises: no raw cache file, a response with
    records, and a reading of the clock that is not a whole second. *)
Lemma run_raw_type_error s (r : climb Grade) (rs : list (climb Grade)) :
  df_climbs_pkl s = None ->
  api_response s = Ok (r :: rs) ->
  as_datetime64_s (clock s (tick s)) = None ->
  run s =
  (Raise TypeError,
   mkstate (self_climbs s) None (df_dates_grades_pkl s) (api_response s)
     (clock s) (S (tick s))
     ([HttpGet URL_CLIMBS; Log LoadingDataFromAPI;
       Exists "df_climbs.pkl"; Log Starting] ++ trace s)).
Proof.
  intros Hf Hapi Ht. rewrite run_cases, _load_climbs_eq. cbv zeta.
  destruct s as [cl fc fd api ck tk tr]; cbn in Hf, Hapi, Ht. subst fc api.
  cbn. rewrite Ht. reflexivity.
Qed.

(** [_load_dates_grades] when there is no derived cache file. *)
Lemma _load_dates_grades_no_file s :
  df_dates_grades_pkl s = None ->
  _load_dates_grades s =
  match series_min (live_starts (self_climbs s)) with
  | Some _ =>
      (Ok (expand_rows (self_climbs s)),
       mkstate (self_climbs s) (df_climbs_pkl s)
         (Some (mkfile (expand_rows (self_climbs s)) (clock s (tick s))))
         (api_response s) (clock s) (S (tick s))
         ([ToPickle "df_dates_grades.pkl";
           Log (SavingPickleTo "df_dates_grades.pkl");
           Log ColumnAdded; Log DataJoined; Log IndexCreated;
           Exists "df_dates_grades.pkl"] ++ trace s))
  | None =>
      (Raise ValueError,
       mkstate (self_climbs s) (df_climbs_pkl s) None (api_response s)
         (clock s) (tick s) (Exists "df_dates_grades.pkl" :: trace s))
  end.
Proof.
  intros Hf. rewrite _load_dates_grades_eq. cbv zeta.
  rewrite (cache_hit_missing _DF_DATES_GRADES_PICKLE_PATH _ s Hf).
  unfold after_load_pickle, load_pickle_events.
  change (fs_get _DF_DATES_GRADES_PICKLE_PATH s) with (df_dates_grades_pkl s).
  rewrite Hf.
  destruct (series_min (live_starts (self_climbs s)));
    destruct s; cbn in *; subst; reflexivity.
Qed.

(** [_load_dates_grades] when the derived cache file is young enough. *)
Lemma _load_dates_grades_fresh s (fl : file (list (cell Grade))) :
  df_dates_grades_pkl s = Some fl ->
  clock s (tick s) - st_mtime fl < timedelta 10 ->
  _load_dates_grades s =
  (Ok (content fl),
   mkstate (self_climbs s) (df_climbs_pkl s) (Some fl) (api_response s)
     (clock s) (S (tick s))
     ([Log LoadingPickleDone; ReadPickle "df_dates_grades.pkl";
       Log (LoadingPickle "df_dates_grades.pkl"
              (clock s (tick s) - st_mtime fl) (Some (timedelta 10)));
       Stat "df_dates_grades.pkl"; Exists "df_dates_grades.pkl"]
      ++ trace s)).
Proof.
  intros Hf Hage. rewrite _load_dates_grades_eq. cbv zeta.
  destruct (cache_hit_fresh _DF_DATES_GRADES_PICKLE_PATH (timedelta 10) s fl
              Hf Hage) as [-> Hev].
  f_equal. unfold after_load_pickle. rewrite Hev.
  change (fs_get _DF_DATES_GRADES_PICKLE_PATH s) with (df_dates_grades_pkl s).
  rewrite Hf. destruct s; cbn in *. subst. reflexivity.
Qed.

(** [_climbs_grades] when there is no derived cache file. *)
Lemma _climbs_grades_no_file s :
  df_dates_grades_pkl s = None ->
  _climbs_grades s =
  match series_min (live_starts (self_climbs s)) with
  | Some _ =>
      (Ok (expand_rows (self_climbs s)),
       mkstate (self_climbs s) (df_climbs_pkl s)
         (Some (mkfile (expand_rows (self_climbs s)) (clock s (tick s))))
         (api_response s) (clock s) (S (S (tick s)))
         ([SaveFig "test.png"; Show; PlotArea;
           ToPickle "df_dates_grades.pkl";
           Log (SavingPickleTo "df_dates_grades.pkl");
           Log ColumnAdded; Log DataJoined; Log IndexCreated;
           Exists "df_dates_grades.pkl"; Subplots] ++ trace s))
  | None =>
      (Raise ValueError,
       mkstate (self_climbs s) (df_climbs_pkl s) None (api_response s)
         (clock s) (tick s)
         (Exists "df_dates_grades.pkl" :: Subplots :: trace s))
  end.
Proof.
  intros Hf. rewrite _climbs_grades_eq, _load_dates_grades_no_file
    by (cbn; exact Hf).
  cbn [self_climbs set_trace].
  destruct (series_min (live_starts (self_climbs s))); reflexivity.
Qed.

(** [_climbs_grades] when the derived cache file is young enough. *)
Lemma _climbs_grades_fresh s (fl : file (list (cell Grade))) :
  df_dates_grades_pkl s = Some fl ->
  clock s (tick s) - st_mtime fl < timedelta 10 ->
  _climbs_grades s =
  (Ok (content fl),
   mkstate (self_climbs s) (df_climbs_pkl s) (Some fl) (api_response s)
     (clock s) (S (S (tick s)))
     ([SaveFig "test.png"; Show; PlotArea;
       Log LoadingPickleDone; ReadPickle "df_dates_grades.pkl";
       Log (LoadingPickle "df_dates_grades.pkl"
              (clock s (tick s) - st_mtime fl) (Some (timedelta 10)));
       Stat "df_dates_grades.pkl"; Exists "df_dates_grades.pkl"; Subplots]
      ++ trace s)).
Proof.
  intros Hf Hage. rewrite _climbs_grades_eq.
  rewrite (_load_dates_grades_fresh _ fl) by (cbn; assumption).
  reflexivity.
Qed.

Lemma normalize_without_start (today : Z) (records : list (climb Grade)) :
  ~ has_live_start records -> normalize today records = [].
Proof.
  intros H. destruct (normalize today records) as [|c r] eqn:E;
    [reflexivity|].
  exfalso. apply H. apply (normalize_has_live_start today).
  rewrite E. exists c. split; [left; reflexivity|].
  assert (Hin : In c (normalize today records)) by (rewrite E; left; reflexivity).
  unfold normalize, dropna_live_start in Hin. apply filter_In in Hin.
  destruct Hin as [_ Hs]. destruct (date_live_start c); [discriminate|discriminate].
Qed.

(** X5.  The expander returns a table exactly when some climb has a non-null
    live_start.  Otherwise, in particular on an empty climbs table, it raises
    [ValueError] before logging or changing anything, and
    [_load_dates_grades], when there is no derived cache file, propagates the
    exception without creating one. *)
Theorem expand_raises_without_live_start s :
  ((exists df s', expand s = (Ok df, s')) <-> has_live_start (self_climbs s))
  /\ (~ has_live_start (self_climbs s) ->
      expand s = (Raise ValueError, s)
      /\ (df_dates_grades_pkl s = None ->
          fst (_load_dates_grades s) = Raise ValueError
          /\ df_dates_grades_pkl (snd (_load_dates_grades s)) = None
          /\ occurrences is_any_write
               (new_events s (snd (_load_dates_grades s))) = 0%nat))
  /\ (self_climbs s = [] -> expand s = (Raise ValueError, s)).
Proof.
  assert (Hraise : ~ has_live_start (self_climbs s) ->
                   expand s = (Raise ValueError, s)).
  { intros H. rewrite expand_eq, (no_live_start_min _ H). reflexivity. }
  split; [|split].
  - split.
    + intros [df [s' H]]. apply expand_ok_inv in H. tauto.
    + intros H. rewrite (expand_ok _ _ H). eauto.
  - intros H. split; [exact (Hraise H)|]. intros Hf.
    rewrite (_load_dates_grades_no_file _ Hf), (no_live_start_min _ H).
    cbn [fst snd df_dates_grades_pkl].
    rewrite (new_events_app _ s _ [Exists "df_dates_grades.pkl"])
      by reflexivity.
    repeat split.
  - intros E. apply Hraise. rewrite E. intros [c [[] _]].
Qed.

(** X6.  A response whose records all lack a live_start is cached as an
    empty table: on a first run (no cache file) on which line 82 stores the
    reading of the clock, a whole number of seconds, the raw cache file is
    written with no row, then the expander raises [ValueError]; no derived
    cache file is created and the raw cache file is the only file written. *)
Theorem response_without_start_is_cached s (r : climb Grade)
  (rs : list (climb Grade)) (t : Z) :
  df_climbs_pkl s = None ->
  df_dates_grades_pkl s = None ->
  api_response s = Ok (r :: rs) ->
  ~ has_live_start (r :: rs) ->
  as_datetime64_s (clock s (tick s)) = Some t ->
  fst (run s) = Raise ValueError
  /\ df_climbs_pkl (snd (run s)) = Some (mkfile [] (clock s (S (tick s))))
  /\ df_dates_grades_pkl (snd (run s)) = None
  /\ filter is_any_write (new_events s (snd (run s)))
     = [ToPickle "df_climbs.pkl"].
Proof.
  intros Hraw Hder Hapi Hno Ht.
  rewrite (run_raw_fetch _ _ _ _ Hraw Hapi Ht).
  rewrite (normalize_without_start _ _ Hno).
  rewrite _climbs_grades_no_file by (cbn; exact Hder).
  cbn [self_climbs live_starts map dropna series_min fst snd
       df_climbs_pkl df_dates_grades_pkl].
  rewrite (new_events_app _ s _
             [Exists "df_dates_grades.pkl"; Subplots;
              ToPickle "df_climbs.pkl"; Log (SavingPickleTo "df_climbs.pkl");
              Log SavingPickle; HttpGet URL_CLIMBS; Log LoadingDataFromAPI;
              Exists "df_climbs.pkl"; Log Starting])
    by reflexivity.
  repeat split.
Qed.

(** X7.  While a raw cache file without any live_start (for instance the
    empty table) is younger than ten days and there is no derived cache
    file, every run raises [ValueError] without sending a request and
    without writing a file: the raw cache file stays as it is. *)
Theorem cached_table_without_start_keeps_failing s
  (fl : file (list (climb Grade))) :
  df_climbs_pkl s = Some fl ->
  clock s (tick s) - st_mtime fl < timedelta 10 ->
  ~ has_live_start (content fl) ->
  df_dates_grades_pkl s = None ->
  fst (run s) = Raise ValueError
  /\ occurrences is_http_get (new_events s (snd (run s))) = 0%nat
  /\ occurrences is_any_write (new_events s (snd (run s))) = 0%nat
  /\ df_climbs_pkl (snd (run s)) = Some fl
  /\ df_dates_grades_pkl (snd (run s)) = None.
Proof.
  intros Hraw Hage Hno Hder.
  rewrite (run_raw_hit _ _ Hraw Hage).
  rewrite _climbs_grades_no_file by (cbn; exact Hder).
  cbn [self_climbs]. rewrite (no_live_start_min _ Hno).
  cbn [fst snd df_climbs_pkl df_dates_grades_pkl].
  rewrite (new_events_app _ s _
             [Exists "df_dates_grades.pkl"; Subplots;
              Log LoadingPickleDone; ReadPickle "df_climbs.pkl";
              Log (LoadingPickle "df_climbs.pkl"
                     (clock s (tick s) - st_mtime fl) (Some (timedelta 10)));
              Stat "df_climbs.pkl"; Exists "df_climbs.pkl"; Log Starting])
    by reflexivity.
  repeat split.
Qed.

(** X8.  First run, end to end: with no cache file, a response in which
    some record has a live_start and a reading of the clock at line 82 that
    is a whole number of seconds, the run sends one request, normalises the
    records with that reading, keeps the table in [self.climbs], writes it
    to the raw cache file, expands it, writes the expanded table to the
    derived cache file, draws and shows the chart, writes the image
    [test.png] and returns the expanded table: three files written, in that
    order. *)
Theorem first_run_end_to_end s (r : climb Grade) (rs : list (climb Grade))
  (t : Z) :
  df_climbs_pkl s = None ->
  df_dates_grades_pkl s = None ->
  api_response s = Ok (r :: rs) ->
  has_live_start (r :: rs) ->
  as_datetime64_s (clock s (tick s)) = Some t ->
  let climbs := normalize t (r :: rs) in
  fst (run s) = Ok (expand_rows climbs)
  /\ self_climbs (snd (run s)) = climbs
  /\ df_climbs_pkl (snd (run s))
     = Some (mkfile climbs (clock s (S (tick s))))
  /\ df_dates_grades_pkl (snd (run s))
     = Some (mkfile (expand_rows climbs) (clock s (S (S (tick s)))))
  /\ occurrences is_http_get (new_events s (snd (run s))) = 1%nat
  /\ filter is_any_write (new_events s (snd (run s)))
     = [SaveFig "test.png"; ToPickle "df_dates_grades.pkl";
        ToPickle "df_climbs.pkl"].
Proof.
  intros Hraw Hder Hapi Hstart Ht. cbv zeta.
  rewrite (run_raw_fetch _ _ _ _ Hraw Hapi Ht).
  rewrite _climbs_grades_no_file by (cbn; exact Hder).
  cbn [self_climbs].
  destruct (has_live_start_min (normalize t (r :: rs)))
    as [a ->]; [apply normalize_has_live_start; exact Hstart|].
  cbn [fst snd self_climbs df_climbs_pkl df_dates_grades_pkl clock tick].
  rewrite (new_events_app _ s _
             [SaveFig "test.png"; Show; PlotArea;
              ToPickle "df_dates_grades.pkl";
              Log (SavingPickleTo "df_dates_grades.pkl");
              Log ColumnAdded; Log DataJoined; Log IndexCreated;
              Exists "df_dates_grades.pkl"; Subplots;
              ToPickle "df_climbs.pkl"; Log (SavingPickleTo "df_climbs.pkl");
              Log SavingPickle; HttpGet URL_CLIMBS; Log LoadingDataFromAPI;
              Exists "df_climbs.pkl"; Log Starting])
    by reflexivity.
  repeat split.
Qed.

(** X9.  The two caches age independently: when the raw cache file is
    missing but the derived cache file is younger than ten days, a run on
    which line 82 stores the reading of the clock, a whole number of
    seconds, fetches and stores the new records and then returns the table
    of the derived cache file as it is, computed from whatever records were
    there before; the expander does not run and the derived cache file is
    not rewritten. *)
Theorem fresh_derived_cache_hides_new_records s (r : climb Grade)
  (rs : list (climb Grade)) (fl : file (list (cell Grade))) (t : Z) :
  df_climbs_pkl s = None ->
  api_response s = Ok (r :: rs) ->
  df_dates_grades_pkl s = Some fl ->
  clock s (S (S (tick s))) - st_mtime fl < timedelta 10 ->
  as_datetime64_s (clock s (tick s)) = Some t ->
  fst (run s) = Ok (content fl)
  /\ self_climbs (snd (run s)) = normalize t (r :: rs)
  /\ df_climbs_pkl (snd (run s))
     = Some (mkfile (normalize t (r :: rs)) (clock s (S (tick s))))
  /\ df_dates_grades_pkl (snd (run s)) = Some fl
  /\ occurrences is_expand (new_events s (snd (run s))) = 0%nat
  /\ filter is_any_write (new_events s (snd (run s)))
     = [SaveFig "test.png"; ToPickle "df_climbs.pkl"].
Proof.
  intros Hraw Hapi Hder Hage Ht.
  rewrite (run_raw_fetch _ _ _ _ Hraw Hapi Ht).
  rewrite (_climbs_grades_fresh _ fl) by (cbn; assumption).
  cbn [fst snd self_climbs df_climbs_pkl df_dates_grades_pkl clock tick].
  rewrite (new_events_app _ s _
             [SaveFig "test.png"; Show; PlotArea;
              Log LoadingPickleDone; ReadPickle "df_dates_grades.pkl";
              Log (LoadingPickle "df_dates_grades.pkl"
                     (clock s (S (S (tick s))) - st_mtime fl)
                     (Some (timedelta 10)));
              Stat "df_dates_grades.pkl"; Exists "df_dates_grades.pkl";
              Subplots;
              ToPickle "df_climbs.pkl"; Log (SavingPickleTo "df_climbs.pkl");
              Log SavingPickle; HttpGet URL_CLIMBS; Log LoadingDataFromAPI;
              Exists "df_climbs.pkl"; Log Starting])
    by reflexivity.
  repeat split.
Qed.

(** X20.  A first run whose reading of the clock at line 82 is not a whole
    number of seconds: with no raw cache file and a response with records,
    the assignment of line 82 raises [TypeError] after the one request, and
    the run ends there: nothing is written, no cache file is created, the
    derived cache is not looked at and [self.climbs] is not set. *)
Theorem fractional_reading_aborts_first_run s (r : climb Grade)
  (rs : list (climb Grade)) :
  df_climbs_pkl s = None ->
  api_response s = Ok (r :: rs) ->
  clock s (tick s) mod SECOND <> 0 ->
  fst (run s) = Raise TypeError
  /\ df_climbs_pkl (snd (run s)) = None
  /\ df_dates_grades_pkl (snd (run s)) = df_dates_grades_pkl s
  /\ self_climbs (snd (run s)) = self_climbs s
  /\ occurrences is_http_get (new_events s (snd (run s))) = 1%nat
  /\ occurrences is_any_write (new_events s (snd (run s))) = 0%nat
  /\ occurrences on_derived (new_events s (snd (run s))) = 0%nat.
Proof.
  intros Hraw Hapi Hfrac.
  assert (Ht : as_datetime64_s (clock s (tick s)) = None).
  { unfold as_datetime64_s.
    destruct (clock s (tick s) mod SECOND =? 0) eqn:E; [|reflexivity].
    apply Z.eqb_eq in E. contradiction. }
  rewrite (run_raw_type_error _ _ _ Hraw Hapi Ht).
  cbn [fst snd self_climbs df_climbs_pkl df_dates_grades_pkl].
  rewrite (new_events_app _ s _
             [HttpGet URL_CLIMBS; Log LoadingDataFromAPI;
              Exists "df_climbs.pkl"; Log Starting])
    by reflexivity.
  repeat split.
Qed.

(** ** The chart image *)






End CacheProperties.

Section ExpanderProperties.

Variable Grade : Type.
Context {ops : GradeOps Grade}.

Implicit Types (c : climb Grade) (climbs : list (climb Grade))
  (s : state Grade) (d : Z) (g : Grade).

(** ** Sums of columns *)

Lemma series_sum_app (l1 l2 : list Z) :
  series_sum (l1 ++ l2) = series_sum l1 + series_sum l2.
Proof.
  unfold series_sum. induction l1 as [|x r IH]; simpl; [reflexivity|].
  rewrite IH. lia.
Qed.

Lemma series_sum_zero {A : Type} (l : list A) :
  series_sum (map (fun _ => 0) l) = 0.
Proof. induction l as [|x r IH]; simpl; [reflexivity|exact IH]. Qed.

Lemma series_sum_plus {A : Type} (f h : A -> Z) (l : list A) :
  series_sum (map (fun x => f x + h x) l)
  = series_sum (map f l) + series_sum (map h l).
Proof.
  unfold series_sum. induction l as [|x r IH]; simpl; [reflexivity|].
  rewrite IH. lia.
Qed.

Lemma series_sum_filter {A : Type} (p : A -> bool) (f : A -> Z) (l : list A) :
  series_sum (map f (filter p l))
  = series_sum (map (fun x => if p x then f x else 0) l).
Proof.
  unfold series_sum. induction l as [|x r IH]; simpl; [reflexivity|].
  destruct (p x); simpl; rewrite IH; reflexivity.
Qed.

Lemma series_sum_ext {A : Type} (f h : A -> Z) (l : list A) :
  (forall x, In x l -> f x = h x) ->
  series_sum (map f l) = series_sum (map h l).
Proof.
  intros H. f_equal. apply map_ext_in. exact H.
Qed.

Lemma filter_map_comm {A B : Type} (p : B -> bool) (h : A -> B) (l : list A) :
  filter p (map h l) = map h (filter (fun x => p (h x)) l).
Proof.
  induction l as [|x r IH]; simpl; [reflexivity|].
  destruct (p (h x)); simpl; rewrite IH; reflexivity.
Qed.

(** The sum of an indicator over a duplicate-free list of grades. *)
Lemma series_sum_indicator (G : list Grade) (x : Grade) (h : Grade -> Z) :
  NoDup G -> In x G ->
  series_sum (map (fun g => if grade_eqb x g then h g else 0) G) = h x.
Proof.
  intros Hnd. induction Hnd as [|y r Hy Hr IH]; intros Hin; [destruct Hin|].
  simpl. destruct Hin as [->|Hin].
  - rewrite (grade_eqb_refl Grade x).
    rewrite (series_sum_ext _ (fun _ => 0)).
    + rewrite series_sum_zero. lia.
    + intros g Hg. destruct (grade_eqb x g) eqn:E; [|reflexivity].
      apply grade_eqb_eq in E. subst g. contradiction.
  - destruct (grade_eqb x y) eqn:E.
    + apply grade_eqb_eq in E. subst y. contradiction.
    + rewrite (IH Hin). lia.
Qed.

(** The cells of one date: summing, over the grades selected by [P], the
    counts of a table counts the climbs whose grade is selected. *)
Lemma series_sum_over_grades (G : list Grade) (P : Grade -> bool) climbs d :
  NoDup G ->
  (forall c, In c climbs -> In (grade c) G) ->
  series_sum (map (fun g => routes_avail climbs (d, g)) (filter P G))
  = Z.of_nat (length (filter (fun c => notna (id c) && P (grade c)
                                        && live_onb c d) climbs)).
Proof.
  intros Hnd. induction climbs as [|c r IH]; intros Hin.
  - rewrite (series_sum_ext _ (fun _ => 0)); [apply series_sum_zero|].
    intros g _. reflexivity.
  - rewrite (series_sum_ext _
               (fun g => routes_avail [c] (d, g) + routes_avail r (d, g))).
    2: { intros g _. apply (routes_avail_app Grade [c] r). }
    rewrite series_sum_plus, IH by (intros c0 H0; apply Hin; right; exact H0).
    rewrite series_sum_filter.
    rewrite (series_sum_ext _
               (fun g => if grade_eqb (grade c) g
                         then (if notna (id c) && P g && live_onb c d
                               then 1 else 0)
                         else 0)).
    2: { intros g _. rewrite routes_avail_single. unfold matches.
         destruct (grade_eqb (grade c) g), (P g), (live_onb c d),
           (notna (id c)); reflexivity. }
    rewrite series_sum_indicator by (auto; apply Hin; left; reflexivity).
    simpl filter.
    destruct (notna (id c) && P (grade c) && live_onb c d); simpl length; lia.
Qed.

Lemma filter_none {A : Type} (l : list A) : filter (fun _ => false) l = [].
Proof. induction l as [|x r IH]; [reflexivity|exact IH]. Qed.

(** Selecting the pairs of one date in a cross product. *)
Lemma filter_prod_other_dates (dates : list Z) (G : list Grade)
  (P : Grade -> bool) d :
  ~ In d dates ->
  filter (fun dg => (fst dg =? d) && P (snd dg)) (list_prod dates G) = [].
Proof.
  intros Hnin. induction dates as [|x r IH]; [reflexivity|].
  simpl. rewrite filter_app, IH by (intros H; apply Hnin; right; exact H).
  rewrite app_nil_r, filter_map_comm. simpl.
  assert (E : (x =? d) = false).
  { apply Z.eqb_neq. intros ->. apply Hnin. left. reflexivity. }
  rewrite E. simpl. rewrite filter_none. reflexivity.
Qed.

Lemma filter_prod_date (dates : list Z) (G : list Grade)
  (P : Grade -> bool) d :
  NoDup dates -> In d dates ->
  filter (fun dg => (fst dg =? d) && P (snd dg)) (list_prod dates G)
  = map (fun g => (d, g)) (filter P G).
Proof.
  intros Hnd. induction Hnd as [|x r Hx Hr IH]; intros Hin; [destruct Hin|].
  simpl. rewrite filter_app, filter_map_comm. simpl.
  destruct Hin as [->|Hin].
  - rewrite filter_prod_other_dates by exact Hx. rewrite app_nil_r.
    rewrite Z.eqb_refl. simpl. reflexivity.
  - rewrite (IH Hin).
    assert (E : (x =? d) = false).
    { apply Z.eqb_neq. intros ->. contradiction. }
    rewrite E. simpl. rewrite filter_none. reflexivity.
Qed.

Lemma filter_all {A : Type} (l : list A) : filter (fun _ => true) l = l.
Proof. induction l as [|x r IH]; simpl; [reflexivity|rewrite IH; reflexivity]. Qed.

Lemma filter_prod_date_all (dates : list Z) (G : list Grade) d :
  NoDup dates -> In d dates ->
  filter (fun dg => fst dg =? d) (list_prod dates G)
  = map (fun g => (d, g)) G.
Proof.
  intros Hnd Hin.
  transitivity (filter (fun dg => (fst dg =? d) && (fun _ : Grade => true) (snd dg))
                  (list_prod dates G)).
  - apply filter_ext. intros dg. rewrite andb_true_r. reflexivity.
  - etransitivity;
      [apply (filter_prod_date dates G (fun _ => true) d); assumption|].
    rewrite filter_all. reflexivity.
Qed.

Lemma climbs_grades_on_axis climbs c :
  In c climbs -> In (grade c) (grade_axis climbs).
Proof. intros H. apply grade_axis_In. eauto. Qed.

(** ** Counts *)

(** X10.  Every count of the expanded table is a non-negative integer, at
    most the number of climbs of the row's grade and so at most the number
    of rows of the climbs table. *)
Theorem count_bounds s (df : list (cell Grade)) s' (r : cell Grade) :
  expand s = (Ok df, s') ->
  In r df ->
  0 <= count r
  /\ count r
     <= Z.of_nat (length (filter (fun c => grade_eqb (grade c) (cell_grade r))
                            (self_climbs s)))
  /\ count r <= Z.of_nat (length (self_climbs s)).
Proof.
  intros He Hr. apply expand_ok_inv in He. destruct He as [-> _].
  apply expand_rows_In in Hr. destruct Hr as [_ [_ ->]].
  rewrite routes_avail_matching, series_count_map_id.
  unfold matching_rows, matches.
  rewrite <- (filter_filter (fun c => grade_eqb (grade c) (cell_grade r))
                (fun c => live_onb c (date r))).
  pose proof (filter_length_le (fun c => notna (id c))
                (filter (fun c => live_onb c (date r))
                   (filter (fun c => grade_eqb (grade c) (cell_grade r))
                      (self_climbs s)))).
  pose proof (filter_length_le (fun c => live_onb c (date r))
                (filter (fun c => grade_eqb (grade c) (cell_grade r))
                   (self_climbs s))).
  pose proof (filter_length_le (fun c => grade_eqb (grade c) (cell_grade r))
                (self_climbs s)).
  lia.
Qed.

(** X11.  For every date of the expanded table, the counts of the rows of
    that date add up to the number of climbs with a non-null id whose
    interval contains the date: every such climb is counted once, under its
    own grade. *)
Theorem counts_of_a_date_add_up s (df : list (cell Grade)) s' d :
  expand s = (Ok df, s') ->
  In d (map date df) ->
  series_sum (map count (filter (fun r => date r =? d) df))
  = Z.of_nat (length (filter (fun c => notna (id c) && live_onb c d)
                        (self_climbs s))).
Proof.
  intros He Hd. apply expand_ok_inv in He. destruct He as [-> [_ Hstart]].
  assert (Hne : self_climbs s <> []).
  { destruct Hstart as [c [Hin _]]. intros E. rewrite E in Hin. exact Hin. }
  apply (expand_rows_dates Grade _ d Hne) in Hd.
  unfold expand_rows. rewrite filter_map_comm, map_map. cbn [date count].
  rewrite filter_prod_date_all by (auto; apply date_axis_NoDup).
  rewrite map_map. cbn [fst snd].
  rewrite <- (filter_all (grade_axis (self_climbs s))) at 1.
  rewrite (series_sum_over_grades (grade_axis (self_climbs s))
             (fun _ => true) (self_climbs s) d).
  - f_equal. f_equal. apply filter_ext. intros c. rewrite andb_true_r.
    reflexivity.
  - apply grade_axis_NoDup.
  - intros c. apply climbs_grades_on_axis.
Qed.

(** ** Order of the rows *)

Lemma insert_sorted_Sorted (x : Grade) (l : list Grade) :
  (forall u v, Grade_leb u v = true \/ Grade_leb v u = true) ->
  Sorted (fun u v => Grade_leb u v = true) l ->
  Sorted (fun u v => Grade_leb u v = true) (insert_sorted x l).
Proof.
  intros Htot Hs. induction Hs as [|y r Hr IH Hhd]; simpl.
  - repeat constructor.
  - destruct (Grade_leb x y) eqn:E.
    + constructor; [constructor; assumption|constructor; exact E].
    + constructor; [exact IH|].
      assert (Hyx : Grade_leb y x = true)
        by (destruct (Htot x y) as [H|H]; [congruence|exact H]).
      destruct r as [|z r']; simpl.
      * constructor. exact Hyx.
      * destruct (Grade_leb x z); constructor; [exact Hyx|].
        inversion Hhd; assumption.
Qed.

(** X12.  When [<=] on grades is total, the grade axis lists each grade of
    the climbs table once, in ascending order, and the expanded table lists
    its rows date by date along the date axis, each date with the grades in
    that order. *)
Theorem grade_axis_sorted s :
  (forall u v : Grade, Grade_leb u v = true \/ Grade_leb v u = true) ->
  Sorted (fun u v => Grade_leb u v = true) (grade_axis (self_climbs s))
  /\ NoDup (grade_axis (self_climbs s))
  /\ (forall g, In g (grade_axis (self_climbs s)) <->
                exists c, In c (self_climbs s) /\ grade c = g)
  /\ (forall df s',
        expand s = (Ok df, s') ->
        map (fun r => (date r, cell_grade r)) df
        = list_prod (date_axis (self_climbs s)) (grade_axis (self_climbs s))).
Proof.
  intros Htot. split; [|split; [|split]].
  - unfold grade_axis, sorted.
    induction (unique (map grade (self_climbs s))) as [|x r IH]; simpl.
    + constructor.
    + apply insert_sorted_Sorted; assumption.
  - apply grade_axis_NoDup.
  - intros g. apply grade_axis_In.
  - intros df s' He. apply expand_ok_inv in He. destruct He as [-> _].
    apply expand_rows_pairs.
Qed.

(** X13.  When the latest live_start is less than one day after the
    earliest one (in particular when there is a single climb), the expanded
    table holds that earliest live_start as its only date, with one row per
    grade, whatever the live_end values are. *)
Theorem close_starts_single_date s (a b : Z) :
  series_min (live_starts (self_climbs s)) = Some a ->
  series_max (live_starts (self_climbs s)) = Some b ->
  b - a < DAY ->
  expand s
  = (Ok (map (fun g => mkcell a g (routes_avail (self_climbs s) (a, g)))
           (grade_axis (self_climbs s))),
     after_expand s).
Proof.
  intros Ha Hb Hlt. rewrite expand_eq, Ha. f_equal. f_equal.
  unfold expand_rows, date_axis. rewrite Ha, Hb.
  pose proof (series_min_le_max _ _ _ Ha Hb) as Hle.
  assert (E : (b - a) / DAY = 0) by (apply Z.div_small; lia).
  unfold date_range. rewrite E. simpl.
  rewrite app_nil_r, map_map. replace (a + 0) with a by lia. reflexivity.
Qed.

(** ** The normalizer *)

Lemma normalize_app (today : Z) (l1 l2 : list (climb Grade)) :
  normalize today (l1 ++ l2) = normalize today l1 ++ normalize today l2.
Proof.
  unfold normalize, dropna_live_start, fill_live_end.
  rewrite map_app, filter_app. reflexivity.
Qed.

Lemma normalize_fixed (today : Z) (l : list (climb Grade)) :
  normalized l -> normalize today l = l.
Proof.
  unfold normalized. induction 1 as [|c r [Hs He] Hr IH]; [reflexivity|].
  change (c :: r) with ([c] ++ r). rewrite normalize_app. simpl app.
  rewrite IH. unfold normalize, dropna_live_start, fill_live_end. simpl.
  destruct (date_live_end c); [|congruence]. simpl.
  destruct (date_live_start c); [|congruence]. reflexivity.
Qed.

Lemma normalize_normalized (today : Z) (l : list (climb Grade)) :
  normalized (normalize today l).
Proof.
  unfold normalized.
  induction l as [|[i g [a|] [e|]] r IH]; simpl;
    try constructor; try exact IH; simpl; split; discriminate.
Qed.

(** X14.  Normalising is idempotent: a table that already has both dates in
    every row is returned as it is, so normalising a normalised table again,
    even with a later clock reading, changes nothing; and the normalizer
    never adds a row. *)
Theorem normalize_idempotent (today today' : Z) (records : list (climb Grade)) :
  normalize today (normalize today' records) = normalize today' records
  /\ (normalized records -> normalize today records = records)
  /\ (length (normalize today records) <= length records)%nat.
Proof.
  split; [|split].
  - apply normalize_fixed, normalize_normalized.
  - apply normalize_fixed.
  - unfold normalize, dropna_live_start, fill_live_end.
    etransitivity; [apply filter_length_le|]. rewrite length_map. lia.
Qed.

(** The value line 82 stores is the reading of the clock, in seconds. *)
Lemma as_datetime64_s_some (reading t : Z) :
  as_datetime64_s reading = Some t -> reading = t * SECOND.
Proof.
  unfold as_datetime64_s.
  destruct (reading mod SECOND =? 0) eqn:E; [|discriminate].
  intros H. injection H as <-. apply Z.eqb_eq in E.
  rewrite (Z.div_mod reading SECOND) at 1 by discriminate. lia.
Qed.

(** X15.  A climb fetched while still live (null live_end) with a non-null
    id, on a fetch whose reading of the clock at line 82 is a whole number
    [t] of seconds: the fetch returns the normalised table, in which the
    climb ends at [t], and in that table the climb is counted from its
    live_start up to [t], both included, and on no later date: it adds 1 to
    the cell of its grade exactly on those dates. *)
Theorem open_ended_climb_counted_until_fetch s
  (records1 : list (climb Grade)) c (records2 : list (climb Grade))
  (i a t : Z) d :
  api_response s = Ok (records1 ++ c :: records2) ->
  as_datetime64_s (clock s (tick s)) = Some t ->
  id c = Some i ->
  date_live_start c = Some a ->
  date_live_end c = None ->
  let climbs := normalize t (records1 ++ c :: records2) in
  clock s (tick s) = t * SECOND
  /\ fetch_climbs s = (Ok climbs, after_fetch s)
  /\ In (mkclimb (Some i) (grade c) (Some a) (Some t)) climbs
  /\ routes_avail climbs (d, grade c)
     = routes_avail (normalize t (records1 ++ records2)) (d, grade c)
       + (if (a <=? d) && (d <=? t) then 1 else 0).
Proof.
  intros Hapi Ht Hi Ha He. cbv zeta.
  assert (E : normalize t [c]
              = [mkclimb (Some i) (grade c) (Some a) (Some t)]).
  { unfold normalize, dropna_live_start, fill_live_end. simpl.
    rewrite He. simpl. rewrite Ha, Hi. reflexivity. }
  split; [apply as_datetime64_s_some; exact Ht|]. split; [|split].
  - destruct (records1 ++ c :: records2) as [|r rs] eqn:Er.
    + destruct records1; discriminate Er.
    + apply fetch_climbs_whole_second; assumption.
  - change (c :: records2) with ([c] ++ records2).
    rewrite !normalize_app, E. apply in_or_app. right. left. reflexivity.
  - change (c :: records2) with ([c] ++ records2).
    rewrite !normalize_app, E. simpl app. rewrite routes_avail_insert.
    f_equal. unfold matches, live_onb. simpl.
    rewrite (grade_eqb_refl Grade). simpl.
    rewrite Z.geb_leb, andb_true_r. reflexivity.
Qed.

End ExpanderProperties.

Section ChartTableProperties.

Variable Grade : Type.
Context {ops : GradeOps Grade} {num : GradeNum Grade}.

Implicit Types (c : climb Grade) (climbs : list (climb Grade))
  (s : state Grade) (d : Z) (k : Z * Z) (df : list (cell Grade)).

(** ** Group keys *)

Lemma key_eqb_eq (k1 k2 : Z * Z) : key_eqb k1 k2 = true <-> k1 = k2.
Proof.
  destruct k1 as [a1 b1], k2 as [a2 b2]. unfold key_eqb. simpl.
  rewrite andb_true_iff, !Z.eqb_eq. split.
  - intros [-> ->]. reflexivity.
  - intros E. injection E as -> ->. auto.
Qed.

Lemma key_eqb_refl k : key_eqb k k = true.
Proof. apply key_eqb_eq. reflexivity. Qed.

Lemma unique_keys_In (l : list (Z * Z)) k : In k (unique_keys l) <-> In k l.
Proof.
  induction l as [|y r IH]; simpl; [tauto|].
  rewrite filter_In, IH, negb_true_iff. split.
  - intros [H|[H _]]; auto.
  - intros [H|H]; [auto|].
    destruct (key_eqb k y) eqn:E.
    + apply key_eqb_eq in E. auto.
    + auto.
Qed.

Lemma unique_keys_NoDup (l : list (Z * Z)) : NoDup (unique_keys l).
Proof.
  induction l as [|y r IH]; simpl; constructor.
  - rewrite filter_In, negb_true_iff. intros [_ H].
    rewrite key_eqb_refl in H. discriminate.
  - apply NoDup_filter. exact IH.
Qed.

Lemma insert_key_perm k (l : list (Z * Z)) :
  Permutation (insert_key k l) (k :: l).
Proof.
  induction l as [|y r IH]; simpl; [reflexivity|].
  destruct (key_leb k y); [reflexivity|].
  rewrite IH. apply perm_swap.
Qed.

Lemma sort_keys_perm (l : list (Z * Z)) : Permutation (sort_keys l) l.
Proof.
  induction l as [|y r IH]; simpl; [reflexivity|].
  rewrite insert_key_perm. constructor. exact IH.
Qed.

Lemma key_leb_total (k1 k2 : Z * Z) :
  key_leb k1 k2 = true \/ key_leb k2 k1 = true.
Proof.
  destruct k1 as [a1 b1], k2 as [a2 b2]. unfold key_leb. simpl.
  rewrite !orb_true_iff, !andb_true_iff, !Z.ltb_lt, !Z.eqb_eq, !Z.leb_le.
  lia.
Qed.

Lemma insert_key_Sorted k (l : list (Z * Z)) :
  Sorted (fun u v => key_leb u v = true) l ->
  Sorted (fun u v => key_leb u v = true) (insert_key k l).
Proof.
  intros Hs. induction Hs as [|y r Hr IH Hhd]; simpl.
  - repeat constructor.
  - destruct (key_leb k y) eqn:E.
    + constructor; [constructor; assumption|constructor; exact E].
    + constructor; [exact IH|].
      assert (Hyk : key_leb y k = true)
        by (destruct (key_leb_total k y) as [H|H]; [congruence|exact H]).
      destruct r as [|z r']; simpl.
      * constructor. exact Hyk.
      * destruct (key_leb k z); constructor; [exact Hyk|].
        inversion Hhd; assumption.
Qed.

Lemma sort_keys_Sorted (l : list (Z * Z)) :
  Sorted (fun u v => key_leb u v = true) (sort_keys l).
Proof.
  induction l as [|y r IH]; simpl; [constructor|].
  apply insert_key_Sorted. exact IH.
Qed.

Lemma groupby_sum_keys (x : list (cell Grade * Z)) :
  map (fun g => (g_date g, grade_int g)) (groupby_sum x)
  = sort_keys (unique_keys (map group_key x)).
Proof.
  unfold groupby_sum. rewrite map_map. simpl.
  erewrite map_ext; [apply map_id|]. intros [a b]. reflexivity.
Qed.

(** X16.  The grouped table has exactly one row for each (date, grade_int)
    pair that occurs in the table it is built from, and lists the rows in
    ascending order of date, then of grade_int. *)
Theorem grouped_keys_unique_and_sorted df :
  let keys := map (fun g => (g_date g, grade_int g))
                  (groupby_sum (add_grade_int df)) in
  NoDup keys
  /\ Sorted (fun u v => key_leb u v = true) keys
  /\ (forall k,
        In k keys <->
        exists r, In r df /\ (date r, Grade_to_int (cell_grade r)) = k).
Proof.
  cbv zeta. rewrite groupby_sum_keys. split; [|split].
  - apply (Permutation_NoDup (Permutation_sym (sort_keys_perm _))).
    apply unique_keys_NoDup.
  - apply sort_keys_Sorted.
  - intros k. split.
    + intros H. apply (Permutation_in _ (sort_keys_perm _)) in H.
      apply unique_keys_In, in_map_iff in H. destruct H as [x [E Hx]].
      unfold add_grade_int in Hx. apply in_map_iff in Hx.
      destruct Hx as [r [<- Hr]]. exists r. auto.
    + intros [r [Hr E]].
      apply (Permutation_in _ (Permutation_sym (sort_keys_perm _))).
      apply unique_keys_In, in_map_iff.
      exists (r, Grade_to_int (cell_grade r)). split; [exact E|].
      unfold add_grade_int. apply in_map_iff. eauto.
Qed.

(** ** Sums over the groups *)

Lemma series_sum_perm (l l' : list Z) :
  Permutation l l' -> series_sum l = series_sum l'.
Proof.
  unfold series_sum. induction 1; simpl; lia.
Qed.

Lemma series_sum_key_indicator (K : list (Z * Z)) k (v : Z) :
  NoDup K -> In k K ->
  series_sum (map (fun k' => if key_eqb k k' then v else 0) K) = v.
Proof.
  intros Hnd. induction Hnd as [|y r Hy Hr IH]; intros Hin; [destruct Hin|].
  simpl. destruct Hin as [->|Hin].
  - rewrite key_eqb_refl.
    rewrite (series_sum_ext _ (fun _ => 0)).
    + rewrite series_sum_zero. lia.
    + intros k' Hk'. destruct (key_eqb k k') eqn:E; [|reflexivity].
      apply key_eqb_eq in E. subst k'. contradiction.
  - destruct (key_eqb k y) eqn:E.
    + apply key_eqb_eq in E. subst y. contradiction.
    + rewrite (IH Hin). lia.
Qed.

(** Summing group by group is summing the whole column. *)
Lemma series_sum_by_groups (x : list (cell Grade * Z)) (K : list (Z * Z))
  (f : cell Grade * Z -> Z) :
  NoDup K ->
  (forall y, In y x -> In (group_key y) K) ->
  series_sum (map (fun k => series_sum (map f (group_rows x k))) K)
  = series_sum (map f x).
Proof.
  intros Hnd. induction x as [|y r IH]; intros Hin.
  - unfold group_rows. simpl. apply series_sum_zero.
  - rewrite (series_sum_ext _
               (fun k => (if key_eqb (group_key y) k then f y else 0)
                         + series_sum (map f (group_rows r k)))).
    2: { intros k _. unfold group_rows. simpl.
         destruct (key_eqb (group_key y) k); simpl; lia. }
    rewrite series_sum_plus, IH by (intros z Hz; apply Hin; right; exact Hz).
    rewrite series_sum_key_indicator
      by (auto; apply Hin; left; reflexivity).
    reflexivity.
Qed.

(** X17.  Grouping loses no count: the summed counts of the grouped table
    add up to the sum of the count column of the table it is built from. *)
Theorem grouping_preserves_total df :
  series_sum (map g_count (groupby_sum (add_grade_int df)))
  = series_sum (map count df).
Proof.
  unfold groupby_sum. rewrite map_map. cbn [g_count].
  rewrite (series_sum_perm _ _
             (Permutation_map _ (sort_keys_perm _))).
  rewrite (series_sum_by_groups (add_grade_int df)
             (unique_keys (map group_key (add_grade_int df)))
             (fun x => count (fst x))).
  - unfold add_grade_int. rewrite map_map. reflexivity.
  - apply unique_keys_NoDup.
  - intros y Hy. apply unique_keys_In, in_map. exact Hy.
Qed.

(** The counts of one group of the expanded table. *)
Lemma group_count_of_expand_rows climbs d (i : Z) :
  In d (date_axis climbs) ->
  series_sum (map (fun x => count (fst x))
                (group_rows (add_grade_int (expand_rows climbs)) (d, i)))
  = Z.of_nat (length (filter (fun c => notna (id c)
                                        && (Grade_to_int (grade c) =? i)
                                        && live_onb c d) climbs)).
Proof.
  intros Hd. unfold group_rows, add_grade_int, expand_rows.
  rewrite !filter_map_comm, !map_map. cbn [fst snd count].
  rewrite (filter_ext _ (fun dg => (fst dg =? d)
                                   && (fun g => Grade_to_int g =? i) (snd dg)))
    by (intros [d' g']; reflexivity).
  pose proof (filter_prod_date Grade (date_axis climbs) (grade_axis climbs)
                (fun g => Grade_to_int g =? i) d
                (date_axis_NoDup Grade climbs) Hd) as E.
  cbv beta in E. rewrite E, map_map. cbn [fst snd].
  apply (series_sum_over_grades Grade (grade_axis climbs)
           (fun g => Grade_to_int g =? i) climbs d).
  - apply grade_axis_NoDup.
  - intros c. apply climbs_grades_on_axis.
Qed.

(** X18.  What the chart shows: when there is no derived cache file and some
    climb has a live_start, [_climbs_grades] obtains a table in which the
    count of the row (date, grade_int) is the number of climbs with a
    non-null id whose interval contains the date and whose grade converts to
    that integer. *)
Theorem chart_counts_climbs_per_integer_grade s :
  df_dates_grades_pkl s = None ->
  has_live_start (self_climbs s) ->
  fst (df_dates_grades_int s)
  = Ok (groupby_sum (add_grade_int (expand_rows (self_climbs s))))
  /\ forall row,
       In row (groupby_sum (add_grade_int (expand_rows (self_climbs s)))) ->
       g_count row
       = Z.of_nat
           (length (filter (fun c => notna (id c)
                                     && (Grade_to_int (grade c) =? grade_int row)
                                     && live_onb c (g_date row))
                      (self_climbs s))).
Proof.
  intros Hf Hstart. split.
  - unfold df_dates_grades_int, bind.
    rewrite (_load_dates_grades_no_file Grade s Hf).
    destruct (has_live_start_min Grade _ Hstart) as [a ->]. reflexivity.
  - intros row Hrow.
    assert (Hkey : In (g_date row, grade_int row)
                     (map (fun g => (g_date g, grade_int g))
                        (groupby_sum
                           (add_grade_int (expand_rows (self_climbs s))))))
      by (apply in_map_iff; eauto).
    rewrite groupby_sum_keys in Hkey.
    apply (Permutation_in _ (sort_keys_perm _)) in Hkey.
    apply unique_keys_In, in_map_iff in Hkey. destruct Hkey as [x [E Hx]].
    unfold add_grade_int in Hx. apply in_map_iff in Hx.
    destruct Hx as [r [<- Hr]]. unfold group_key in E. simpl in E.
    apply expand_rows_In in Hr. destruct Hr as [Hd _].
    injection E as Ed Ei. rewrite Ed in Hd.
    unfold groupby_sum in Hrow. apply in_map_iff in Hrow.
    destruct Hrow as [k [<- _]]. cbn [g_count g_date grade_int] in *.
    destruct k as [kd ki]. cbn [fst snd] in *.
    apply group_count_of_expand_rows. exact Hd.
Qed.

(** X19.  The grouped table of an expanded table has no hole: it holds one
    row for every date of the date axis and every integer that some grade
    of the climbs table converts to, and no other row. *)
Theorem chart_table_is_dense climbs :
  let table := groupby_sum (add_grade_int (expand_rows climbs)) in
  (forall d i,
      (exists row, In row table /\ g_date row = d /\ grade_int row = i) <->
      In d (date_axis climbs)
      /\ exists c, In c climbs /\ Grade_to_int (grade c) = i)
  /\ length table
     = (length (date_axis climbs)
        * length (nodup Z.eq_dec
                    (map (fun c => Grade_to_int (grade c)) climbs)))%nat.
Proof.
  cbv zeta.
  assert (Hkeys : forall d i,
             In (d, i) (map (fun g => (g_date g, grade_int g))
                          (groupby_sum (add_grade_int (expand_rows climbs))))
             <-> In d (date_axis climbs)
                 /\ exists c, In c climbs /\ Grade_to_int (grade c) = i).
  { intros d i. rewrite groupby_sum_keys. split.
    - intros H. apply (Permutation_in _ (sort_keys_perm _)) in H.
      apply unique_keys_In, in_map_iff in H. destruct H as [x [E Hx]].
      unfold add_grade_int in Hx. apply in_map_iff in Hx.
      destruct Hx as [r [<- Hr]]. unfold group_key in E. simpl in E.
      injection E as <- <-.
      apply expand_rows_In in Hr. destruct Hr as [Hd [Hg _]].
      split; [exact Hd|]. apply grade_axis_In in Hg.
      destruct Hg as [c [Hc <-]]. eauto.
    - intros [Hd [c [Hc <-]]].
      apply (Permutation_in _ (Permutation_sym (sort_keys_perm _))).
      apply unique_keys_In, in_map_iff.
      exists (mkcell d (grade c) (routes_avail climbs (d, grade c)),
              Grade_to_int (grade c)).
      split; [reflexivity|]. unfold add_grade_int. apply in_map_iff.
      exists (mkcell d (grade c) (routes_avail climbs (d, grade c))).
      split; [reflexivity|]. apply expand_rows_In. simpl.
      repeat split; auto. apply climbs_grades_on_axis. exact Hc. }
  split.
  - intros d i. rewrite <- Hkeys, in_map_iff. split.
    + intros [row [Hrow [<- <-]]]. eauto.
    + intros [row [E Hrow]]. injection E as <- <-. eauto.
  - rewrite <- length_prod.
    rewrite <- (length_map (fun g => (g_date g, grade_int g))).
    apply Permutation_length, NoDup_Permutation.
    + rewrite groupby_sum_keys.
      apply (Permutation_NoDup (Permutation_sym (sort_keys_perm _))).
      apply unique_keys_NoDup.
    + apply NoDup_list_prod; [apply date_axis_NoDup|apply NoDup_nodup].
    + intros [d i]. rewrite Hkeys, in_prod_iff, nodup_In, in_map_iff.
      split; intros [Hd [c H]]; (split; [exact Hd|exists c; tauto]).
Qed.

End ChartTableProperties.

(** * The further properties on concrete tables *)

Lemma pickle_round_trip_witness :
  fst (bind (_save_df_to_pickle example_climbs _DF_CLIMBS_PICKLE_PATH)
         (fun _ => _load_pickle _DF_CLIMBS_PICKLE_PATH (Some (timedelta 10)))
         first_run_state)
  = Ok (Some example_climbs).
Proof.
  apply (proj1 (pickle_round_trip Z _DF_CLIMBS_PICKLE_PATH example_climbs
                  (Some (timedelta 10)) first_run_state)).
  right. exists (timedelta 10). split; [reflexivity|vm_compute; reflexivity].
Defined.

Lemma load_pickle_is_read_only_witness :
  fs_get _DF_CLIMBS_PICKLE_PATH first_run_state = None
  /\ tick (snd (_load_pickle _DF_CLIMBS_PICKLE_PATH (Some (timedelta 10))
                  first_run_state))
     = tick first_run_state.
Proof.
  split; [reflexivity|].
  destruct (load_pickle_is_read_only Z _DF_CLIMBS_PICKLE_PATH
              (Some (timedelta 10)) first_run_state)
    as [_ [_ [_ [_ [_ [_ [_ H]]]]]]].
  apply H. reflexivity.
Defined.

Lemma second_run_served_from_cache_witness :
  fst (run (snd (run first_run_state)))
  = Ok (expand_rows (normalize 1000000 example_records))
  /\ filter is_any_write
       (new_events (snd (run first_run_state))
          (snd (run (snd (run first_run_state)))))
     = [SaveFig "test.png"].
Proof.
  assert (F : fst (run first_run_state)
              = Ok (expand_rows (normalize 1000000 example_records)))
    by (vm_compute; reflexivity).
  assert (E : run first_run_state
              = (Ok (expand_rows (normalize 1000000 example_records)),
                 snd (run first_run_state)))
    by (rewrite <- F; apply surjective_pairing).
  destruct (second_run_served_from_cache Z first_run_state _ _ E)
    as [_ [H1 [_ [H2 _]]]].
  - intros fl H. vm_compute in H. injection H as <-. vm_compute. reflexivity.
  - intros fl H. vm_compute in H. injection H as <-. vm_compute. reflexivity.
  - split; [exact H1|exact H2].
Defined.

Lemma failed_fetch_leaves_caches_witness :
  fst (run example_state) = Raise RequestException
  /\ self_climbs (snd (run example_state)) = example_climbs.
Proof.
  destruct (failed_fetch_leaves_caches Z example_state RequestException)
    as [H1 [_ [_ [H2 _]]]];
    [reflexivity | left; reflexivity |].
  split; [exact H1|exact H2].
Defined.

Lemma expand_raises_without_live_start_witness :
  expand (offline_state []) = (Raise ValueError, offline_state []).
Proof.
  destruct (expand_raises_without_live_start Z (offline_state []))
    as [_ [_ H]].
  apply H. reflexivity.
Defined.

Lemma response_without_start_is_cached_witness :
  fst (run startless_state) = Raise ValueError
  /\ df_climbs_pkl (snd (run startless_state))
     = Some (mkfile [] 1000001000000).
Proof.
  destruct (response_without_start_is_cached Z startless_state
              (mkclimb (Some 1) 5 None None) [] 1000000)
    as [H1 [H2 _]];
    [reflexivity | reflexivity | reflexivity | | reflexivity |].
  - intros [c [[<-|[]] H]]. apply H. reflexivity.
  - split; [exact H1|exact H2].
Defined.

Lemma cached_table_without_start_keeps_failing_witness :
  fst (run empty_cache_state) = Raise ValueError
  /\ occurrences is_http_get
       (new_events empty_cache_state (snd (run empty_cache_state))) = 0%nat.
Proof.
  destruct (cached_table_without_start_keeps_failing Z empty_cache_state
              (mkfile [] 996400000000))
    as [H1 [H2 _]];
    [reflexivity | vm_compute; reflexivity | | reflexivity |].
  - intros [c [[] _]].
  - split; [exact H1|exact H2].
Defined.

Lemma first_run_end_to_end_witness :
  fst (run first_run_state)
  = Ok (expand_rows (normalize 1000000 example_records))
  /\ filter is_any_write
       (new_events first_run_state (snd (run first_run_state)))
     = [SaveFig "test.png"; ToPickle "df_dates_grades.pkl";
        ToPickle "df_climbs.pkl"].
Proof.
  destruct (first_run_end_to_end Z first_run_state
              (mkclimb (Some 1) 5 (Some 0) None)
              [mkclimb (Some 2) 6 None (Some 86400);
               mkclimb (Some 3) 6 (Some 86400) (Some 172800)] 1000000)
    as [H1 [_ [_ [_ [_ H2]]]]];
    [reflexivity | reflexivity | reflexivity | | reflexivity |].
  - exists (mkclimb (Some 1) 5 (Some 0) None).
    split; [left; reflexivity|discriminate].
  - split; [exact H1|exact H2].
Defined.

Lemma fresh_derived_cache_hides_new_records_witness :
  fst (run derived_only_state) = Ok [mkcell 0 5 1]
  /\ self_climbs (snd (run derived_only_state))
     = normalize 1000000 example_records.
Proof.
  destruct (fresh_derived_cache_hides_new_records Z derived_only_state
              (mkclimb (Some 1) 5 (Some 0) None)
              [mkclimb (Some 2) 6 None (Some 86400);
               mkclimb (Some 3) 6 (Some 86400) (Some 172800)]
              (mkfile [mkcell 0 5 1] 996400000000) 1000000)
    as [H1 [H2 _]];
    [reflexivity | reflexivity | reflexivity | vm_compute; reflexivity
    | reflexivity |].
  split; [exact H1|exact H2].
Defined.

Lemma fractional_reading_aborts_first_run_witness :
  clock real_clock_state (tick real_clock_state) = 1000000123456
  /\ fst (run real_clock_state) = Raise TypeError
  /\ df_climbs_pkl (snd (run real_clock_state)) = None.
Proof.
  split; [reflexivity|].
  destruct (fractional_reading_aborts_first_run Z real_clock_state
              (mkclimb (Some 1) 5 (Some 0) None)
              [mkclimb (Some 2) 6 None (Some 86400);
               mkclimb (Some 3) 6 (Some 86400) (Some 172800)])
    as [H1 [H2 _]];
    [reflexivity | reflexivity | vm_compute; discriminate |].
  split; [exact H1|exact H2].
Defined.

Lemma count_bounds_witness :
  0 <= count (mkcell 172800 5 2) /\ count (mkcell 172800 5 2) <= 3.
Proof.
  destruct (count_bounds Z example_state (expand_rows example_climbs)
              (after_expand example_state) (mkcell 172800 5 2))
    as [H1 [_ H2]];
    [reflexivity | vm_compute; auto 10 |].
  split; [exact H1|exact H2].
Defined.

Lemma counts_of_a_date_add_up_witness :
  series_sum (map count (filter (fun r => date r =? 172800)
                           (expand_rows example_climbs)))
  = 2.
Proof.
  rewrite (counts_of_a_date_add_up Z example_state
             (expand_rows example_climbs) (after_expand example_state) 172800);
    [reflexivity | reflexivity | vm_compute; auto 10].
Defined.

Lemma grade_axis_sorted_witness :
  Sorted (fun u v => Grade_leb u v = true) (grade_axis example_climbs).
Proof.
  apply (grade_axis_sorted Z example_state).
  intros u v. simpl. rewrite !Z.leb_le. lia.
Defined.

Lemma close_starts_single_date_witness :
  fst (expand late_start_state) = Ok [mkcell 82800 5 1].
Proof.
  rewrite (close_starts_single_date Z late_start_state 82800 90000);
    [reflexivity | reflexivity | reflexivity | reflexivity].
Defined.

Lemma normalize_idempotent_witness :
  normalized example_climbs /\ normalize 0 example_climbs = example_climbs.
Proof.
  assert (H : normalized example_climbs)
    by (repeat constructor; discriminate).
  split; [exact H|].
  apply (proj1 (proj2 (normalize_idempotent Z 0 0 example_climbs))). exact H.
Defined.

Lemma open_ended_climb_counted_until_fetch_witness :
  fst (fetch_climbs first_run_state)
  = Ok (normalize 1000000 example_records)
  /\ routes_avail (normalize 1000000 example_records) (86400, 5) = 1
  /\ routes_avail (normalize 1000000 example_records) (1000001, 5) = 0.
Proof.
  pose proof
    (fun d =>
       open_ended_climb_counted_until_fetch Z first_run_state []
         (mkclimb (Some 1) 5 (Some 0) None)
         [mkclimb (Some 2) 6 None (Some 86400);
          mkclimb (Some 3) 6 (Some 86400) (Some 172800)]
         1 0 1000000 d eq_refl eq_refl eq_refl eq_refl eq_refl) as H.
  cbv zeta in H.
  split; [|split].
  - destruct (H 0) as [_ [E _]]. rewrite E. reflexivity.
  - destruct (H 86400) as [_ [_ [_ E]]]. exact E.
  - destruct (H 1000001) as [_ [_ [_ E]]]. exact E.
Defined.

Lemma chart_counts_climbs_per_integer_grade_witness :
  In (mkgroup_row 0 5 (21 # 2) 2)
     (groupby_sum (add_grade_int (expand_rows fractional_climbs)))
  /\ g_count (mkgroup_row 0 5 (21 # 2) 2)
     = Z.of_nat
         (length (filter (fun c => notna (id c)
                                   && (Grade_to_int (grade c) =? 5)
                                   && live_onb c 0)
                    fractional_climbs)).
Proof.
  assert (Hin : In (mkgroup_row 0 5 (21 # 2) 2)
                  (groupby_sum (add_grade_int (expand_rows fractional_climbs))))
    by (vm_compute; auto 10).
  split; [exact Hin|].
  destruct (chart_counts_climbs_per_integer_grade Q fractional_state)
    as [_ H]; [reflexivity | |].
  - exists (mkclimb (Some 1) (5 # 1) (Some 0) (Some 172800)).
    split; [left; reflexivity|discriminate].
  - exact (H _ Hin).
Defined.
